(** * Sentryield: the strategy decision engine, embedded and verified

    A shallow embedding of the price oracle ([LivePriceOracle]), the guard
    evaluators ([depegGuard], [slippageGuard], [aprCliffGuard]), the yield
    math ([computeIncentiveAprBps], [computeNetApyBps],
    [estimatePaybackHours]), the disabled [Dex1Adapter], the migration
    report script and the bot control route, with the properties the
    specification states about them and further properties of the code.

    Conventions of the embedding:
    - a JavaScript [number] on which the code does arithmetic (the guards
      and the yield math) is an IEEE 754 binary64 value, [Double.number]:
      sums, differences, products and quotients are rounded to nearest,
      ties to even, and NaN, the infinities and the signed zeros behave as
      in the language; a price that the oracle only stores, compares with
      zero and hands back is the rational [Q] it stands for; millisecond
      timestamps, TTLs and [bigint]s are [Z];
    - [Math.round] rounds half-way cases up: [floor (x + 1/2)], computed
      exactly;
    - a [Promise] that rejects / a [throw] is the left injection of a sum;
    - a plain JS object used as a record ([Record<string, number>]) is an
      association list in insertion order, which is what [Object.entries]
      yields for the ticker-like keys used here; a [Map] is a [gmap];
    - symbols are ASCII strings: [trim] strips ASCII white space and
      [toUpperCase] maps [a-z] to [A-Z]. *)

From Stdlib Require Import ZArith QArith Qround Qabs Lia SpecFloat.
From stdpp Require Import gmap strings list fin_maps pretty.

Open Scope Z_scope.
Set Warnings "-register-all".

(** ** JavaScript primitives shared by the modules *)

Module Js.

(** [a <= b] on the finite numbers the oracle compares. *)
Definition le (a b : Q) : bool := Qle_bool a b.

(** [Record<string, V>] with string keys in insertion order. *)
Definition Record_ (V : Type) : Type := list (string * V).

Fixpoint record_get {V} (k : string) (r : Record_ V) : option V :=
  match r with
  | [] => None
  | (k', v) :: r' => if decide (k = k') then Some v else record_get k r'
  end.

(** [r[k] = v]: overwrite in place, or append a new key. *)
Fixpoint record_set {V} (k : string) (v : V) (r : Record_ V) : Record_ V :=
  match r with
  | [] => [(k, v)]
  | (k', v') :: r' =>
      if decide (k = k') then (k, v) :: r' else (k', v') :: record_set k v r'
  end.

(** [Object.fromEntries(entries)]. *)
Definition Object_fromEntries {V} (entries : list (string * V)) : Record_ V :=
  fold_left (fun r kv => record_set kv.1 kv.2 r) entries [].

(** [[...new Set(xs)]]: first occurrences, in order. *)
Fixpoint uniq_from (seen xs : list string) : list string :=
  match xs with
  | [] => []
  | x :: xs' =>
      if decide (x ∈ seen) then uniq_from seen xs'
      else x :: uniq_from (x :: seen) xs'
  end.

Definition uniq (xs : list string) : list string := uniq_from [] xs.

(** [String.prototype.trim] and [toUpperCase] on ASCII text. *)
Definition is_space (c : Ascii.ascii) : bool :=
  let n := Ascii.nat_of_ascii c in
  (Nat.eqb n 32 || (Nat.leb 9 n && Nat.leb n 13))%bool.

Definition upper_char (c : Ascii.ascii) : Ascii.ascii :=
  let n := Ascii.nat_of_ascii c in
  if (Nat.leb 97 n && Nat.leb n 122)%bool
  then Ascii.ascii_of_nat (n - 32) else c.

Fixpoint trimStart (s : string) : string :=
  match s with
  | EmptyString => EmptyString
  | String c s' => if is_space c then trimStart s' else s
  end.

(** Drops the trailing white space: a suffix that is all white space
    collapses to the empty string. *)
Fixpoint trimEnd (s : string) : string :=
  match s with
  | EmptyString => EmptyString
  | String c s' =>
      match trimEnd s' with
      | EmptyString => if is_space c then EmptyString else String c EmptyString
      | t => String c t
      end
  end.

Definition trim (s : string) : string := trimEnd (trimStart s).

(** A string that does not begin with white space. *)
Definition headed (s : string) : Prop :=
  match s with
  | EmptyString => True
  | String c _ => is_space c = false
  end.

Fixpoint toUpperCase (s : string) : string :=
  match s with
  | EmptyString => EmptyString
  | String c s' => String (upper_char c) (toUpperCase s')
  end.

End Js.

(** ** IEEE 754 binary64: the arithmetic of a JavaScript [number] *)

Module Double.

Definition number : Type := spec_float.

Definition prec : Z := 53.
Definition emax : Z := 1024.

(** [+], [-], [*], [/]: the exact result rounded to nearest, ties to
    even. *)
Definition add : number -> number -> number := SFadd prec emax.
Definition sub : number -> number -> number := SFsub prec emax.
Definition mul : number -> number -> number := SFmul prec emax.
Definition div : number -> number -> number := SFdiv prec emax.

(** The number nearest to an integer; it is that integer up to 2^53. *)
Definition ofZ (z : Z) : number := binary_normalize prec emax z 0 false.

(** The number a decimal literal denotes, for the quotient [n/d] of two
    integers below 2^53: [1.02] is [decimal 102 100]. *)
Definition decimal (n d : Z) : number := div (ofZ n) (ofZ d).

Definition NaN : number := S754_nan.
Definition PositiveInfinity : number := S754_infinity false.

(** [a < b], [a <= b] and [a > b]: false as soon as one side is NaN. *)
Definition lt (a b : number) : bool := SFltb a b.
Definition le (a b : number) : bool := SFleb a b.
Definition gt (a b : number) : bool := SFltb b a.

Definition Math_abs (x : number) : number := SFabs x.

(** [floor (x + 1/2)] for the finite number [(-1)^s * m * 2^e]. *)
Definition nearestInteger (s : bool) (m : positive) (e : Z) : Z :=
  let signed := if s then Z.neg m else Z.pos m in
  if 0 <=? e then signed * 2 ^ e
  else (2 * signed + 2 ^ (- e)) / 2 ^ (- e + 1).

(** [Math.round]: the nearest integer, ties towards +infinity; a result of
    zero keeps the sign of the argument; NaN, the infinities and the zeros
    are returned as they are. *)
Definition Math_round (x : number) : number :=
  match x with
  | S754_finite s m e =>
      let z := nearestInteger s m e in
      if z =? 0 then S754_zero s else ofZ z
  | _ => x
  end.

Definition isNaN (x : number) : bool :=
  match x with S754_nan => true | _ => false end.

(** [Math.max(a, b)]: NaN if either is NaN, and [+0] over [-0]. *)
Definition Math_max (a b : number) : number :=
  if isNaN a || isNaN b then NaN
  else if lt a b then b
  else if lt b a then a
  else match a with S754_zero true => b | _ => a end.

(** The rational a finite number stands for, in lowest terms. *)
Definition toQ (x : number) : option Q :=
  match x with
  | S754_zero _ => Some 0%Q
  | S754_finite s m e =>
      Some (Qred (inject_Z (if s then Z.neg m else Z.pos m) * Qpower 2 e))
  | _ => None
  end.

End Double.

(** ** Guard engine: [bot/src/services/guards.ts] *)

Module Guards.
Import Js.

Inductive GuardReason : Type :=
| DEPEG_GUARD_TRIGGERED
| DEPEG_GUARD_OK
| SLIPPAGE_GUARD_TRIGGERED
| SLIPPAGE_GUARD_OK
| APR_CLIFF_GUARD_NOT_ENOUGH_DATA
| APR_CLIFF_GUARD_PREV_ZERO
| APR_CLIFF_GUARD_TRIGGERED
| APR_CLIFF_GUARD_OK.

(** Modelled from the spec: [GuardResult] and [PoolSnapshot] are declared
    in [bot/src/types.ts], which is not among the sources; the records
    carry the fields the guards read and write. *)
Record GuardResult : Type := {
  triggered : bool;
  reason : GuardReason;
  details : option string
}.

Record PoolSnapshot : Type := {
  poolId : string;
  incentiveAprBps : Double.number;
  netApyBps : Double.number;
  slippageBps : Double.number
}.

Definition deviationBpsFromDollar (price : Double.number) : Double.number :=
  Double.Math_round
    (Double.mul (Double.Math_abs (Double.sub price (Double.ofZ 1)))
       (Double.ofZ 10000)).

(** One element of [deviations]. *)
Record Deviation : Type := { symbol : string; bps : Double.number }.

Definition exceeds (maxDeviationBps : Double.number) (item : Deviation) : bool :=
  Double.gt (bps item) maxDeviationBps.

(** [dropBps] of the APR-cliff guard. *)
Definition cliffDropBps (previousIncentive currentIncentive : Double.number)
  : Double.number :=
  let drop := Double.sub previousIncentive currentIncentive in
  Double.Math_round
    (Double.mul (Double.div drop previousIncentive) (Double.ofZ 10000)).

Section Evaluators.

(** How a [number] prints inside a template literal (the language's
    [Number::toString]). *)
Variable Number_toString : Double.number -> string.

Definition depegGuard (stablePricesUsd : Record_ Double.number)
    (maxDeviationBps : Double.number) : GuardResult :=
  let entries := stablePricesUsd in
  match entries with
  | [] =>
      {| triggered := true;
         reason := DEPEG_GUARD_TRIGGERED;
         details := Some "No stable prices available." |}
  | _ =>
      let deviations :=
        map (fun e => {| symbol := e.1; bps := deviationBpsFromDollar e.2 |})
            entries in
      if existsb (exceeds maxDeviationBps) deviations then
        {| triggered := true;
           reason := DEPEG_GUARD_TRIGGERED;
           details :=
             Some (String.concat ", "
               (map (fun item =>
                       symbol item +:+ " deviation="
                         +:+ Number_toString (bps item) +:+ "bps")
                    deviations)) |}
      else
        {| triggered := false; reason := DEPEG_GUARD_OK; details := None |}
  end.

Definition slippageGuard (snapshot : PoolSnapshot)
    (maxPriceImpactBps : Double.number) : GuardResult :=
  if Double.gt (slippageBps snapshot) maxPriceImpactBps then
    {| triggered := true;
       reason := SLIPPAGE_GUARD_TRIGGERED;
       details :=
         Some ("pool=" +:+ poolId snapshot +:+ ", impact="
                 +:+ Number_toString (slippageBps snapshot) +:+ "bps, max="
                 +:+ Number_toString maxPriceImpactBps +:+ "bps") |}
  else
    {| triggered := false; reason := SLIPPAGE_GUARD_OK; details := None |}.

Definition aprCliffGuard
    (currentSnapshot previousSnapshot : option PoolSnapshot)
    (minDropBps : Double.number) : GuardResult :=
  match currentSnapshot, previousSnapshot with
  | Some current, Some previous =>
      let previousIncentive := incentiveAprBps previous in
      if Double.le previousIncentive (Double.ofZ 0) then
        {| triggered := false;
           reason := APR_CLIFF_GUARD_PREV_ZERO;
           details := None |}
      else
        let dropBps :=
          cliffDropBps previousIncentive (incentiveAprBps current) in
        if Double.gt dropBps minDropBps then
          {| triggered := true;
             reason := APR_CLIFF_GUARD_TRIGGERED;
             details :=
               Some ("pool=" +:+ poolId current +:+ ", incentiveDrop="
                       +:+ Number_toString dropBps +:+ "bps") |}
        else
          {| triggered := false;
             reason := APR_CLIFF_GUARD_OK;
             details := None |}
  | _, _ =>
      {| triggered := false;
         reason := APR_CLIFF_GUARD_NOT_ENOUGH_DATA;
         details := None |}
  end.

End Evaluators.

End Guards.

(** ** Yield math: the pure functions next to the oracle *)

Module YieldMath.

(** [365 * 24 * 60 * 60]: every product is an integer below 2^53. *)
Definition SECONDS_PER_YEAR : Double.number := Double.ofZ (365 * 24 * 60 * 60).

Definition computeIncentiveAprBps
    (rewardRatePerSecond rewardTokenPriceUsd tvlUsd : Double.number)
  : Double.number :=
  if Double.le tvlUsd (Double.ofZ 0) then Double.ofZ 0
  else
    let annualRewardsUsd :=
      Double.mul (Double.mul rewardRatePerSecond SECONDS_PER_YEAR)
        rewardTokenPriceUsd in
    Double.Math_max (Double.ofZ 0)
      (Double.Math_round
         (Double.mul (Double.div annualRewardsUsd tvlUsd) (Double.ofZ 10000))).

Definition computeNetApyBps
    (baseApyBps incentiveAprBps protocolFeeBps : Double.number)
  : Double.number :=
  Double.Math_max (Double.ofZ 0)
    (Double.sub (Double.add baseApyBps incentiveAprBps) protocolFeeBps).

Definition estimatePaybackHours (costBps deltaApyBps : Double.number)
  : Double.number :=
  if Double.le deltaApyBps (Double.ofZ 0) then Double.PositiveInfinity
  else
    Double.mul (Double.mul (Double.div costBps deltaApyBps) (Double.ofZ 365))
      (Double.ofZ 24).

End YieldMath.


(** ** Price oracle: [LivePriceOracle] *)

Module Oracle.
Import Js.

Record LivePriceOracleConfig : Type := {
  baseUrl : string;
  stableSymbols : list string;
  coingeckoIdBySymbol : gmap string string;
  timeoutMs : Z;
  cacheTtlMs : Z;
  (* the three optional settings; [None] is an absent field *)
  cfgRateLimitCooldownMs : option Z;
  cfgStaleFallbackTtlMs : option Z;
  cfgWarningCooldownMs : option Z
}.

Record CacheEntry : Type := {
  value : Q;
  expiresAt : Z
}.

Record PriceOracleTelemetry : Type := {
  cacheFreshHits : nat;
  staleFallbackHits : nat;
  stableFallbackHits : nat;
  networkFetchSuccesses : nat;
  fetchFailures : nat
}.

(** The constructor's derived settings ([??] then [Math.max]). *)
Definition rateLimitCooldownMs (config : LivePriceOracleConfig) : Z :=
  Z.max 1000 (default 300000 (cfgRateLimitCooldownMs config)).

Definition staleFallbackTtlMs (config : LivePriceOracleConfig) : Z :=
  Z.max (cacheTtlMs config) (default 300000 (cfgStaleFallbackTtlMs config)).

Definition warningCooldownMs (config : LivePriceOracleConfig) : Z :=
  Z.max 0 (default 300000 (cfgWarningCooldownMs config)).

(** What the upstream price feed answers to one [fetch]. *)
Inductive JsonBody : Type :=
| BodyRejected (message : string)
    (* [response.json()] rejects, or the body is [null] *)
| BodyObject (payload : gmap string (option Q)).
    (* id -> [usd]; [None] when [usd] is absent or not a finite number *)

Inductive FetchOutcome : Type :=
| FetchRejected (message : string)
    (* network failure, or the abort fired by the timeout *)
| FetchResponded (status : Z) (body : JsonBody).

Definition response_ok (status : Z) : bool :=
  (200 <=? status) && (status <=? 299).

(** The errors the oracle throws; [errorMessage] is their [message]. *)
Inductive OracleError : Type :=
| EmptySymbolSet
| CooldownActive (waitSeconds : Z)
| MissingIdMapping (symbol : string)
| UpstreamStatus (status : Z)
| InvalidUsdPrice (symbol id : string)
| PriceUnavailable (symbol : string)
| TransportFailure (message : string).

Definition errorMessage (e : OracleError) : string :=
  match e with
  | EmptySymbolSet => "Price fetch requested with empty symbol set."
  | CooldownActive waitSeconds =>
      "CoinGecko rate-limit cooldown active (" +:+ pretty waitSeconds
        +:+ "s remaining)."
  | MissingIdMapping symbol =>
      "Missing CoinGecko id mapping for symbol: " +:+ symbol
  | UpstreamStatus status => "CoinGecko returned " +:+ pretty status
  | InvalidUsdPrice symbol id =>
      "Invalid CoinGecko USD price for " +:+ symbol +:+ " (" +:+ id +:+ ")."
  | PriceUnavailable symbol =>
      "Live price unavailable for " +:+ symbol +:+ "."
  | TransportFailure message => message
  end.

Definition toErrorMessage (error : OracleError) : string := errorMessage error.

(** The oracle object together with the outside world it acts on: the
    private fields of the class, then the number of [Date.now()] readings
    taken so far, the upstream requests issued so far (each by its id
    list) and the lines given to [console.warn]. *)
Record Machine : Type := {
  cache : gmap string CacheEntry;
  rateLimitedUntilMs : Z;
  warningLastLoggedAt : gmap string Z;
  telemetry : PriceOracleTelemetry;
  dateNowCalls : nat;
  requests : list (list string);
  consoleWarn : list string
}.

Definition initialTelemetry : PriceOracleTelemetry :=
  {| cacheFreshHits := 0; staleFallbackHits := 0; stableFallbackHits := 0;
     networkFetchSuccesses := 0; fetchFailures := 0 |}.

(** A freshly constructed oracle in a world with no history. *)
Definition newMachine : Machine :=
  {| cache := ∅; rateLimitedUntilMs := 0; warningLastLoggedAt := ∅;
     telemetry := initialTelemetry;
     dateNowCalls := 0; requests := []; consoleWarn := [] |}.

Definition with_cache (c : gmap string CacheEntry) (m : Machine) : Machine :=
  {| cache := c; rateLimitedUntilMs := rateLimitedUntilMs m;
     warningLastLoggedAt := warningLastLoggedAt m; telemetry := telemetry m;
     dateNowCalls := dateNowCalls m; requests := requests m;
     consoleWarn := consoleWarn m |}.

Definition with_rateLimitedUntilMs (t : Z) (m : Machine) : Machine :=
  {| cache := cache m; rateLimitedUntilMs := t;
     warningLastLoggedAt := warningLastLoggedAt m; telemetry := telemetry m;
     dateNowCalls := dateNowCalls m; requests := requests m;
     consoleWarn := consoleWarn m |}.

Definition with_warningLastLoggedAt (w : gmap string Z) (m : Machine)
  : Machine :=
  {| cache := cache m; rateLimitedUntilMs := rateLimitedUntilMs m;
     warningLastLoggedAt := w; telemetry := telemetry m;
     dateNowCalls := dateNowCalls m; requests := requests m;
     consoleWarn := consoleWarn m |}.

Definition with_telemetry (t : PriceOracleTelemetry) (m : Machine) : Machine :=
  {| cache := cache m; rateLimitedUntilMs := rateLimitedUntilMs m;
     warningLastLoggedAt := warningLastLoggedAt m; telemetry := t;
     dateNowCalls := dateNowCalls m; requests := requests m;
     consoleWarn := consoleWarn m |}.

Definition with_dateNowCalls (n : nat) (m : Machine) : Machine :=
  {| cache := cache m; rateLimitedUntilMs := rateLimitedUntilMs m;
     warningLastLoggedAt := warningLastLoggedAt m; telemetry := telemetry m;
     dateNowCalls := n; requests := requests m;
     consoleWarn := consoleWarn m |}.

Definition with_requests (r : list (list string)) (m : Machine) : Machine :=
  {| cache := cache m; rateLimitedUntilMs := rateLimitedUntilMs m;
     warningLastLoggedAt := warningLastLoggedAt m; telemetry := telemetry m;
     dateNowCalls := dateNowCalls m; requests := r;
     consoleWarn := consoleWarn m |}.

Definition with_consoleWarn (w : list string) (m : Machine) : Machine :=
  {| cache := cache m; rateLimitedUntilMs := rateLimitedUntilMs m;
     warningLastLoggedAt := warningLastLoggedAt m; telemetry := telemetry m;
     dateNowCalls := dateNowCalls m; requests := requests m;
     consoleWarn := w |}.

(** The machine after one more [Date.now()] reading. *)
Definition tick (m : Machine) : Machine :=
  with_dateNowCalls (S (dateNowCalls m)) m.

(** [m'] is [m] after some more clock readings and nothing else. *)
Definition onlyClockRead (m m' : Machine) : Prop :=
  m' = with_dateNowCalls (dateNowCalls m') m
  /\ (dateNowCalls m <= dateNowCalls m')%nat.

(** [m'] has the cooldown deadline and the request log of [m], and no
    fewer clock readings. *)
Definition sameUpstreamState (m m' : Machine) : Prop :=
  rateLimitedUntilMs m' = rateLimitedUntilMs m
  /\ requests m' = requests m
  /\ (dateNowCalls m <= dateNowCalls m')%nat.

(** *** The monad of the oracle's methods: state, plus [throw] *)

Definition Result (A : Type) : Type := (OracleError + A)%type.

Definition M (A : Type) : Type := Machine -> Result A * Machine.

Definition ret {A} (a : A) : M A := fun m => (inr a, m).

Definition throw {A} (e : OracleError) : M A := fun m => (inl e, m).

Definition bind {A B} (c : M A) (k : A -> M B) : M B :=
  fun m =>
    match c m with
    | (inl e, m') => (inl e, m')
    | (inr a, m') => k a m'
    end.

(** [try { c } catch (error) { h error }]: the handler runs in the state
    the failed block left behind. *)
Definition try_catch {A} (c : M A) (h : OracleError -> M A) : M A :=
  fun m =>
    match c m with
    | (inl e, m') => h e m'
    | (inr a, m') => (inr a, m')
    end.

Definition liftResult {A} (r : Result A) : M A := fun m => (r, m).

Definition modify (f : Machine -> Machine) : M unit :=
  fun m => (inr tt, f m).

Definition get {A} (f : Machine -> A) : M A := fun m => (inr (f m), m).

Notation "'let*' x := c 'in' k" := (bind c (fun x => k))
  (at level 10, x name, c at level 100, k at level 200).
Notation "c ;; k" := (bind c (fun _ => k))
  (at level 100, k at level 200, right associativity).

(** The five counters, each bumped by [+= 1]. *)
Definition bumpCacheFreshHits (t : PriceOracleTelemetry) :=
  {| cacheFreshHits := S (cacheFreshHits t);
     staleFallbackHits := staleFallbackHits t;
     stableFallbackHits := stableFallbackHits t;
     networkFetchSuccesses := networkFetchSuccesses t;
     fetchFailures := fetchFailures t |}.

Definition bumpStaleFallbackHits (t : PriceOracleTelemetry) :=
  {| cacheFreshHits := cacheFreshHits t;
     staleFallbackHits := S (staleFallbackHits t);
     stableFallbackHits := stableFallbackHits t;
     networkFetchSuccesses := networkFetchSuccesses t;
     fetchFailures := fetchFailures t |}.

Definition bumpStableFallbackHits (t : PriceOracleTelemetry) :=
  {| cacheFreshHits := cacheFreshHits t;
     staleFallbackHits := staleFallbackHits t;
     stableFallbackHits := S (stableFallbackHits t);
     networkFetchSuccesses := networkFetchSuccesses t;
     fetchFailures := fetchFailures t |}.

Definition bumpNetworkFetchSuccesses (t : PriceOracleTelemetry) :=
  {| cacheFreshHits := cacheFreshHits t;
     staleFallbackHits := staleFallbackHits t;
     stableFallbackHits := stableFallbackHits t;
     networkFetchSuccesses := S (networkFetchSuccesses t);
     fetchFailures := fetchFailures t |}.

Definition bumpFetchFailures (t : PriceOracleTelemetry) :=
  {| cacheFreshHits := cacheFreshHits t;
     staleFallbackHits := staleFallbackHits t;
     stableFallbackHits := stableFallbackHits t;
     networkFetchSuccesses := networkFetchSuccesses t;
     fetchFailures := S (fetchFailures t) |}.

Definition count (f : PriceOracleTelemetry -> PriceOracleTelemetry) : M unit :=
  modify (fun m => with_telemetry (f (telemetry m)) m).

Definition normalizeSymbol (symbol : string) : string :=
  toUpperCase (trim symbol).

Section Methods.

(** The configuration the oracle was constructed with, and its environment:
    [clock n] is what the [n]-th call of [Date.now()] returns, and
    [upstream n ids] is how the price feed answers the [n]-th request. *)
Variable config : LivePriceOracleConfig.
Variable clock : nat -> Z.
Variable upstream : nat -> list string -> FetchOutcome.

Definition Date_now : M Z :=
  fun m => (inr (clock (dateNowCalls m)), with_dateNowCalls (S (dateNowCalls m)) m).

Definition console_warn (message : string) : M unit :=
  modify (fun m => with_consoleWarn (consoleWarn m ++ [message]) m).

(** [fetch(endpoint, ...)] followed by reading the response: the request is
    logged and the environment decides the outcome. *)
Definition fetch (ids : list string) : M FetchOutcome :=
  fun m =>
    (inr (upstream (length (requests m)) ids),
     with_requests (requests m ++ [ids]) m).

Definition normalizeSymbols (symbols : list string) : list string :=
  uniq (map normalizeSymbol symbols).

Definition writeCache (symbol : string) (value : Q) (ttlMs : Z) : M unit :=
  let normalized := normalizeSymbol symbol in
  let* now := Date_now in
  modify (fun m =>
    with_cache
      (<[normalized := {| value := value; expiresAt := now + ttlMs |}]> (cache m))
      m).

Definition readCachedValue (symbol : string) (allowStale : bool)
  : M (option Q) :=
  let normalized := normalizeSymbol symbol in
  let* cached := get (fun m => cache m !! normalized) in
  match cached with
  | None => ret None
  | Some cached =>
      if negb allowStale then
        let* now := Date_now in
        if expiresAt cached <=? now then ret None
        else ret (Some (value cached))
      else ret (Some (value cached))
  end.

Fixpoint readCachedSnapshot_from (result : Record_ Q) (symbols : list string)
    (allowStale : bool) : M (option (Record_ Q)) :=
  match symbols with
  | [] => ret (Some result)
  | symbol :: rest =>
      let* value := readCachedValue symbol allowStale in
      match value with
      | None => ret None
      | Some value =>
          readCachedSnapshot_from (record_set symbol value result) rest
            allowStale
      end
  end.

Definition readCachedSnapshot (symbols : list string) (allowStale : bool)
  : M (option (Record_ Q)) :=
  readCachedSnapshot_from [] symbols allowStale.

Fixpoint writeCacheSnapshot (values : Record_ Q) (ttlMs : Z) : M unit :=
  match values with
  | [] => ret tt
  | (symbol, value) :: rest =>
      writeCache symbol value ttlMs ;; writeCacheSnapshot rest ttlMs
  end.

Definition warnWithCooldown (key message : string) : M unit :=
  if warningCooldownMs config <=? 0 then console_warn message
  else
    let* nowMs := Date_now in
    let* lastLoggedAt :=
      get (fun m => default 0 (warningLastLoggedAt m !! key)) in
    if nowMs - lastLoggedAt <? warningCooldownMs config then ret tt
    else
      modify (fun m =>
        with_warningLastLoggedAt (<[key := nowMs]> (warningLastLoggedAt m)) m) ;;
      console_warn message.

(** [uniqueSymbols.map(symbol => id)], throwing at the first symbol whose
    id is absent or empty. *)
Fixpoint lookupIds (uniqueSymbols : list string) : Result (list string) :=
  match uniqueSymbols with
  | [] => inr []
  | symbol :: rest =>
      match coingeckoIdBySymbol config !! symbol with
      | Some id =>
          if decide (id = "") then inl (MissingIdMapping symbol)
          else
            match lookupIds rest with
            | inl e => inl e
            | inr ids => inr (id :: ids)
            end
      | None => inl (MissingIdMapping symbol)
      end
  end.

(** The loop that validates the payload, over the symbols and their ids. *)
Fixpoint readPayload (payload : gmap string (option Q))
    (pairs : list (string * string)) (result : Record_ Q)
  : Result (Record_ Q) :=
  match pairs with
  | [] => inr result
  | (symbol, id) :: rest =>
      match payload !! id with
      | Some (Some value) =>
          if le value 0 then inl (InvalidUsdPrice symbol id)
          else readPayload payload rest (record_set symbol value result)
      | _ => inl (InvalidUsdPrice symbol id)
      end
  end.

(** [Math.max(1, Math.ceil((rateLimitedUntilMs - nowMs) / 1000))]. *)
Definition waitSecondsOf (untilMs nowMs : Z) : Z :=
  Z.max 1 (- ((- (untilMs - nowMs)) / 1000)).

Definition fetchPrices (symbols : list string) : M (Record_ Q) :=
  let uniqueSymbols := uniq (map normalizeSymbol symbols) in
  match uniqueSymbols with
  | [] => throw EmptySymbolSet
  | _ =>
      let* nowMs := Date_now in
      let* untilMs := get rateLimitedUntilMs in
      if nowMs <? untilMs then
        throw (CooldownActive (waitSecondsOf untilMs nowMs))
      else
        let* ids := liftResult (lookupIds uniqueSymbols) in
        let* response := fetch ids in
        match response with
        | FetchRejected message => throw (TransportFailure message)
        | FetchResponded status body =>
            if negb (response_ok status) then
              (if status =? 429 then
                 let* t := Date_now in
                 modify (with_rateLimitedUntilMs (t + rateLimitCooldownMs config))
               else ret tt) ;;
              throw (UpstreamStatus status)
            else
              match body with
              | BodyRejected message => throw (TransportFailure message)
              | BodyObject payload =>
                  liftResult (readPayload payload (zip uniqueSymbols ids) [])
              end
        end
  end.

Definition getPriceUsd (symbol : string) : M Q :=
  let normalized := normalizeSymbol symbol in
  let* freshCached := readCachedValue normalized false in
  match freshCached with
  | Some freshCached => count bumpCacheFreshHits ;; ret freshCached
  | None =>
      try_catch
        (let* values := fetchPrices [normalized] in
         match record_get normalized values with
         | None => throw (PriceUnavailable normalized)
         | Some value =>
             writeCache normalized value (cacheTtlMs config) ;;
             count bumpNetworkFetchSuccesses ;;
             ret value
         end)
        (fun error =>
           count bumpFetchFailures ;;
           let* staleCached := readCachedValue normalized true in
           match staleCached with
           | Some staleCached =>
               count bumpStaleFallbackHits ;;
               writeCache normalized staleCached (staleFallbackTtlMs config) ;;
               warnWithCooldown ("single:" +:+ normalized)
                 ("[price-oracle] Using stale cached price for " +:+ normalized
                    +:+ ": " +:+ toErrorMessage error) ;;
               ret staleCached
           | None => throw error
           end)
  end.

Definition getStablePricesUsd : M (Record_ Q) :=
  let stableSymbols := normalizeSymbols (stableSymbols config) in
  let* freshCached := readCachedSnapshot stableSymbols false in
  match freshCached with
  | Some freshCached => count bumpCacheFreshHits ;; ret freshCached
  | None =>
      try_catch
        (let* values := fetchPrices stableSymbols in
         writeCacheSnapshot values (cacheTtlMs config) ;;
         count bumpNetworkFetchSuccesses ;;
         ret values)
        (fun error =>
           count bumpFetchFailures ;;
           let* fallback := readCachedSnapshot stableSymbols true in
           match fallback with
           | Some fallback =>
               count bumpStableFallbackHits ;;
               writeCacheSnapshot fallback (staleFallbackTtlMs config) ;;
               warnWithCooldown "stable:fallback"
                 ("[price-oracle] Using stale cached stable prices: "
                    +:+ toErrorMessage error) ;;
               ret fallback
           | None =>
               let hardFallback :=
                 Object_fromEntries
                   (map (fun symbol => (symbol, 1%Q)) stableSymbols) in
               count bumpStableFallbackHits ;;
               writeCacheSnapshot hardFallback (staleFallbackTtlMs config) ;;
               warnWithCooldown "stable:hard-fallback"
                 ("[price-oracle] Falling back to $1.00 stable prices (no cache): "
                    +:+ toErrorMessage error) ;;
               ret hardFallback
           end)
  end.

Definition getTelemetrySnapshot : M PriceOracleTelemetry := get telemetry.

(** A public lookup, and the machine after a sequence of them. *)
Inductive Lookup : Type :=
| LookupPrice (symbol : string)
| LookupStablePrices.

Definition runLookup (m : Machine) (op : Lookup) : Machine :=
  match op with
  | LookupPrice symbol => (getPriceUsd symbol m).2
  | LookupStablePrices => (getStablePricesUsd m).2
  end.

Definition runLookups (ops : list Lookup) (m : Machine) : Machine :=
  fold_left runLookup ops m.

End Methods.

End Oracle.

(** ** The disabled venue adapter: [bot/src/adapters/dex1.adapter.ts] *)

Module Dex1Adapter.

(** Modelled from the spec: [PoolConfig], [PoolOnChainState],
    [VaultEnterRequest], [VaultExitRequest] ([bot/src/types.ts]) and the
    two input records ([bot/src/adapters/adapter.interface.ts]) are
    declared in files that are not among the sources; each record has the
    fields the adapter reads or writes, addresses and hex data as strings,
    [bigint]s as [Z]. Fields are prefixed by their record. *)
Record PoolConfig : Type := {
  pc_id : string;
  pc_protocol : string;
  pc_pair : string;
  pc_target : string;
  pc_pool : string;
  pc_tokenIn : string;
  pc_lpToken : string
}.

Record PoolOnChainState : Type := { tvlUsd : Q }.

Record BuildEnterRequestInput : Type := {
  ei_pool : PoolConfig;
  ei_amountIn : Z;
  ei_minOut : Z;
  ei_deadline : Z;
  ei_netApyBps : Q;
  ei_intendedHoldSeconds : Q
}.

Record BuildExitRequestInput : Type := {
  xi_pool : PoolConfig;
  xi_tokenOut : string;
  xi_amountIn : Z;
  xi_minOut : Z;
  xi_deadline : Z
}.

Record VaultEnterRequest : Type := {
  en_target : string;
  en_pool : string;
  en_tokenIn : string;
  en_lpToken : string;
  en_amountIn : Z;
  en_minOut : Z;
  en_deadline : Z;
  en_data : string;
  en_pair : string;
  en_protocol : string;
  en_netApyBps : Q;
  en_intendedHoldSeconds : Q
}.

Record VaultExitRequest : Type := {
  ex_target : string;
  ex_pool : string;
  ex_lpToken : string;
  ex_tokenOut : string;
  ex_amountIn : Z;
  ex_minOut : Z;
  ex_deadline : Z;
  ex_data : string;
  ex_pair : string;
  ex_protocol : string
}.

(** An [async] method's promise: rejected with an [Error] message, or
    fulfilled. *)
Inductive Promise (A : Type) : Type :=
| Rejected (message : string)
| Fulfilled (result : A).
Arguments Rejected {A} message.
Arguments Fulfilled {A} result.

Definition id : string := "dex1".

Definition fetchPoolState (pool : PoolConfig) : Promise PoolOnChainState :=
  Rejected "Dex1Adapter is disabled in live runtime.".

Definition estimatePriceImpactBps (pool : PoolConfig) (amountIn : Z)
  : Promise Q :=
  Rejected "Dex1Adapter is disabled in live runtime.".

Definition estimateRotationCostBps (fromPool toPool : PoolConfig)
    (amountIn : Z) : Promise Q :=
  Rejected "Dex1Adapter is disabled in live runtime.".

Definition buildEnterRequest (input : BuildEnterRequestInput)
  : Promise VaultEnterRequest :=
  Fulfilled
    {| en_target := pc_target (ei_pool input);
       en_pool := pc_pool (ei_pool input);
       en_tokenIn := pc_tokenIn (ei_pool input);
       en_lpToken := pc_lpToken (ei_pool input);
       en_amountIn := ei_amountIn input;
       en_minOut := ei_minOut input;
       en_deadline := ei_deadline input;
       en_data := "0x";
       en_pair := pc_pair (ei_pool input);
       en_protocol := pc_protocol (ei_pool input);
       en_netApyBps := ei_netApyBps input;
       en_intendedHoldSeconds := ei_intendedHoldSeconds input |}.

Definition buildExitRequest (input : BuildExitRequestInput)
  : Promise VaultExitRequest :=
  Fulfilled
    {| ex_target := pc_target (xi_pool input);
       ex_pool := pc_pool (xi_pool input);
       ex_lpToken := pc_lpToken (xi_pool input);
       ex_tokenOut := xi_tokenOut input;
       ex_amountIn := xi_amountIn input;
       ex_minOut := xi_minOut input;
       ex_deadline := xi_deadline input;
       ex_data := "0x";
       ex_pair := pc_pair (xi_pool input);
       ex_protocol := pc_protocol (xi_pool input) |}.

(** Whether a promise is rejected with a message that says the adapter is
    disabled. *)
Definition failsDisabled {A} (p : Promise A) : bool :=
  match p with
  | Rejected message =>
      bool_decide (message = "Dex1Adapter is disabled in live runtime.")
  | Fulfilled _ => false
  end.

End Dex1Adapter.

(** ** The migration report script: [bot/src/migration-report.ts] *)

Module Migration.
Import Js.

Inductive CheckStatus : Type := PASS | WARN | FAIL.

Record CheckRow : Type := {
  id : string;
  status : CheckStatus;
  detail : string
}.

(** [balanceRaw] is the decimal string of a [bigint]; it is kept as the
    integer it denotes, which is what [BigInt(row.balanceRaw)] reads back. *)
Record PoolBalanceRow : Type := {
  poolId : string;
  lpToken : string;
  balanceRaw : Z;
  balanceFormatted : string
}.

Record VaultSnapshot : Type := {
  address : string;
  usdcBalanceRaw : Z;
  usdcBalanceFormatted : string;
  poolLpBalances : list PoolBalanceRow;
  hasLpExposure : bool;
  supportsUserFlow : bool;
  depositToken : option string;
  totalUserSharesRaw : option Z;
  hasOpenLpPosition : option bool
}.

(** A parsed JSON value. *)
Inductive Json : Type :=
| JNull
| JBool (b : bool)
| JNumber (q : Q)
| JString (s : string)
| JArray (items : list Json)
| JObject (fields : list (string * Json)).

Record StateCounts : Type := {
  snapshots : option nat;
  decisions : option nat;
  tweets : option nat
}.

Record EndpointSnapshot : Type := {
  url : string;
  httpStatus : Z;
  healthy : option bool;
  ready : option bool;
  reason : option string;
  runtime : option Json;
  stateCounts : StateCounts
}.

Record MigrationReport : Type := {
  generatedAt : string;
  chainId : Z;
  rpcUrl : string;
  oldVault : VaultSnapshot;
  newVault : VaultSnapshot;
  oldService : option EndpointSnapshot;
  newService : option EndpointSnapshot;
  checks : list CheckRow
}.

(** One configured pool of [POOLS] ([config.ts]). *)
Record Pool : Type := { pool_id : string; pool_lpToken : string }.

(** An awaited call: it throws / rejects with a message, or yields. *)
Definition Try (A : Type) : Type := (string + A)%type.

(** What [fetch(url)] followed by [response.json()] gives: the fetch itself
    rejects (DNS failure, connection refused, ...), or a response arrives
    whose body parses to [Some] JSON value or fails to parse. *)
Inductive HttpResult : Type :=
| FetchFailed (message : string)
| Responded (status : Z) (body : option Json).

(** Everything outside the script that one run observes. *)
Record World : Type := {
  processEnv : gmap string string;
  balanceOf : string -> string -> Try Z;      (* token, account *)
  readDepositToken : string -> Try string;    (* vault *)
  readTotalUserShares : string -> Try Z;
  readHasOpenLpPosition : string -> Try bool;
  httpGet : string -> string -> HttpResult;   (* url, auth token *)
  nowIso : string;                            (* new Date().toISOString() *)
  writeFile : string -> string -> Try unit    (* path, contents *)
}.

(** What a run of [main] leaves behind. *)
Record Finished : Type := {
  exitCode : Z;
  consoleLog : list string;
  report : MigrationReport
}.

Inductive MainOutcome : Type :=
| MainRejected (error : string)
    (* the promise of [main] rejects: nothing was printed *)
| MainCompleted (f : Finished).

Definition isRecord (v : Json) : bool :=
  match v with
  | JObject _ | JArray _ => true
  | _ => false
  end.

(** [value[key]] on a record-like value; [None] is [undefined]. *)
Definition prop (key : string) (v : Json) : option Json :=
  match v with
  | JObject fields => record_get key fields
  | _ => None
  end.

Definition asArrayLength (v : option Json) (key : string) : option nat :=
  match v with
  | None => None
  | Some v =>
      match prop key v with
      | Some (JArray items) => Some (length items)
      | _ => None
      end
  end.

Definition asBoolean (v : option Json) : option bool :=
  match v with Some (JBool b) => Some b | _ => None end.

Definition asString (v : option Json) : option string :=
  match v with Some (JString s) => Some s | _ => None end.

Definition asRecord (v : option Json) : option Json :=
  match v with
  | Some v => if isRecord v then Some v else None
  | None => None
  end.

Definition lower_char (c : Ascii.ascii) : Ascii.ascii :=
  let n := Ascii.nat_of_ascii c in
  if (Nat.leb 65 n && Nat.leb n 90)%bool
  then Ascii.ascii_of_nat (n + 32) else c.

Fixpoint toLowerCase (s : string) : string :=
  match s with
  | EmptyString => EmptyString
  | String c s' => String (lower_char c) (toLowerCase s')
  end.

Definition showBool (b : option bool) : string :=
  match b with
  | Some true => "true"
  | Some false => "false"
  | None => "null"
  end.

Definition pushCheck (checks : list CheckRow) (id : string)
    (status : CheckStatus) (detail : string) : list CheckRow :=
  checks ++ [{| id := id; status := status; detail := detail |}].

Definition showStatus (s : CheckStatus) : string :=
  match s with PASS => "PASS" | WARN => "WARN" | FAIL => "FAIL" end.

Definition isFail (row : CheckRow) : bool :=
  match status row with FAIL => true | _ => false end.

Section Script.

(** Library functions and configuration constants the script imports:
    viem's [isAddress] and [formatUnits], [Number(raw)] ([None] when the
    result is not finite), [JSON.stringify(report, null, 2)], and [POOLS],
    [TOKENS.USDC], [RUNTIME.chainId], [RUNTIME.rpcUrl] of [config.ts]. *)
Variable isAddress : string -> bool.
Variable formatUnits : Z -> Z -> string.
Variable Number_ : string -> option Q.
Variable JSON_stringify : MigrationReport -> string.
Variable POOLS : list Pool.
Variable TOKENS_USDC : string.
Variable RUNTIME_chainId : Z.
Variable RUNTIME_rpcUrl : string.

Variable w : World.

(** [process.env[name]?.trim()], with the empty string as falsy as absent. *)
Definition envTrimmed (name : string) : option string :=
  match processEnv w !! name with
  | None => None
  | Some raw => let t := trim raw in if decide (t = "") then None else Some t
  end.

Definition getRequiredAddress (name : string) : Try string :=
  match envTrimmed name with
  | None => inl ("Missing required env var: " +:+ name)
  | Some raw =>
      if isAddress raw then inr raw
      else inl ("Invalid address in " +:+ name +:+ ": " +:+ raw)
  end.

Definition getOptionalUrl (name : string) : option string := envTrimmed name.

Definition getAuthToken : string :=
  match envTrimmed "MIGRATION_BOT_STATE_AUTH_TOKEN" with
  | Some t => t
  | None => default "" (envTrimmed "BOT_STATE_AUTH_TOKEN")
  end.

Definition getUsdcDecimals : Z :=
  match envTrimmed "USDC_DECIMALS" with
  | None => 6
  | Some raw =>
      match Number_ raw with
      | None => 6
      | Some parsed => if Qle_bool 0 parsed then Qfloor parsed else 6
      end
  end.

(** [Promise.all(POOLS.map(...))]: the rows, or the rejection of a read. *)
Fixpoint readPoolBalances (pools : list Pool) (vaultAddress : string)
    (usdcDecimals : Z) : Try (list PoolBalanceRow) :=
  match pools with
  | [] => inr []
  | pool :: rest =>
      match balanceOf w (pool_lpToken pool) vaultAddress with
      | inl e => inl e
      | inr balance =>
          match readPoolBalances rest vaultAddress usdcDecimals with
          | inl e => inl e
          | inr rows =>
              inr ({| poolId := pool_id pool;
                      lpToken := pool_lpToken pool;
                      balanceRaw := balance;
                      balanceFormatted := formatUnits balance usdcDecimals |}
                   :: rows)
          end
      end
  end.

Definition caught {A} (t : Try A) : option A :=
  match t with inl _ => None | inr a => Some a end.

Definition readVaultSnapshot (vaultAddress : string) (usdcDecimals : Z)
  : Try VaultSnapshot :=
  match balanceOf w TOKENS_USDC vaultAddress with
  | inl e => inl e
  | inr usdcBalance =>
      match readPoolBalances POOLS vaultAddress usdcDecimals with
      | inl e => inl e
      | inr poolLpBalances =>
          let depositToken := caught (readDepositToken w vaultAddress) in
          inr {| address := vaultAddress;
                 usdcBalanceRaw := usdcBalance;
                 usdcBalanceFormatted := formatUnits usdcBalance usdcDecimals;
                 poolLpBalances := poolLpBalances;
                 hasLpExposure :=
                   existsb (fun row => 0 <? balanceRaw row) poolLpBalances;
                 supportsUserFlow := bool_decide (is_Some depositToken);
                 depositToken := depositToken;
                 totalUserSharesRaw :=
                   caught (readTotalUserShares w vaultAddress);
                 hasOpenLpPosition :=
                   caught (readHasOpenLpPosition w vaultAddress) |}
      end
  end.

Definition readStateEndpoint (url authToken : string) : Try EndpointSnapshot :=
  match httpGet w url authToken with
  | FetchFailed message => inl message
  | Responded status payload =>
      let obj := asRecord payload in
      let stateObj := asRecord (obj ≫= prop "state") in
      let runtimeObj := asRecord (obj ≫= prop "runtime") in
      inr {| url := url;
             httpStatus := status;
             healthy := asBoolean (obj ≫= prop "healthy");
             ready := asBoolean (obj ≫= prop "ready");
             reason := asString (obj ≫= prop "reason");
             runtime := runtimeObj;
             stateCounts :=
               {| snapshots := asArrayLength stateObj "snapshots";
                  decisions := asArrayLength stateObj "decisions";
                  tweets := asArrayLength stateObj "tweets" |} |}
  end.

(** [url ? readStateEndpoint(...) : Promise.resolve(null)]. *)
Definition readOptionalEndpoint (stateUrl : option string) (authToken : string)
  : Try (option EndpointSnapshot) :=
  match stateUrl with
  | None => inr None
  | Some url =>
      match readStateEndpoint url authToken with
      | inl e => inl e
      | inr snapshot => inr (Some snapshot)
      end
  end.

(** The five checks, in the order [main] pushes them. *)
Definition buildChecks (oldSnapshot newSnapshot : VaultSnapshot)
    (oldEndpoint newEndpoint : option EndpointSnapshot) : list CheckRow :=
  let checks := [] in
  let checks :=
    pushCheck checks "old_vault.lp_drained"
      (if hasLpExposure oldSnapshot then FAIL else PASS)
      (if hasLpExposure oldSnapshot
       then "Old vault still has LP exposure. Exit to USDC before cutover."
       else "Old vault LP balances are zero.") in
  let checks :=
    pushCheck checks "new_vault.user_flow"
      (if supportsUserFlow newSnapshot then PASS else FAIL)
      (if supportsUserFlow newSnapshot
       then "New vault exposes user deposit/withdraw flow."
       else "New vault does not expose v2 user flow functions.") in
  let checks :=
    pushCheck checks "new_vault.deposit_token"
      (if bool_decide (toLowerCase <$> depositToken newSnapshot
                       = Some (toLowerCase TOKENS_USDC))
       then PASS else WARN)
      ("newVault.depositToken=" +:+ default "n/a" (depositToken newSnapshot)
         +:+ " expected=" +:+ TOKENS_USDC) in
  let checks :=
    match newEndpoint with
    | Some newEndpoint =>
        let isReady :=
          (httpStatus newEndpoint =? 200)
          && bool_decide (healthy newEndpoint = Some true)
          && bool_decide (ready newEndpoint = Some true) in
        pushCheck checks "railway.new_service_ready"
          (if isReady then PASS else FAIL)
          ("status=" +:+ pretty (httpStatus newEndpoint)
             +:+ ", healthy=" +:+ showBool (healthy newEndpoint)
             +:+ ", ready=" +:+ showBool (ready newEndpoint)
             +:+ ", reason=" +:+ default "n/a" (reason newEndpoint))
    | None =>
        pushCheck checks "railway.new_service_ready" WARN
          "MIGRATION_NEW_BOT_STATE_URL not set; readiness could not be verified."
    end in
  match oldEndpoint with
  | Some oldEndpoint =>
      let reachable :=
        (200 <=? httpStatus oldEndpoint) && (httpStatus oldEndpoint <? 500) in
      pushCheck checks "railway.old_service_reachable"
        (if reachable then PASS else WARN)
        ("status=" +:+ pretty (httpStatus oldEndpoint)
           +:+ ", healthy=" +:+ showBool (healthy oldEndpoint)
           +:+ ", ready=" +:+ showBool (ready oldEndpoint))
  | None =>
      pushCheck checks "railway.old_service_reachable" WARN
        "MIGRATION_OLD_BOT_STATE_URL not set; rollback endpoint was not checked."
  end.

Definition printReport (oldSnapshot newSnapshot : VaultSnapshot)
    (report : MigrationReport) (outputPath : option string) : list string :=
  ["=== Sentryield Migration Report ===";
   "old vault: " +:+ address oldSnapshot;
   "  usdc: " +:+ usdcBalanceFormatted oldSnapshot +:+ " ("
     +:+ pretty (usdcBalanceRaw oldSnapshot) +:+ " raw)"]
  ++ map (fun row =>
            "  lp[" +:+ poolId row +:+ "]: " +:+ balanceFormatted row +:+ " ("
              +:+ pretty (balanceRaw row) +:+ " raw) token=" +:+ lpToken row)
         (poolLpBalances oldSnapshot)
  ++ ["new vault: " +:+ address newSnapshot;
      "  usdc: " +:+ usdcBalanceFormatted newSnapshot +:+ " ("
        +:+ pretty (usdcBalanceRaw newSnapshot) +:+ " raw)";
      "  userFlow: " +:+ showBool (Some (supportsUserFlow newSnapshot))
        +:+ " totalUserShares="
        +:+ default "n/a" (pretty <$> totalUserSharesRaw newSnapshot)]
  ++ map (fun check =>
            showStatus (status check) +:+ " | " +:+ id check +:+ " | "
              +:+ detail check)
         (checks report)
  ++ match outputPath with
     | Some path => ["Report written to: " +:+ path]
     | None => []
     end
  ++ ["JSON_REPORT_START"; JSON_stringify report; "JSON_REPORT_END"].

(** [main]. The four reads of its [Promise.all] are awaited together: if
    any of them rejects, [main] rejects and none of the code after the
    [await] runs. (When several reject, the first in the array is the one
    reported here.) *)
Definition main : MainOutcome :=
  let usdcDecimals := getUsdcDecimals in
  match getRequiredAddress "MIGRATION_OLD_VAULT_ADDRESS" with
  | inl e => MainRejected e
  | inr oldVault =>
  match getRequiredAddress "MIGRATION_NEW_VAULT_ADDRESS" with
  | inl e => MainRejected e
  | inr newVault =>
  let oldStateUrl := getOptionalUrl "MIGRATION_OLD_BOT_STATE_URL" in
  let newStateUrl := getOptionalUrl "MIGRATION_NEW_BOT_STATE_URL" in
  let authToken := getAuthToken in
  match readVaultSnapshot oldVault usdcDecimals with
  | inl e => MainRejected e
  | inr oldSnapshot =>
  match readVaultSnapshot newVault usdcDecimals with
  | inl e => MainRejected e
  | inr newSnapshot =>
  match readOptionalEndpoint oldStateUrl authToken with
  | inl e => MainRejected e
  | inr oldEndpoint =>
  match readOptionalEndpoint newStateUrl authToken with
  | inl e => MainRejected e
  | inr newEndpoint =>
  let checks := buildChecks oldSnapshot newSnapshot oldEndpoint newEndpoint in
  let report :=
    {| generatedAt := nowIso w;
       chainId := RUNTIME_chainId;
       rpcUrl := RUNTIME_rpcUrl;
       oldVault := oldSnapshot;
       newVault := newSnapshot;
       oldService := oldEndpoint;
       newService := newEndpoint;
       checks := checks |} in
  let outputPath := envTrimmed "MIGRATION_REPORT_PATH" in
  match
    match outputPath with
    | Some path => writeFile w path (JSON_stringify report)
    | None => inr tt
    end
  with
  | inl e => MainRejected e
  | inr _ =>
      MainCompleted
        {| exitCode := if existsb isFail checks then 1 else 0;
           consoleLog := printReport oldSnapshot newSnapshot report outputPath;
           report := report |}
  end end end end end end end.

(** The row of a check in a finished run, and whether the run printed the
    JSON block of its report. *)
Definition checkOf (checkId : string) (f : Finished) : option CheckRow :=
  List.find (fun row => bool_decide (id row = checkId)) (checks (report f)).

Definition printsJsonReport (f : Finished) : Prop :=
  exists before,
    consoleLog f
    = before ++ ["JSON_REPORT_START"; JSON_stringify (report f); "JSON_REPORT_END"].

End Script.

End Migration.

(** ** The bot control route: the Next.js handlers that follow the guards in
    [bot/src/services/guards.ts] *)

Module ControlRoute.
Import Js.

(** [s.replace(/\/$/, "")]: one trailing slash is dropped. *)
Fixpoint stripTrailingSlash (s : string) : string :=
  match s with
  | EmptyString => EmptyString
  | String c rest =>
      match rest with
      | EmptyString => if Nat.eqb (Ascii.nat_of_ascii c) 47 then EmptyString else s
      | _ => String c (stripTrailingSlash rest)
      end
  end.

(** [s.replace(/\/state\/?$/i, "")]: a trailing [/state] or [/state/], in
    any letter case, is dropped. *)
Fixpoint stripStateSuffix (s : string) : string :=
  if (String.eqb (Migration.toLowerCase s) "/state"
      || String.eqb (Migration.toLowerCase s) "/state/")%bool
  then EmptyString
  else match s with
       | EmptyString => EmptyString
       | String c rest => String c (stripStateSuffix rest)
       end.

(** A request the route sends to the bot. *)
Record Outgoing : Type := {
  method : string;
  target : string;
  headers : list (string * string);
  body : option string
}.

(** What [fetch] followed by [response.json()] gives: the fetch rejects,
    or a response arrives whose body parses ([Some]) or does not. *)
Inductive Upstream : Type :=
| Unreachable
| Replied (status : Z) (payload : option Migration.Json).

Record Response : Type := {
  resStatus : Z;
  resPayload : Migration.Json;
  noStore : bool
}.

Definition errorResponse (status : Z) (message : string) : Response :=
  {| resStatus := status;
     resPayload := Migration.JObject [("error", Migration.JString message)];
     noStore := false |}.

Definition knownActions : list string := ["pause"; "resume"; "exit"; "rotate"].

Section Handlers.

(** [process.env], the bot behind [fetch], [JSON.stringify], and the
    statuses with which [NextResponse.json] builds a response (it throws
    on the others). *)
Variable env : gmap string string.
Variable fetch_ : Outgoing -> Upstream.
Variable JSON_stringify : Migration.Json -> string.
Variable relayable : Z -> bool.

(** [process.env[name]?.trim()], with the empty string as falsy as absent. *)
Definition envTrimmed (name : string) : option string :=
  match env !! name with
  | None => None
  | Some raw => let t := trim raw in if decide (t = "") then None else Some t
  end.

Definition resolveControlBaseUrl : option string :=
  match envTrimmed "BOT_CONTROL_URL" with
  | Some explicit => Some (stripTrailingSlash explicit)
  | None =>
      match envTrimmed "BOT_STATE_URL" with
      | None => None
      | Some stateUrl => Some (stripStateSuffix stateUrl)
      end
  end.

Definition authHeaders : list (string * string) :=
  match envTrimmed "BOT_STATE_AUTH_TOKEN" with
  | None => []
  | Some token => [("x-bot-status-token", token)]
  end.

(** The [try] block of both handlers: the request, the parse of the answer
    and the construction of the relayed response; any failure is caught. *)
Definition relay (out : Outgoing) (failure : string) : Response :=
  match fetch_ out with
  | Unreachable => errorResponse 502 failure
  | Replied _ None => errorResponse 502 failure
  | Replied status (Some payload) =>
      if relayable status
      then {| resStatus := status; resPayload := payload; noStore := true |}
      else errorResponse 502 failure
  end.

(** A handler's outcome: its response, or the rejection of its promise,
    and the requests it sent. *)
Definition Handled : Type := ((string + Response) * list Outgoing)%type.

Definition notConfigured : Handled :=
  (inr (errorResponse 501 "BOT_CONTROL_URL/BOT_STATE_URL not configured."), []).


(** [body.action] when it is one of the four actions. *)
Definition actionOf (requestBody : Migration.Json) : option string :=
  match Migration.prop "action" requestBody with
  | Some (Migration.JString action) =>
      if decide (action ∈ knownActions) then Some action else None
  | _ => None
  end.

(** [body.poolId ?? ""]. *)
Definition poolIdOf (requestBody : Migration.Json) : Migration.Json :=
  match Migration.prop "poolId" requestBody with
  | None | Some Migration.JNull => Migration.JString ""
  | Some v => v
  end.

(** [parsed] is what [request.json()] resolves to, [None] when it rejects
    (the body is then taken as the empty object). *)
Definition POST (parsed : option Migration.Json) : Handled :=
  match resolveControlBaseUrl with
  | None => notConfigured
  | Some baseUrl =>
      if decide (baseUrl = "") then notConfigured
      else
        let requestBody := default (Migration.JObject []) parsed in
        match requestBody with
        | Migration.JNull =>
            (inl "Cannot read properties of null (reading 'action')", [])
        | _ =>
            match actionOf requestBody with
            | None =>
                (inr (errorResponse 400
                        "action must be one of pause|resume|exit|rotate"), [])
            | Some action =>
                let forwardBody :=
                  if decide (action = "rotate")
                  then Some (Migration.JObject [("poolId", poolIdOf requestBody)])
                  else None in
                let out :=
                  {| method := "POST";
                     target := baseUrl +:+ "/controls/" +:+ action;
                     headers :=
                       ("Content-Type", "application/json") :: authHeaders;
                     body := JSON_stringify <$> forwardBody |} in
                (inr (relay out "Failed to send control command."), [out])
            end
        end
  end.


End Handlers.

End ControlRoute.

(** ** Concrete configurations and environments *)

Module Examples.
Import Js.

Definition stableConfig : Oracle.LivePriceOracleConfig :=
  {| Oracle.baseUrl := "https://api.coingecko.com/api/v3";
     Oracle.stableSymbols := ["usdc"; " USDT "];
     Oracle.coingeckoIdBySymbol :=
       <["USDC" := "usd-coin"]> (<["USDT" := "tether"]> ∅);
     Oracle.timeoutMs := 8000;
     Oracle.cacheTtlMs := 30000;
     Oracle.cfgRateLimitCooldownMs := None;
     Oracle.cfgStaleFallbackTtlMs := None;
     Oracle.cfgWarningCooldownMs := None |}.

Definition usdcOnlyConfig : Oracle.LivePriceOracleConfig :=
  {| Oracle.baseUrl := "https://api.coingecko.com/api/v3";
     Oracle.stableSymbols := ["USDC"];
     Oracle.coingeckoIdBySymbol := <["USDC" := "usd-coin"]> ∅;
     Oracle.timeoutMs := 8000;
     Oracle.cacheTtlMs := 30000;
     Oracle.cfgRateLimitCooldownMs := None;
     Oracle.cfgStaleFallbackTtlMs := None;
     Oracle.cfgWarningCooldownMs := None |}.

(** An oracle whose normal cache TTL is as long as the default
    stale-fallback TTL. *)
Definition longTtlConfig : Oracle.LivePriceOracleConfig :=
  {| Oracle.baseUrl := "https://api.coingecko.com/api/v3";
     Oracle.stableSymbols := ["USDC"];
     Oracle.coingeckoIdBySymbol := <["USDC" := "usd-coin"]> ∅;
     Oracle.timeoutMs := 8000;
     Oracle.cacheTtlMs := 300000;
     Oracle.cfgRateLimitCooldownMs := None;
     Oracle.cfgStaleFallbackTtlMs := None;
     Oracle.cfgWarningCooldownMs := None |}.

(** An oracle whose stale-fallback TTL is configured to ten minutes. *)
Definition longStaleConfig : Oracle.LivePriceOracleConfig :=
  {| Oracle.baseUrl := "https://api.coingecko.com/api/v3";
     Oracle.stableSymbols := ["USDC"];
     Oracle.coingeckoIdBySymbol := <["USDC" := "usd-coin"]> ∅;
     Oracle.timeoutMs := 8000;
     Oracle.cacheTtlMs := 30000;
     Oracle.cfgRateLimitCooldownMs := None;
     Oracle.cfgStaleFallbackTtlMs := Some 600000;
     Oracle.cfgWarningCooldownMs := None |}.

(** A clock that starts at 100 s and advances one second per reading. *)
Definition tickingClock (n : nat) : Z := 100000 + 1000 * Z.of_nat n.

(** A price feed that cannot be reached, and one that answers 429. *)
Definition unreachableUpstream (n : nat) (ids : list string)
  : Oracle.FetchOutcome :=
  Oracle.FetchRejected "fetch failed".


(** An oracle whose only cache entry, USDC at 0.97, expired long ago. *)
Definition staleUsdcMachine : Oracle.Machine :=
  Oracle.with_cache
    (<["USDC" := {| Oracle.value := 97 # 100; Oracle.expiresAt := 50000 |}]> ∅)
    Oracle.newMachine.


Definition samplePool : Dex1Adapter.PoolConfig :=
  {| Dex1Adapter.pc_id := "dex1-usdc-mon";
     Dex1Adapter.pc_protocol := "Dex1";
     Dex1Adapter.pc_pair := "USDC/MON";
     Dex1Adapter.pc_target := "0x00000000000000000000000000000000000000a1";
     Dex1Adapter.pc_pool := "0x00000000000000000000000000000000000000a2";
     Dex1Adapter.pc_tokenIn := "0x00000000000000000000000000000000000000a3";
     Dex1Adapter.pc_lpToken := "0x00000000000000000000000000000000000000a4" |}.

Definition sampleEnterInput : Dex1Adapter.BuildEnterRequestInput :=
  {| Dex1Adapter.ei_pool := samplePool;
     Dex1Adapter.ei_amountIn := 1000000;
     Dex1Adapter.ei_minOut := 990000;
     Dex1Adapter.ei_deadline := 1800000000;
     Dex1Adapter.ei_netApyBps := 450;
     Dex1Adapter.ei_intendedHoldSeconds := 86400 |}.

Definition sampleExitInput : Dex1Adapter.BuildExitRequestInput :=
  {| Dex1Adapter.xi_pool := samplePool;
     Dex1Adapter.xi_tokenOut := "0x00000000000000000000000000000000000000a3";
     Dex1Adapter.xi_amountIn := 1000000;
     Dex1Adapter.xi_minOut := 990000;
     Dex1Adapter.xi_deadline := 1800000000 |}.

(** Stand-ins for the library functions of the migration script, enough to
    run it: every 42-character string is an address, amounts are printed
    unscaled, and the report is printed as a fixed text. *)
Definition sampleIsAddress (s : string) : bool :=
  Nat.eqb (String.length s) 42.

Definition sampleFormatUnits (v decimals : Z) : string := pretty v.

Definition sampleNumber (raw : string) : option Q := None.

Definition sampleStringify (r : Migration.MigrationReport) : string := "{...}".

Definition samplePools : list Migration.Pool :=
  [{| Migration.pool_id := "curvance-usdc";
      Migration.pool_lpToken := "0x00000000000000000000000000000000000000b1" |}].

Definition sampleUsdc : string := "0x00000000000000000000000000000000000000c1".

(** A run of the migration report: both vaults readable, the old vault
    drained, the new one with the user flow, and an old status URL
    configured whose endpoint behaves as [oldEndpoint] says. *)
Definition migrationWorld (oldEndpoint : Migration.HttpResult)
  : Migration.World :=
  {| Migration.processEnv :=
       <["MIGRATION_OLD_VAULT_ADDRESS" :=
           "0x00000000000000000000000000000000000000d1"]>
       (<["MIGRATION_NEW_VAULT_ADDRESS" :=
            "0x00000000000000000000000000000000000000d2"]>
        (<["MIGRATION_OLD_BOT_STATE_URL" := "https://old-bot.example/state"]> ∅));
     Migration.balanceOf := fun token account => inr 0;
     Migration.readDepositToken := fun vault => inr sampleUsdc;
     Migration.readTotalUserShares := fun vault => inr 0;
     Migration.readHasOpenLpPosition := fun vault => inr false;
     Migration.httpGet := fun url token => oldEndpoint;
     Migration.nowIso := "2026-01-01T00:00:00.000Z";
     Migration.writeFile := fun path contents => inr tt |}.

Definition runMigration (oldEndpoint : Migration.HttpResult)
  : Migration.MainOutcome :=
  Migration.main sampleIsAddress sampleFormatUnits sampleNumber
    sampleStringify samplePools sampleUsdc 143 "https://rpc.monad.xyz"
    (migrationWorld oldEndpoint).

(** A price feed that answers every request with both stable prices. *)
Definition pricedUpstream (n : nat) (ids : list string)
  : Oracle.FetchOutcome :=
  Oracle.FetchResponded 200
    (Oracle.BodyObject
       (<["usd-coin" := Some (9995 # 10000)%Q]>
          (<["tether" := Some (10002 # 10000)%Q]> ∅))).

(** An oracle whose only cache entry, USDC at 0.9991, is still fresh. *)
Definition freshUsdcMachine : Oracle.Machine :=
  Oracle.with_cache
    (<["USDC" := {| Oracle.value := 9991 # 10000; Oracle.expiresAt := 200000 |}]> ∅)
    Oracle.newMachine.


(** A stand-in for the printing of numbers, enough to run the guards. *)
Definition sampleNumberToString (x : Double.number) : string := "n".

(** An oracle configured with no stable symbol. *)
Definition noStableConfig : Oracle.LivePriceOracleConfig :=
  {| Oracle.baseUrl := "https://api.coingecko.com/api/v3";
     Oracle.stableSymbols := [];
     Oracle.coingeckoIdBySymbol := <["MON" := "monad"]> ∅;
     Oracle.timeoutMs := 8000;
     Oracle.cacheTtlMs := 30000;
     Oracle.cfgRateLimitCooldownMs := None;
     Oracle.cfgStaleFallbackTtlMs := None;
     Oracle.cfgWarningCooldownMs := None |}.

(** A run of the migration report whose old vault address is blank. *)
Definition blankAddressWorld : Migration.World :=
  {| Migration.processEnv :=
       <["MIGRATION_OLD_VAULT_ADDRESS" := "   "]>
       (<["MIGRATION_NEW_VAULT_ADDRESS" :=
            "0x00000000000000000000000000000000000000d2"]> ∅);
     Migration.balanceOf := fun token account => inr 0;
     Migration.readDepositToken := fun vault => inr sampleUsdc;
     Migration.readTotalUserShares := fun vault => inr 0;
     Migration.readHasOpenLpPosition := fun vault => inr false;
     Migration.httpGet := fun url token => Migration.Responded 200 None;
     Migration.nowIso := "2026-01-01T00:00:00.000Z";
     Migration.writeFile := fun path contents => inr tt |}.

(** A chain on which the old vault still holds 5 units of the pool's LP
    token and the new vault does not answer [depositToken()]. *)
Definition exposedWorld : Migration.World :=
  {| Migration.processEnv :=
       <["MIGRATION_OLD_VAULT_ADDRESS" :=
           "0x00000000000000000000000000000000000000d1"]>
       (<["MIGRATION_NEW_VAULT_ADDRESS" :=
            "0x00000000000000000000000000000000000000d2"]> ∅);
     Migration.balanceOf :=
       fun token account =>
         if decide (token = "0x00000000000000000000000000000000000000b1"
                    /\ account = "0x00000000000000000000000000000000000000d1")
         then inr 5 else inr 0;
     Migration.readDepositToken := fun vault => inl "execution reverted";
     Migration.readTotalUserShares := fun vault => inl "execution reverted";
     Migration.readHasOpenLpPosition := fun vault => inl "execution reverted";
     Migration.httpGet := fun url token => Migration.Responded 200 None;
     Migration.nowIso := "2026-01-01T00:00:00.000Z";
     Migration.writeFile := fun path contents => inr tt |}.

(** The control route in front of a bot that queues what it is sent. *)
Definition controlEnv : gmap string string :=
  <["BOT_CONTROL_URL" := "https://bot.example/"]>
  (<["BOT_STATE_AUTH_TOKEN" := " s3cret "]> ∅).

Definition queueingBot (out : ControlRoute.Outgoing) : ControlRoute.Upstream :=
  ControlRoute.Replied 202
    (Some (Migration.JObject [("queued", Migration.JBool true)])).

Definition sampleJsonText (v : Migration.Json) : string := "{...}".

Definition sampleRelayable (status : Z) : bool :=
  (200 <=? status) && (status <=? 599).

Definition rotateRequest : option Migration.Json :=
  Some (Migration.JObject
          [("action", Migration.JString "rotate");
           ("poolId", Migration.JString "curvance-usdc")]).

End Examples.

(** ** The specification's sentences, where they differ from the code *)

Module SpecReading.

(** The claim of the specification read literally: the deviation compared
    with the threshold is [abs(price-1)*10000] itself, as a real number. *)
Definition depegClaimUnrounded (prices : Js.Record_ Double.number)
    (maxDeviationBps : Double.number) : Prop :=
  forall Number_toString,
    Guards.triggered (Guards.depegGuard Number_toString prices maxDeviationBps)
    = true <->
    (prices = [] \/
     exists symbol price p threshold,
       (symbol, price) ∈ prices
       /\ Double.toQ price = Some p
       /\ Double.toQ maxDeviationBps = Some threshold
       /\ (threshold < Qabs (p - 1) * 10000)%Q).

(** The same for the APR-cliff guard: the drop in bps is
    [(prev-curr)/prev*10000] itself, as a real number. *)
Definition cliffClaimUnrounded (current previous : Guards.PoolSnapshot)
    (minDropBps : Double.number) : Prop :=
  forall Number_toString,
    Guards.triggered
      (Guards.aprCliffGuard Number_toString (Some current) (Some previous)
         minDropBps) = true <->
    exists prev curr threshold,
      Double.toQ (Guards.incentiveAprBps previous) = Some prev
      /\ Double.toQ (Guards.incentiveAprBps current) = Some curr
      /\ Double.toQ minDropBps = Some threshold
      /\ (0 < prev)%Q
      /\ (threshold < (prev - curr) / prev * 10000)%Q.

(** The claim about [estimatePaybackHours] read literally, in the
    arithmetic of the code: for a positive delta the result is
    [(costBps/deltaApyBps)*24*365], the factors in that order. *)
Definition paybackClaimAsWritten (costBps deltaApyBps : Double.number) : Prop :=
  Double.gt deltaApyBps (Double.ofZ 0) = true ->
  YieldMath.estimatePaybackHours costBps deltaApyBps
  = Double.mul
      (Double.mul (Double.div costBps deltaApyBps) (Double.ofZ 24))
      (Double.ofZ 365).

(** The same claim read over the real numbers: for a positive delta the
    result is the number [cost/delta*24*365]. *)
Definition paybackClaimExact (costBps deltaApyBps : Double.number) : Prop :=
  Double.gt deltaApyBps (Double.ofZ 0) = true ->
  exists cost delta hours,
    Double.toQ costBps = Some cost
    /\ Double.toQ deltaApyBps = Some delta
    /\ Double.toQ (YieldMath.estimatePaybackHours costBps deltaApyBps)
       = Some hours
    /\ (hours == cost / delta * 24 * 365)%Q.

(** The claim about the re-armed TTL read literally: the stale-fallback
    TTL is another duration than the normal cache TTL. *)
Definition staleTtlDistinct (config : Oracle.LivePriceOracleConfig) : Prop :=
  Oracle.staleFallbackTtlMs config <> Oracle.cacheTtlMs config.

(** The claim about the telemetry of the stable batch read literally: a
    batch that is served the stale cached snapshot after a failed fetch
    increments [staleFallbackHits], and leaves alone [stableFallbackHits],
    which counts the hard fallbacks to 1.0 only. *)
Definition staleServedBatchCounted (config : Oracle.LivePriceOracleConfig)
    (clock : nat -> Z) (upstream : nat -> list string -> Oracle.FetchOutcome)
    (m : Oracle.Machine) : Prop :=
  forall stale m',
    Oracle.readCachedSnapshot clock
      (Oracle.normalizeSymbols (Oracle.stableSymbols config)) true m
    = (inr (Some stale), m) ->
    Oracle.getStablePricesUsd config clock upstream m = (inr stale, m') ->
    Oracle.fetchFailures (Oracle.telemetry m')
    = S (Oracle.fetchFailures (Oracle.telemetry m)) ->
    Oracle.staleFallbackHits (Oracle.telemetry m')
    = S (Oracle.staleFallbackHits (Oracle.telemetry m))
    /\ Oracle.stableFallbackHits (Oracle.telemetry m')
       = Oracle.stableFallbackHits (Oracle.telemetry m).

(** The claim about the disabled adapter read literally: each of the five
    methods fails with the "disabled" error. *)
Definition dex1EveryMethodFailsDisabled
    (pool : Dex1Adapter.PoolConfig) (amountIn : Z)
    (enter : Dex1Adapter.BuildEnterRequestInput)
    (exit : Dex1Adapter.BuildExitRequestInput) : Prop :=
  Dex1Adapter.failsDisabled (Dex1Adapter.fetchPoolState pool) = true
  /\ Dex1Adapter.failsDisabled (Dex1Adapter.estimatePriceImpactBps pool amountIn)
     = true
  /\ Dex1Adapter.failsDisabled
       (Dex1Adapter.estimateRotationCostBps pool pool amountIn) = true
  /\ Dex1Adapter.failsDisabled (Dex1Adapter.buildEnterRequest enter) = true
  /\ Dex1Adapter.failsDisabled (Dex1Adapter.buildExitRequest exit) = true.

End SpecReading.

(** ** What a guard result must look like *)

Module GuardsLogic.
Import Guards.

(** The reason code a guard result must carry for its [triggered] flag,
    per guard family. *)
Definition isTriggeredReason (r : GuardReason) : bool :=
  match r with
  | DEPEG_GUARD_TRIGGERED | SLIPPAGE_GUARD_TRIGGERED
  | APR_CLIFF_GUARD_TRIGGERED => true
  | _ => false
  end.

(** A result is well formed when the flag, the reason code and the presence
    of [details] agree. *)
Definition wellFormed (g : GuardResult) : Prop :=
  isTriggeredReason (reason g) = triggered g
  /\ (triggered g = true <-> is_Some (details g)).

End GuardsLogic.

(** ** What the migration report checks *)

Module MigrationLogic.
Import Migration.

(** [isReady] of [main]: the new service answered 200 and reported itself
    healthy and ready. *)
Definition isReady (e : EndpointSnapshot) : bool :=
  (httpStatus e =? 200) && bool_decide (healthy e = Some true)
  && bool_decide (ready e = Some true).

End MigrationLogic.

(** ** Invariants and triples for the oracle *)

Module OracleLogic.
Import Js Oracle.

(** Every cache entry sits under a normalized key and holds a positive
    price. *)
Definition wellFormedCache (m : Machine) : Prop :=
  forall key entry,
    cache m !! key = Some entry ->
    normalizeSymbol key = key /\ (0 < value entry)%Q.

Definition positiveRecord (r : Record_ Q) : Prop :=
  Forall (fun kv => (0 < kv.2)%Q) r.

(** [triple P c Q]: run from a machine that satisfies [P], the method [c]
    ends, by return or by throw, in a result and a machine related by
    [Q]. *)
Definition triple {A} (P : Machine -> Prop) (c : M A)
    (Q : Result A -> Machine -> Prop) : Prop :=
  forall m, P m -> Q (c m).1 (c m).2.

(** [keeps Inv c post]: the method [c] maintains the invariant [Inv],
    whether it returns or throws, and what it returns satisfies [post]. *)
Definition keeps {A} (Inv : Machine -> Prop) (c : M A) (post : A -> Prop)
  : Prop :=
  triple Inv c
    (fun r m => Inv m /\ match r with inl _ => True | inr a => post a end).

(** The three counters of which every lookup bumps exactly one. *)
Definition lookupsServed (t : PriceOracleTelemetry) : nat :=
  cacheFreshHits t + networkFetchSuccesses t + fetchFailures t.

Definition fallbacksServed (t : PriceOracleTelemetry) : nat :=
  staleFallbackHits t + stableFallbackHits t.

End OracleLogic.

(** * Properties *)

(** ** Symbols and records *)

Section NormalizeProperties.
Import Js.

Lemma is_space_upper_char c : is_space (upper_char c) = is_space c.
Proof. destruct c as [[] [] [] [] [] [] [] []]; reflexivity. Qed.

Lemma upper_char_idempotent c : upper_char (upper_char c) = upper_char c.
Proof. destruct c as [[] [] [] [] [] [] [] []]; reflexivity. Qed.

Lemma toUpperCase_idempotent s : toUpperCase (toUpperCase s) = toUpperCase s.
Proof.
  induction s as [|c s IH]; simpl; [reflexivity|].
  rewrite upper_char_idempotent, IH. reflexivity.
Qed.

Lemma trimStart_toUpperCase s : trimStart (toUpperCase s) = toUpperCase (trimStart s).
Proof.
  induction s as [|c s IH]; simpl; [reflexivity|].
  rewrite is_space_upper_char. destruct (is_space c); [exact IH | reflexivity].
Qed.

Lemma trimEnd_toUpperCase s : trimEnd (toUpperCase s) = toUpperCase (trimEnd s).
Proof.
  induction s as [|c s IH]; simpl; [reflexivity|].
  rewrite IH, is_space_upper_char.
  destruct (trimEnd s); simpl; [destruct (is_space c)|]; reflexivity.
Qed.

Lemma trimEnd_idempotent s : trimEnd (trimEnd s) = trimEnd s.
Proof.
  induction s as [|c s IH]; simpl; [reflexivity|].
  destruct (trimEnd s) as [|d t] eqn:E.
  - destruct (is_space c) eqn:Ec; simpl; [reflexivity|]. rewrite Ec. reflexivity.
  - simpl in *. rewrite IH. reflexivity.
Qed.

Lemma trimStart_headed s : headed (trimStart s).
Proof.
  induction s as [|c s IH]; simpl; [exact I|].
  destruct (is_space c) eqn:E; [exact IH | exact E].
Qed.

Lemma trimStart_of_headed s : headed s -> trimStart s = s.
Proof. destruct s as [|c s]; simpl; [reflexivity|]. intros ->. reflexivity. Qed.

Lemma trimEnd_headed s : headed s -> headed (trimEnd s).
Proof.
  destruct s as [|c s]; simpl; [auto|]. intros H.
  destruct (trimEnd s); simpl; [rewrite H; simpl|]; exact H.
Qed.

Lemma trim_idempotent s : trim (trim s) = trim s.
Proof.
  unfold trim.
  rewrite (trimStart_of_headed (trimEnd (trimStart s))).
  - apply trimEnd_idempotent.
  - apply trimEnd_headed, trimStart_headed.
Qed.

Lemma trim_toUpperCase s : trim (toUpperCase s) = toUpperCase (trim s).
Proof. unfold trim. rewrite trimStart_toUpperCase, trimEnd_toUpperCase. reflexivity. Qed.

Lemma normalizeSymbol_idempotent s :
  Oracle.normalizeSymbol (Oracle.normalizeSymbol s) = Oracle.normalizeSymbol s.
Proof.
  unfold Oracle.normalizeSymbol.
  rewrite trim_toUpperCase, trim_idempotent, toUpperCase_idempotent. reflexivity.
Qed.

Lemma uniq_from_elem seen xs x :
  x ∈ uniq_from seen xs <-> x ∈ xs /\ x ∉ seen.
Proof.
  revert seen. induction xs as [|y xs IH]; intros seen; simpl.
  - split; [intros H; inversion H | intros [H _]; inversion H].
  - destruct (decide (y ∈ seen)) as [Hy|Hy].
    + rewrite IH. rewrite elem_of_cons. split.
      * intros [? ?]; auto.
      * intros [[-> | ?] Hn]; [contradiction | auto].
    + rewrite !elem_of_cons, IH, elem_of_cons. split.
      * intros [-> | [? Hn]]; [auto|]. split; [auto|]. intros ?; apply Hn; auto.
      * intros [[-> | Hin] Hn]; [auto|].
        destruct (decide (x = y)) as [->|Hne]; [auto|].
        right. split; [exact Hin|]. intros [? | ?]; contradiction.
Qed.

Lemma uniq_from_NoDup seen xs : NoDup (uniq_from seen xs).
Proof.
  revert seen. induction xs as [|y xs IH]; intros seen; simpl.
  - constructor.
  - destruct (decide (y ∈ seen)); [apply IH|].
    constructor; [|apply IH].
    rewrite uniq_from_elem. intros [_ Hn]. apply Hn. left.
Qed.

Lemma uniq_elem xs x : x ∈ uniq xs <-> x ∈ xs.
Proof.
  unfold uniq. rewrite uniq_from_elem. split; [intros [? _]; auto|].
  intros H; split; [exact H|]. intros Hx; inversion Hx.
Qed.

Lemma uniq_NoDup xs : NoDup (uniq xs).
Proof. apply uniq_from_NoDup. Qed.

Lemma uniq_nil_inv xs : uniq xs = [] -> xs = [].
Proof.
  destruct xs as [|x xs]; [reflexivity|]. unfold uniq. simpl. discriminate.
Qed.

Lemma record_set_fresh {V} k (v : V) r :
  k ∉ map fst r -> record_set k v r = r ++ [(k, v)].
Proof.
  induction r as [|[k' v'] r IH]; simpl; intros Hk; [reflexivity|].
  rewrite not_elem_of_cons in Hk. destruct Hk as [Hne Hk].
  destruct (decide (k = k')); [contradiction|]. rewrite IH; auto.
Qed.

Lemma fromEntries_NoDup_from {V} (acc entries : list (string * V)) :
  NoDup (map fst (acc ++ entries)) ->
  fold_left (fun r kv => record_set kv.1 kv.2 r) entries acc = acc ++ entries.
Proof.
  revert acc. induction entries as [|[k v] entries IH]; intros acc Hnd; simpl.
  - rewrite app_nil_r. reflexivity.
  - rewrite record_set_fresh.
    + rewrite IH; rewrite <- app_assoc; [reflexivity | exact Hnd].
    + rewrite map_app in Hnd. simpl in Hnd.
      apply NoDup_app in Hnd. destruct Hnd as (_ & Hdis & _).
      intros Hin. apply (Hdis k Hin). left.
Qed.

Lemma Object_fromEntries_NoDup {V} (entries : list (string * V)) :
  NoDup (map fst entries) -> Object_fromEntries entries = entries.
Proof. intros H. unfold Object_fromEntries. apply (fromEntries_NoDup_from []). exact H. Qed.

Lemma record_get_const {V} (v : V) keys k :
  k ∈ keys -> record_get k (map (fun s => (s, v)) keys) = Some v.
Proof.
  induction keys as [|k' keys IH]; simpl; intros H; [inversion H|].
  destruct (decide (k = k')); [reflexivity|].
  apply IH. apply elem_of_cons in H. destruct H; [contradiction | assumption].
Qed.

End NormalizeProperties.

(** ** Numbers *)

Section NumberProperties.
Import Js.

Lemma le_spec (a b : Q) : le a b = true <-> (a <= b)%Q.
Proof. apply Qle_bool_iff. Qed.

Lemma le_false_spec (a b : Q) : le a b = false <-> (b < a)%Q.
Proof.
  unfold le. split.
  - intros H. apply Qnot_le_lt. intros Hle.
    apply Qle_bool_iff in Hle. congruence.
  - intros H. destruct (Qle_bool a b) eqn:E; [|reflexivity].
    apply Qle_bool_iff in E. exfalso. exact (Qlt_not_le _ _ H E).
Qed.

End NumberProperties.

(** ** Guards *)

Section GuardProperties.
Import Js Guards.

Variable Number_toString : Double.number -> string.

Lemma depegGuard_triggered_exists (prices : Record_ Double.number)
    (maxDeviationBps : Double.number) :
  triggered (depegGuard Number_toString prices maxDeviationBps) = true <->
  (prices = [] \/
   existsb (exceeds maxDeviationBps)
     (map (fun e => {| symbol := e.1; bps := deviationBpsFromDollar e.2 |})
          prices) = true).
Proof.
  unfold depegGuard. destruct prices as [|e rest].
  - simpl. split; auto.
  - set (ds := map _ (e :: rest)).
    destruct (existsb (exceeds maxDeviationBps) ds) eqn:E; simpl.
    + split; auto.
    + split; [discriminate | intros [H | H]; [discriminate H | exact H]].
Qed.

End GuardProperties.

(** C4 (as amended). The depeg guard computes, per stable symbol, the
    deviation [Math.round(Math.abs(price - 1) * 10000)] in binary64
    arithmetic, and it triggers if and only if the price map is empty or
    the rounded deviation of some symbol exceeds [maxDeviationBps]. With
    [{USDC: 1.02}] at 100 bps it triggers, with [{USDC: 1.005}] at 100 bps
    it does not; with [{USDC: 0.99395}] at 60 bps it triggers, since the
    product is the number 60.5, which rounds to 61. *)
Theorem depegGuard_triggers_iff_rounded_deviation_exceeds :
  (forall Number_toString (prices : Js.Record_ Double.number)
          (maxDeviationBps : Double.number),
     Guards.triggered
       (Guards.depegGuard Number_toString prices maxDeviationBps) = true <->
     (prices = [] \/
      exists symbol price, (symbol, price) ∈ prices /\
        Double.gt
          (Double.Math_round
             (Double.mul (Double.Math_abs (Double.sub price (Double.ofZ 1)))
                (Double.ofZ 10000)))
          maxDeviationBps = true))
  /\ (forall Number_toString,
        Guards.triggered
          (Guards.depegGuard Number_toString
             [("USDC", Double.decimal 102 100)] (Double.ofZ 100)) = true)
  /\ (forall Number_toString,
        Guards.triggered
          (Guards.depegGuard Number_toString
             [("USDC", Double.decimal 1005 1000)] (Double.ofZ 100)) = false)
  /\ (forall Number_toString,
        Guards.triggered
          (Guards.depegGuard Number_toString
             [("USDC", Double.decimal 99395 100000)] (Double.ofZ 60)) = true)
  /\ Guards.deviationBpsFromDollar (Double.decimal 99395 100000)
     = Double.ofZ 61.
Proof.
  split; [|repeat split; intros; vm_compute; reflexivity].
  intros Number_toString prices maxDeviationBps.
  rewrite depegGuard_triggered_exists.
  rewrite existsb_exists.
  split; (intros [H | H]; [left; exact H | right]).
  - destruct H as (d & Hin & Hex).
    apply in_map_iff in Hin. destruct Hin as ([s p] & <- & Hin).
    exists s, p. split; [apply list_elem_of_In; exact Hin|].
    exact Hex.
  - destruct H as (s & p & Hin & Hgt).
    exists {| Guards.symbol := s; Guards.bps := Guards.deviationBpsFromDollar p |}.
    split.
    + apply in_map_iff. exists (s, p). split; [reflexivity|].
      apply list_elem_of_In; exact Hin.
    + exact Hgt.
Qed.

(** C4, counterexample to the claim as stated: for [{USDC: 1.0078125}] the
    deviation is 78.125 bps (price, difference and product are exact in
    binary64), above a threshold of 78 bps, yet the guard compares the
    rounded 78 and does not trigger. *)
Lemma depegGuard_unrounded_claim_fails :
  ~ SpecReading.depegClaimUnrounded
      [("USDC", Double.decimal 129 128)] (Double.ofZ 78).
Proof.
  unfold SpecReading.depegClaimUnrounded. intros Hclaim.
  destruct (Hclaim (fun _ => EmptyString)) as [_ H].
  assert (Hf : Guards.triggered
                 (Guards.depegGuard (fun _ => EmptyString)
                    [("USDC", Double.decimal 129 128)] (Double.ofZ 78))
               = false)
    by (vm_compute; reflexivity).
  rewrite H in Hf; [discriminate|].
  right. exists "USDC", (Double.decimal 129 128), (129 # 128)%Q, 78%Q.
  split; [apply list_elem_of_here|].
  split; [vm_compute; reflexivity|].
  split; [vm_compute; reflexivity|].
  reflexivity.
Qed.

(** C5 (as amended). With a current snapshot given, the APR-cliff guard
    triggers if and only if the previous snapshot is present, its incentive
    APR is not [<= 0], and the drop
    [Math.round(((prev - curr) / prev) * 10000)], computed in binary64
    arithmetic, exceeds [minDropBps]. Previous 1000 and current 400 at
    5000 bps triggers; previous 0 does not, whatever the current value and
    threshold; previous 800 and current 373 is a drop of 5337 bps (the
    product is the number 5337.499999999999), so it triggers at 5336 and
    not at 5337. *)
Theorem aprCliffGuard_triggers_iff_rounded_drop_exceeds :
  (forall Number_toString (current : Guards.PoolSnapshot)
          (previous : option Guards.PoolSnapshot) (minDropBps : Double.number),
     Guards.triggered
       (Guards.aprCliffGuard Number_toString (Some current) previous minDropBps)
       = true <->
     exists prev, previous = Some prev /\
       Double.le (Guards.incentiveAprBps prev) (Double.ofZ 0) = false /\
       Double.gt
         (Double.Math_round
            (Double.mul
               (Double.div
                  (Double.sub (Guards.incentiveAprBps prev)
                     (Guards.incentiveAprBps current))
                  (Guards.incentiveAprBps prev))
               (Double.ofZ 10000)))
         minDropBps = true)
  /\ (forall Number_toString current minDropBps,
        Guards.triggered
          (Guards.aprCliffGuard Number_toString current None minDropBps)
        = false)
  /\ (forall Number_toString pool net slip,
        Guards.triggered
          (Guards.aprCliffGuard Number_toString
             (Some (Guards.Build_PoolSnapshot pool (Double.ofZ 400) net slip))
             (Some (Guards.Build_PoolSnapshot pool (Double.ofZ 1000) net slip))
             (Double.ofZ 5000)) = true)
  /\ (forall Number_toString pool net slip net' slip' currentIncentive
             minDropBps,
        Guards.triggered
          (Guards.aprCliffGuard Number_toString
             (Some (Guards.Build_PoolSnapshot pool currentIncentive net slip))
             (Some (Guards.Build_PoolSnapshot pool (Double.ofZ 0) net' slip'))
             minDropBps)
        = false)
  /\ (forall Number_toString pool net slip,
        Guards.triggered
          (Guards.aprCliffGuard Number_toString
             (Some (Guards.Build_PoolSnapshot pool (Double.ofZ 373) net slip))
             (Some (Guards.Build_PoolSnapshot pool (Double.ofZ 800) net slip))
             (Double.ofZ 5336)) = true
        /\ Guards.triggered
             (Guards.aprCliffGuard Number_toString
                (Some (Guards.Build_PoolSnapshot pool (Double.ofZ 373) net slip))
                (Some (Guards.Build_PoolSnapshot pool (Double.ofZ 800) net slip))
                (Double.ofZ 5337)) = false).
Proof.
  split; [|split; [|split; [|split]]].
  - intros Number_toString current previous minDropBps.
    unfold Guards.aprCliffGuard, Guards.cliffDropBps.
    destruct previous as [prev|].
    + cbv zeta.
      destruct (Double.le (Guards.incentiveAprBps prev) (Double.ofZ 0)) eqn:Ele.
      * cbn [Guards.triggered]. split; [discriminate|].
        intros (p & [= <-] & Hpos & _). congruence.
      * match goal with
        | |- context [Double.gt ?a ?b] => destruct (Double.gt a b) eqn:Egt
        end; cbn [Guards.triggered].
        -- split; [|reflexivity]. intros _. eauto.
        -- split; [discriminate|]. intros (p & [= <-] & _ & Hgt). congruence.
    + cbn [Guards.triggered]. split; [discriminate|].
      intros (p & Hp & _). discriminate Hp.
  - intros Number_toString [current|] minDropBps; reflexivity.
  - intros. vm_compute. reflexivity.
  - intros. reflexivity.
  - intros. split; vm_compute; reflexivity.
Qed.

(** C5, counterexample to the claim as stated: previous 64 bps and current
    63 bps is a drop of 156.25 bps (difference, quotient and product are
    exact in binary64), above a threshold of 156 bps, yet the guard
    compares the rounded 156 and does not trigger. *)
Lemma aprCliffGuard_unrounded_claim_fails :
  ~ SpecReading.cliffClaimUnrounded
      (Guards.Build_PoolSnapshot "pool-a" (Double.ofZ 63) (Double.ofZ 0)
         (Double.ofZ 0))
      (Guards.Build_PoolSnapshot "pool-a" (Double.ofZ 64) (Double.ofZ 0)
         (Double.ofZ 0))
      (Double.ofZ 156).
Proof.
  unfold SpecReading.cliffClaimUnrounded. intros Hclaim.
  destruct (Hclaim (fun _ => EmptyString)) as [_ H].
  match type of H with
  | _ -> ?t = true => assert (Hf : t = false) by (vm_compute; reflexivity)
  end.
  rewrite H in Hf; [discriminate|].
  exists 64%Q, 63%Q, 156%Q. cbn [Guards.incentiveAprBps].
  split; [vm_compute; reflexivity|].
  split; [vm_compute; reflexivity|].
  split; [vm_compute; reflexivity|].
  split; reflexivity.
Qed.

(** ** Yield math *)

(** C8 (as amended). [estimatePaybackHours] returns +infinity when
    [deltaApyBps <= 0], and otherwise the binary64 result of
    [(costBps / deltaApyBps) * 365 * 24], evaluated from left to right with
    each operation rounded. [paybackHours(12, 0)] is +infinity and
    [paybackHours(100, 200)] is 4380; [paybackHours(3, 365)] is the number
    just below 72, and [paybackHours(1e308, 0.5)] overflows to +infinity
    although the delta is positive. *)
Theorem estimatePaybackHours_infinite_or_annualised :
  (forall costBps deltaApyBps,
     Double.le deltaApyBps (Double.ofZ 0) = true ->
     YieldMath.estimatePaybackHours costBps deltaApyBps
     = Double.PositiveInfinity)
  /\ (forall costBps deltaApyBps,
        Double.le deltaApyBps (Double.ofZ 0) = false ->
        YieldMath.estimatePaybackHours costBps deltaApyBps
        = Double.mul
            (Double.mul (Double.div costBps deltaApyBps) (Double.ofZ 365))
            (Double.ofZ 24))
  /\ YieldMath.estimatePaybackHours (Double.ofZ 12) (Double.ofZ 0)
     = Double.PositiveInfinity
  /\ YieldMath.estimatePaybackHours (Double.ofZ 100) (Double.ofZ 200)
     = Double.ofZ 4380
  /\ Double.lt
       (YieldMath.estimatePaybackHours (Double.ofZ 3) (Double.ofZ 365))
       (Double.ofZ 72) = true
  /\ YieldMath.estimatePaybackHours (Double.ofZ (10 ^ 308))
       (Double.decimal 5 10)
     = Double.PositiveInfinity.
Proof.
  unfold YieldMath.estimatePaybackHours.
  split; [|split; [|repeat split; vm_compute; reflexivity]].
  - intros costBps deltaApyBps H. rewrite H. reflexivity.
  - intros costBps deltaApyBps H. rewrite H. reflexivity.
Qed.

(** C8 at the two inputs of the specification: [paybackHours(12, 0)] is
    +infinity and [paybackHours(100, 200)] is 4380. *)
Lemma estimatePaybackHours_examples :
  YieldMath.estimatePaybackHours (Double.ofZ 12) (Double.ofZ 0)
  = Double.PositiveInfinity
  /\ YieldMath.estimatePaybackHours (Double.ofZ 100) (Double.ofZ 200)
     = Double.ofZ 4380.
Proof.
  split.
  - apply (proj1 estimatePaybackHours_infinite_or_annualised).
    vm_compute. reflexivity.
  - rewrite (proj1 (proj2 estimatePaybackHours_infinite_or_annualised)
               (Double.ofZ 100) (Double.ofZ 200));
      vm_compute; reflexivity.
Defined.

(** C8, counterexample to the claim as stated. In the arithmetic of the
    code the factors do not commute: [paybackHours(1, 5)] is 1752, whereas
    [(1/5)*24*365] is the next number above 1752. And over the real
    numbers the claimed value is missed by rounding: [paybackHours(3, 365)]
    is not 72. *)
Lemma estimatePaybackHours_claimed_formula_fails :
  ~ SpecReading.paybackClaimAsWritten (Double.ofZ 1) (Double.ofZ 5)
  /\ ~ SpecReading.paybackClaimExact (Double.ofZ 3) (Double.ofZ 365).
Proof.
  split.
  - unfold SpecReading.paybackClaimAsWritten. intros H.
    specialize (H eq_refl). vm_compute in H. discriminate H.
  - unfold SpecReading.paybackClaimExact. intros H.
    destruct (H eq_refl) as (cost & delta & hours & Hc & Hd & Hh & Heq).
    vm_compute in Hc, Hd, Hh.
    injection Hc as <-. injection Hd as <-. injection Hh as <-.
    vm_compute in Heq. discriminate Heq.
Qed.

(** ** Price oracle *)

Module OracleProofs.
Import Js Oracle.

Lemma bind_run {A B} (c : M A) (k : A -> M B) m a m1 :
  c m = (inr a, m1) -> bind c k m = k a m1.
Proof. unfold bind. intros ->. reflexivity. Qed.

Lemma bind_throw {A B} (c : M A) (k : A -> M B) m e m1 :
  c m = (inl e, m1) -> bind c k m = (inl e, m1).
Proof. unfold bind. intros ->. reflexivity. Qed.

Lemma try_catch_run {A} (c : M A) (h : OracleError -> M A) m a m1 :
  c m = (inr a, m1) -> try_catch c h m = (inr a, m1).
Proof. unfold try_catch. intros ->. reflexivity. Qed.

Lemma try_catch_throw {A} (c : M A) (h : OracleError -> M A) m e m1 :
  c m = (inl e, m1) -> try_catch c h m = h e m1.
Proof. unfold try_catch. intros ->. reflexivity. Qed.

(** Tactics that run the monadic code of the oracle step by step. *)
Ltac fields :=
  cbn [cache rateLimitedUntilMs warningLastLoggedAt telemetry dateNowCalls
       requests consoleWarn with_cache with_rateLimitedUntilMs
       with_warningLastLoggedAt with_telemetry with_dateNowCalls
       with_requests with_consoleWarn tick] in *.

(** Runs the next statement when it is one that computes. *)
Ltac step :=
  match goal with
  | |- context [@bind ?A ?B ?c ?k ?m] =>
      let H := fresh in
      eassert (H : c m = (inr _, _)) by reflexivity;
      rewrite (bind_run c k m _ _ H); clear H
  end.

Ltac run_fetch :=
  unfold fetchPrices, bind, ret, throw, get,
    modify, liftResult, Date_now, fetch in *;
  simpl in *.

Ltac frame_done :=
  repeat match goal with |- _ /\ _ => split end;
  simpl;
  first [ reflexivity | lia | left; split; reflexivity
        | right; split; simpl; lia ].


Section OracleFrames.
Import Js Oracle.

Variable config : LivePriceOracleConfig.
Variable clock : nat -> Z.
Variable upstream : nat -> list string -> FetchOutcome.

Abbreviation readCachedValue := (Oracle.readCachedValue clock).
Abbreviation readCachedSnapshot_from := (Oracle.readCachedSnapshot_from clock).
Abbreviation readCachedSnapshot := (Oracle.readCachedSnapshot clock).
Abbreviation writeCache := (Oracle.writeCache clock).
Abbreviation writeCacheSnapshot := (Oracle.writeCacheSnapshot clock).
Abbreviation warnWithCooldown := (Oracle.warnWithCooldown config clock).

Lemma with_dateNowCalls_same m : with_dateNowCalls (dateNowCalls m) m = m.
Proof. destruct m; reflexivity. Qed.

Lemma onlyClockRead_refl m : onlyClockRead m m.
Proof. split; [symmetry; apply with_dateNowCalls_same | lia]. Qed.

Lemma onlyClockRead_trans m1 m2 m3 :
  onlyClockRead m1 m2 -> onlyClockRead m2 m3 -> onlyClockRead m1 m3.
Proof.
  intros [H1 L1] [H2 L2]. split; [|lia].
  rewrite H2 at 1. rewrite H1 at 1. reflexivity.
Qed.

Lemma onlyClockRead_tick m : onlyClockRead m (tick m).
Proof. split; [reflexivity | simpl; lia]. Qed.

Lemma onlyClockRead_cache m m' : onlyClockRead m m' -> cache m' = cache m.
Proof. intros [-> _]. reflexivity. Qed.

Lemma readCachedValue_miss symbol allowStale m :
  cache m !! normalizeSymbol symbol = None ->
  readCachedValue symbol allowStale m = (inr None, m).
Proof.
  intros H. unfold Oracle.readCachedValue, bind, get. rewrite H. reflexivity.
Qed.

Lemma readCachedValue_stale symbol m :
  readCachedValue symbol true m
  = (inr (value <$> cache m !! normalizeSymbol symbol), m).
Proof.
  unfold Oracle.readCachedValue, bind, get.
  destruct (cache m !! normalizeSymbol symbol); reflexivity.
Qed.

Lemma readCachedValue_fresh symbol m cached :
  cache m !! normalizeSymbol symbol = Some cached ->
  readCachedValue symbol false m
  = (inr (if expiresAt cached <=? clock (dateNowCalls m) then None
          else Some (value cached)), tick m).
Proof.
  intros H. unfold Oracle.readCachedValue, bind, get. rewrite H. simpl.
  unfold Date_now. destruct (expiresAt cached <=? clock (dateNowCalls m)); reflexivity.
Qed.

Lemma readCachedValue_frame symbol allowStale m :
  exists r m', readCachedValue symbol allowStale m = (inr r, m')
               /\ onlyClockRead m m'.
Proof.
  destruct (cache m !! normalizeSymbol symbol) as [cached|] eqn:E.
  - destruct allowStale.
    + rewrite readCachedValue_stale. eauto using onlyClockRead_refl.
    + rewrite (readCachedValue_fresh _ _ _ E). eauto using onlyClockRead_tick.
  - rewrite (readCachedValue_miss _ _ _ E). eauto using onlyClockRead_refl.
Qed.

Lemma readCachedSnapshot_from_frame symbols allowStale : forall result m,
  exists r m', readCachedSnapshot_from result symbols allowStale m = (inr r, m')
               /\ onlyClockRead m m'.
Proof.
  induction symbols as [|s rest IH]; intros result m; simpl.
  - eauto using onlyClockRead_refl.
  - unfold bind.
    destruct (readCachedValue_frame s allowStale m) as (r & m1 & -> & H1).
    destruct r as [v|].
    + destruct (IH (record_set s v result) m1) as (r' & m2 & -> & H2).
      eauto using onlyClockRead_trans.
    + unfold ret. eauto.
Qed.

Lemma readCachedSnapshot_from_missing symbols allowStale missing :
  missing ∈ symbols ->
  forall result m,
    cache m !! normalizeSymbol missing = None ->
    exists m', readCachedSnapshot_from result symbols allowStale m = (inr None, m')
               /\ onlyClockRead m m'.
Proof.
  induction symbols as [|s rest IH]; intros Hin result m Hmiss; [inversion Hin|].
  simpl. unfold bind.
  destruct (decide (s = missing)) as [->|Hne].
  - rewrite (readCachedValue_miss _ _ _ Hmiss). unfold ret.
    eauto using onlyClockRead_refl.
  - apply elem_of_cons in Hin. destruct Hin as [->|Hin]; [contradiction|].
    destruct (readCachedValue_frame s allowStale m) as (r & m1 & -> & H1).
    destruct r as [v|]; [|unfold ret; eauto].
    destruct (IH Hin (record_set s v result) m1) as (m2 & -> & H2).
    + rewrite (onlyClockRead_cache _ _ H1). exact Hmiss.
    + eauto using onlyClockRead_trans.
Qed.

Lemma sameUpstreamState_refl m : sameUpstreamState m m.
Proof. repeat split; lia. Qed.

Lemma sameUpstreamState_trans m1 m2 m3 :
  sameUpstreamState m1 m2 -> sameUpstreamState m2 m3 -> sameUpstreamState m1 m3.
Proof.
  intros (A1 & B1 & D1) (A2 & B2 & D2).
  repeat split; try congruence; lia.
Qed.

Lemma onlyClockRead_sameUpstreamState m m' :
  onlyClockRead m m' -> sameUpstreamState m m'.
Proof. intros [-> H]. repeat split; simpl in *; lia. Qed.

Lemma writeCache_run symbol v ttlMs m :
  writeCache symbol v ttlMs m
  = (inr tt,
     with_cache
       (<[normalizeSymbol symbol :=
            {| value := v; expiresAt := clock (dateNowCalls m) + ttlMs |}]>
          (cache m))
       (tick m)).
Proof. reflexivity. Qed.

Lemma writeCacheSnapshot_run values ttlMs : forall m,
  exists m', writeCacheSnapshot values ttlMs m = (inr tt, m')
    /\ sameUpstreamState m m' /\ telemetry m' = telemetry m
    /\ (forall key, key ∉ map (fun e => normalizeSymbol e.1) values ->
          cache m' !! key = cache m !! key)
    /\ (forall key, key ∈ map (fun e => normalizeSymbol e.1) values ->
          exists symbol v k,
            (symbol, v) ∈ values /\ normalizeSymbol symbol = key
            /\ (dateNowCalls m <= k < dateNowCalls m')%nat
            /\ cache m' !! key
               = Some {| value := v; expiresAt := clock k + ttlMs |}).
Proof.
  induction values as [|[s v] rest IH]; intros m; simpl.
  - exists m. split; [reflexivity|]. split; [apply sameUpstreamState_refl|].
    split; [reflexivity|]. split; [reflexivity|]. intros key H; inversion H.
  - unfold bind. rewrite writeCache_run.
    set (m1 := with_cache _ (tick m)).
    destruct (IH m1) as (m' & -> & Hsame & Htel & Hout & Hin).
    exists m'. split; [reflexivity|].
    assert (Hs1 : sameUpstreamState m m1) by (repeat split; simpl; lia).
    split; [eauto using sameUpstreamState_trans|].
    split; [rewrite Htel; reflexivity|].
    split.
    + intros key Hk. rewrite not_elem_of_cons in Hk. destruct Hk as [Hne Hk].
      rewrite (Hout key Hk). subst m1. simpl. rewrite lookup_insert_ne; auto.
    + intros key Hk.
      destruct (decide (key ∈ map (fun e => normalizeSymbol e.1) rest)) as [Hr|Hr].
      * destruct (Hin key Hr) as (s' & v' & k & Hmem & Hkey & Hrange & Hlook).
        exists s', v', k. split; [right; exact Hmem|]. split; [exact Hkey|].
        split; [subst m1; simpl in *; lia | exact Hlook].
      * apply elem_of_cons in Hk. destruct Hk as [->|Hk]; [|contradiction].
        exists s, v, (dateNowCalls m). split; [left|]. split; [reflexivity|].
        destruct Hsame as (_ & _ & Hle).
        split; [subst m1; simpl in *; lia|].
        rewrite (Hout _ Hr). subst m1. simpl. apply lookup_insert_eq.
Qed.

Lemma warnWithCooldown_run key message m :
  exists m', warnWithCooldown key message m = (inr tt, m')
    /\ sameUpstreamState m m' /\ telemetry m' = telemetry m
    /\ cache m' = cache m.
Proof.
  unfold Oracle.warnWithCooldown.
  destruct (warningCooldownMs config <=? 0).
  - eexists. split; [reflexivity|].
    split; [repeat split; simpl; lia | split; reflexivity].
  - unfold bind, Date_now, get. simpl.
    destruct (_ <? _).
    + eexists. split; [reflexivity|].
      split; [repeat split; simpl; lia | split; reflexivity].
    + eexists. split; [reflexivity|].
      split; [repeat split; simpl; lia | split; reflexivity].
Qed.

(** Each entry of a snapshot with distinct keys is written at a clock
    reading of its own: the [i]-th entry at the [i]-th reading after the
    write began. *)
Lemma writeCacheSnapshot_indexed values ttlMs : forall m,
  NoDup (map (fun e => normalizeSymbol e.1) values) ->
  exists m', Oracle.writeCacheSnapshot clock values ttlMs m = (inr tt, m')
    /\ dateNowCalls m' = (dateNowCalls m + length values)%nat
    /\ sameUpstreamState m m' /\ telemetry m' = telemetry m
    /\ forall (i : nat) symbol v,
         values !! i = Some (symbol, v) ->
         cache m' !! normalizeSymbol symbol
         = Some {| value := v;
                   expiresAt := clock (dateNowCalls m + i)%nat + ttlMs |}.
Proof.
  induction values as [|[s v] rest IH]; intros m Hnd.
  - exists m. split; [reflexivity|]. split; [simpl; lia|].
    split; [apply sameUpstreamState_refl|]. split; [reflexivity|].
    intros i symbol v H. rewrite lookup_nil in H. discriminate.
  - simpl in Hnd. apply NoDup_cons in Hnd. destruct Hnd as [Hfresh Hnd].
    simpl. unfold bind. rewrite writeCache_run.
    set (m1 := with_cache _ (tick m)).
    destruct (IH m1 Hnd) as (m' & Hrun & Hcalls & Hsame & Htel & Hin).
    destruct (writeCacheSnapshot_run rest ttlMs m1)
      as (m'' & Hrun' & _ & _ & Hout & _).
    rewrite Hrun in Hrun'. injection Hrun' as Heq. subst m''.
    exists m'. split; [exact Hrun|].
    split; [rewrite Hcalls; subst m1; simpl; lia|].
    split.
    { apply (sameUpstreamState_trans _ m1); [|exact Hsame].
      subst m1. repeat split; simpl; lia. }
    split; [rewrite Htel; reflexivity|].
    intros [|i] symbol v' H; simpl in H.
    + injection H as <- <-. rewrite (Hout _ Hfresh). subst m1. simpl.
      rewrite Nat.add_0_r. apply lookup_insert_eq.
    + rewrite (Hin i symbol v' H). subst m1. simpl.
      replace (dateNowCalls m + S i)%nat with (S (dateNowCalls m + i)) by lia.
      reflexivity.
Qed.

Lemma readCachedSnapshot_from_stale_cache symbols : forall result ma mb,
  cache ma = cache mb ->
  (Oracle.readCachedSnapshot_from clock result symbols true ma).1
  = (Oracle.readCachedSnapshot_from clock result symbols true mb).1.
Proof.
  induction symbols as [|s rest IH]; intros result ma mb Hc; simpl; [reflexivity|].
  erewrite !bind_run by apply readCachedValue_stale.
  rewrite Hc. destruct (value <$> cache mb !! normalizeSymbol s); [|reflexivity].
  apply IH. exact Hc.
Qed.

Lemma readCachedValue_none_frame symbol m m1 :
  Oracle.readCachedValue clock symbol false m = (inr None, m1) ->
  onlyClockRead m m1.
Proof.
  intros H. destruct (readCachedValue_frame symbol false m) as (r & mx & Hr & Hf).
  rewrite H in Hr. injection Hr as _ <-. exact Hf.
Qed.

End OracleFrames.

Section OracleFetch.
Import Js Oracle.

Variable config : LivePriceOracleConfig.
Variable clock : nat -> Z.
Variable upstream : nat -> list string -> FetchOutcome.

Abbreviation fetchPrices := (Oracle.fetchPrices config clock upstream).



Lemma lookupIds_length symbols : forall ids,
  lookupIds config symbols = inr ids -> length ids = length symbols.
Proof.
  induction symbols as [|s rest IH]; simpl; intros ids.
  - intros [= <-]. reflexivity.
  - destruct (coingeckoIdBySymbol config !! s) as [i|]; [|discriminate].
    destruct (decide (i = "")); [discriminate|].
    destruct (lookupIds config rest) as [e|ids']; [discriminate|].
    intros [= <-]. simpl. rewrite (IH ids'); reflexivity.
Qed.

Lemma lookupIds_mapped symbols : forall ids,
  lookupIds config symbols = inr ids ->
  Forall2 (fun symbol id =>
             coingeckoIdBySymbol config !! symbol = Some id /\ id <> "")
    symbols ids.
Proof.
  induction symbols as [|s rest IH]; simpl; intros ids.
  - intros [= <-]. constructor.
  - destruct (coingeckoIdBySymbol config !! s) as [i|] eqn:Hs; [|discriminate].
    destruct (decide (i = "")); [discriminate|].
    destruct (lookupIds config rest) as [e|ids']; [discriminate|].
    intros [= <-]. constructor; [split; assumption | apply IH; reflexivity].
Qed.

Lemma readPayload_values payload pairs : forall result values,
  readPayload payload pairs result = inr values ->
  NoDup (map fst result ++ map fst pairs) ->
  exists usd,
    values = result ++ zip (map fst pairs) usd
    /\ Forall2 (fun pair v => payload !! pair.2 = Some (Some v) /\ (0 < v)%Q)
         pairs usd.
Proof.
  induction pairs as [|[s i] rest IH]; intros result values; simpl.
  - intros [= <-] _. exists []. rewrite app_nil_r. split; [reflexivity | constructor].
  - destruct (payload !! i) as [[v|]|] eqn:Hp; try discriminate.
    destruct (le v 0) eqn:Hle; [discriminate|].
    intros Hread Hnd.
    assert (Hfresh : s ∉ map fst result).
    { apply NoDup_app in Hnd. destruct Hnd as (_ & Hdis & _).
      intros Hin. apply (Hdis s Hin). left. }
    rewrite record_set_fresh in Hread by exact Hfresh.
    destruct (IH _ _ Hread) as (usd & -> & Hall).
    { rewrite map_app. simpl. rewrite <- app_assoc. exact Hnd. }
    exists (v :: usd). split.
    + rewrite <- app_assoc. reflexivity.
    + constructor; [|exact Hall]. split; [exact Hp|].
      apply le_false_spec. exact Hle.
Qed.

Local Arguments Oracle.lookupIds : simpl never.
Local Arguments Oracle.readPayload : simpl never.

(** What a fetch can change: only the clock readings, the request log and
    the cooldown deadline; and the latter two only when the reading it
    took was not before the deadline. *)
Lemma fetchPrices_frame symbols m :
  let m' := (fetchPrices symbols m).2 in
  cache m' = cache m /\ telemetry m' = telemetry m
  /\ (dateNowCalls m <= dateNowCalls m')%nat
  /\ ((requests m' = requests m /\ rateLimitedUntilMs m' = rateLimitedUntilMs m)
      \/ (rateLimitedUntilMs m <= clock (dateNowCalls m)
          /\ (dateNowCalls m < dateNowCalls m')%nat)).
Proof.
  cbv zeta. run_fetch.
  destruct (uniq (map normalizeSymbol symbols)) as [|s0 rest] eqn:Eu; simpl.
  { frame_done. }
  destruct (clock (dateNowCalls m) <? rateLimitedUntilMs m) eqn:Ecd; simpl.
  { frame_done. }
  apply Z.ltb_ge in Ecd.
  destruct (lookupIds config (s0 :: rest)) as [e|ids]; simpl.
  { frame_done. }
  destruct (upstream (length (requests m)) ids) as [msg|status body]; simpl.
  { frame_done. }
  destruct (response_ok status); simpl.
  - destruct body as [msg|payload]; simpl.
    + frame_done.
    + try match goal with |- context [readPayload ?a ?b ?c] => destruct (readPayload a b c) end; simpl; frame_done.
  - destruct (status =? 429); simpl; frame_done.
Qed.





Lemma fetchPrices_success symbols m values m' :
  Oracle.fetchPrices config clock upstream symbols m = (inr values, m') ->
  exists ids status payload,
    lookupIds config (normalizeSymbols symbols) = inr ids
    /\ upstream (length (requests m)) ids
       = FetchResponded status (BodyObject payload)
    /\ response_ok status = true
    /\ readPayload payload (zip (normalizeSymbols symbols) ids) [] = inr values
    /\ rateLimitedUntilMs m <= clock (dateNowCalls m)
    /\ m' = with_requests (requests m ++ [ids]) (tick m).
Proof.
  unfold normalizeSymbols. run_fetch.
  destruct (uniq (map normalizeSymbol symbols)) as [|s0 rest]; [discriminate|].
  simpl. destruct (_ <? _) eqn:Hcd; [discriminate|]. simpl.
  apply Z.ltb_ge in Hcd.
  destruct (lookupIds config (s0 :: rest)) as [e|ids]; [discriminate|]. simpl.
  destruct (upstream (length (requests m)) ids) as [msg|status body] eqn:Hup;
    [discriminate|]. simpl.
  destruct (response_ok status) eqn:Hok; simpl.
  - destruct body as [msg|payload]; [discriminate|]. simpl.
    intros [= Hp <-]. exists ids, status, payload.
    repeat split; try assumption; reflexivity.
  - destruct (status =? 429); discriminate.
Qed.

(** What a fetch that returns has returned, sent and found. *)
Lemma fetchPrices_payload symbols m values m' :
  Oracle.fetchPrices config clock upstream symbols m = (inr values, m') ->
  exists ids usd payload status,
    values = zip (normalizeSymbols symbols) usd
    /\ map fst values = normalizeSymbols symbols
    /\ Forall2 (fun symbol id =>
                  coingeckoIdBySymbol config !! symbol = Some id /\ id <> "")
         (normalizeSymbols symbols) ids
    /\ upstream (length (requests m)) ids
       = FetchResponded status (BodyObject payload)
    /\ Forall2 (fun id v => payload !! id = Some (Some v) /\ (0 < v)%Q) ids usd
    /\ requests m' = requests m ++ [ids]
    /\ rateLimitedUntilMs m' = rateLimitedUntilMs m
    /\ rateLimitedUntilMs m <= clock (dateNowCalls m).
Proof.
  intros Hrun.
  destruct (fetchPrices_success symbols m values m' Hrun)
    as (ids & status & payload & Hids & Hup & _ & Hp & Hcd & ->).
  pose proof (lookupIds_length _ _ Hids) as Hlen.
  assert (Hfst : map fst (zip (normalizeSymbols symbols) ids)
                 = normalizeSymbols symbols).
  { clear -Hlen. revert ids Hlen.
    induction (normalizeSymbols symbols) as [|s l IH]; intros [|i ids] Hlen;
      simpl in *; try discriminate; [reflexivity|].
    rewrite IH; [reflexivity | lia]. }
  assert (Hsnd : map snd (zip (normalizeSymbols symbols) ids) = ids).
  { clear -Hlen. revert ids Hlen.
    induction (normalizeSymbols symbols) as [|s l IH]; intros [|i ids] Hlen;
      simpl in *; try discriminate; [reflexivity|].
    rewrite IH; [reflexivity | lia]. }
  destruct (readPayload_values _ _ _ _ Hp) as (usd & Hvalues & Hall).
  { simpl. rewrite Hfst. apply uniq_NoDup. }
  simpl in Hvalues. rewrite Hfst in Hvalues.
  assert (Hall' : Forall2 (fun id v => payload !! id = Some (Some v) /\ (0 < v)%Q)
                    ids usd).
  { rewrite <- Hsnd. clear -Hall. induction Hall; simpl; constructor; auto. }
  exists ids, usd, payload, status.
  split; [exact Hvalues|]. split.
  { rewrite Hvalues.
    assert (Hl : length usd = length (normalizeSymbols symbols)).
    { rewrite <- Hlen. symmetry. eapply Forall2_length. exact Hall'. }
    clear -Hl. revert usd Hl.
    induction (normalizeSymbols symbols) as [|s l IH]; intros [|v usd] Hl;
      simpl in *; try discriminate; [reflexivity|].
    rewrite IH; [reflexivity | lia]. }
  split; [apply lookupIds_mapped; exact Hids|].
  split; [exact Hup|]. split; [exact Hall'|].
  split; [reflexivity|]. split; [reflexivity | exact Hcd].
Qed.


Lemma fetchPrices_single normalized m values m' :
  normalizeSymbol normalized = normalized ->
  Oracle.fetchPrices config clock upstream [normalized] m = (inr values, m') ->
  exists price, values = [(normalized, price)] /\ (0 < price)%Q.
Proof.
  intros Hnorm Hfetch.
  destruct (fetchPrices_payload [normalized] m values m' Hfetch)
    as (ids & usd & payload & status & Hvalues & _ & Hmapped & _ & Husd & _).
  assert (Hsyms : normalizeSymbols [normalized] = [normalized]).
  { unfold normalizeSymbols. simpl. rewrite Hnorm.
    unfold uniq. simpl. destruct (decide (normalized ∈ [])) as [H|_]; [inversion H|].
    reflexivity. }
  rewrite Hsyms in *.
  inversion Hmapped as [|? id ? ids' _ Hrest]; subst.
  inversion Hrest; subst.
  inversion Husd as [|? price ? usd' [_ Hpos] Hrest']; subst.
  inversion Hrest'; subst.
  exists price. split; [reflexivity | exact Hpos].
Qed.

End OracleFetch.

Section OracleStaleFallback.
Import Js Oracle.

Variable config : LivePriceOracleConfig.
Variable clock : nat -> Z.
Variable upstream : nat -> list string -> FetchOutcome.

Abbreviation fetchPrices := (Oracle.fetchPrices config clock upstream).
Abbreviation getPriceUsd := (Oracle.getPriceUsd config clock upstream).

Lemma staleFallbackTtlMs_ge : cacheTtlMs config <= staleFallbackTtlMs config.
Proof. unfold staleFallbackTtlMs. lia. Qed.

(** C7 (as amended). If the cache holds only an expired entry for the
    symbol (its [expiresAt] is not after the clock reading of the lookup)
    and the fetch that follows fails, [getPriceUsd] returns the expired
    value and leaves the symbol's cache entry holding that value with
    [expiresAt = now + max(cacheTtlMs, staleFallbackTtlMs ?? 300000)],
    where [now] is the clock reading taken by the re-arming write. That
    TTL is never shorter than the normal [cacheTtlMs]; it is longer exactly
    when [cacheTtlMs] is below the configured stale-fallback TTL (300000
    when not configured), and equal to [cacheTtlMs] otherwise. *)
Theorem getPriceUsd_stale_fallback (symbol : string) (m : Machine)
    (entry : CacheEntry) (e : OracleError) (m2 : Machine) :
  cache m !! normalizeSymbol symbol = Some entry ->
  expiresAt entry <= clock (dateNowCalls m) ->
  fetchPrices [normalizeSymbol symbol] (tick m) = (inl e, m2) ->
  exists m',
    getPriceUsd symbol m = (inr (value entry), m')
    /\ cache m' !! normalizeSymbol symbol
       = Some {| value := value entry;
                 expiresAt :=
                   clock (dateNowCalls m2)
                   + Z.max (cacheTtlMs config)
                       (default 300000 (cfgStaleFallbackTtlMs config)) |}
    /\ staleFallbackTtlMs config
       = Z.max (cacheTtlMs config)
           (default 300000 (cfgStaleFallbackTtlMs config))
    /\ cacheTtlMs config <= staleFallbackTtlMs config
    /\ (cacheTtlMs config < staleFallbackTtlMs config
        <-> cacheTtlMs config < default 300000 (cfgStaleFallbackTtlMs config))
    /\ (staleFallbackTtlMs config = cacheTtlMs config
        <-> default 300000 (cfgStaleFallbackTtlMs config) <= cacheTtlMs config).
Proof.
  intros Hentry Hexpired Hfetch.
  pose proof (fetchPrices_frame config clock upstream [normalizeSymbol symbol] (tick m)) as Hframe.
  rewrite Hfetch in Hframe. cbv zeta in Hframe. simpl in Hframe.
  destruct Hframe as (Hcache & _).
  unfold Oracle.getPriceUsd.
  erewrite bind_run
    by (apply readCachedValue_fresh; rewrite normalizeSymbol_idempotent; exact Hentry).
  apply Z.leb_le in Hexpired. rewrite Hexpired.
  erewrite try_catch_throw by (erewrite bind_throw by exact Hfetch; reflexivity).
  step.
  erewrite bind_run by apply readCachedValue_stale.
  fields. rewrite normalizeSymbol_idempotent, Hcache, Hentry.
  change (value <$> Some entry) with (Some (value entry)). cbv beta iota.
  step. step.
  match goal with |- context [bind (Oracle.warnWithCooldown config clock ?k ?msg) _ ?mm] =>
    destruct (warnWithCooldown_run config clock k msg mm) as (m' & Hw & _ & _ & Hc')
  end.
  erewrite bind_run by exact Hw.
  exists m'. split; [reflexivity|]. split.
  { rewrite Hc'. fields. rewrite normalizeSymbol_idempotent. apply lookup_insert_eq. }
  unfold staleFallbackTtlMs. split; [reflexivity|]. lia.
Qed.

End OracleStaleFallback.

Section OracleAccounts.
Import Js Oracle.

Variable config : LivePriceOracleConfig.
Variable clock : nat -> Z.
Variable upstream : nat -> list string -> FetchOutcome.

Abbreviation fetchPrices := (Oracle.fetchPrices config clock upstream).
Abbreviation getPriceUsd := (Oracle.getPriceUsd config clock upstream).
Abbreviation getStablePricesUsd := (Oracle.getStablePricesUsd config clock upstream).

Ltac step_warn m' Hsame Htel Hcache :=
  match goal with
  | |- context [bind (Oracle.warnWithCooldown config clock ?k ?msg) _ ?mm] =>
      let Hw := fresh in
      destruct (warnWithCooldown_run config clock k msg mm)
        as (m' & Hw & Hsame & Htel & Hcache);
      erewrite bind_run by exact Hw; clear Hw
  end.

(** The [catch] block of [getPriceUsd], run in the state [m2] the failed
    [try] block left behind. *)
Lemma getPriceUsd_catch_run normalized e m2 :
  let handler :=
    (count bumpFetchFailures ;;
     let* staleCached := Oracle.readCachedValue clock normalized true in
     match staleCached with
     | Some staleCached =>
         count bumpStaleFallbackHits ;;
         Oracle.writeCache clock normalized staleCached (staleFallbackTtlMs config) ;;
         Oracle.warnWithCooldown config clock ("single:" +:+ normalized)
           ("[price-oracle] Using stale cached price for " +:+ normalized
              +:+ ": " +:+ toErrorMessage e) ;;
         ret staleCached
     | None => throw e
     end) in
  match cache m2 !! normalizeSymbol normalized with
  | Some c =>
      exists m', handler m2 = (inr (value c), m')
        /\ telemetry m'
           = bumpStaleFallbackHits (bumpFetchFailures (telemetry m2))
        /\ sameUpstreamState m2 m'
        /\ cache m' !! normalizeSymbol normalized
           = Some {| value := value c;
                     expiresAt := clock (dateNowCalls m2) + staleFallbackTtlMs config |}
  | None =>
      handler m2 = (inl e, with_telemetry (bumpFetchFailures (telemetry m2)) m2)
  end.
Proof.
  cbv zeta.
  destruct (cache m2 !! normalizeSymbol normalized) as [c|] eqn:Hc.
  - step. erewrite bind_run by apply readCachedValue_stale.
    fields. rewrite Hc. change (value <$> Some c) with (Some (value c)).
    cbv beta iota. step. step.
    step_warn m' Hsame Htel Hcache.
    exists m'. split; [reflexivity|]. fields.
    split; [exact Htel|].
    split; [destruct Hsame as (A & B & C); repeat split; fields; try assumption; lia|].
    rewrite Hcache. fields. apply lookup_insert_eq.
  - step. erewrite bind_run by (apply readCachedValue_miss; exact Hc).
    reflexivity.
Qed.

Lemma readCachedSnapshot_from_stale symbols : forall result m,
  exists fallback,
    Oracle.readCachedSnapshot_from clock result symbols true m = (inr fallback, m).
Proof.
  induction symbols as [|s rest IH]; intros result m; simpl.
  - eexists. reflexivity.
  - erewrite bind_run by apply readCachedValue_stale.
    destruct (value <$> cache m !! normalizeSymbol s) as [v|].
    + apply IH.
    + eexists. reflexivity.
Qed.

(** The [catch] block of [getStablePricesUsd]. *)
Lemma getStablePricesUsd_catch_run stableSymbols e m2 :
  let handler :=
    (count bumpFetchFailures ;;
     let* fallback := Oracle.readCachedSnapshot clock stableSymbols true in
     match fallback with
     | Some fallback =>
         count bumpStableFallbackHits ;;
         Oracle.writeCacheSnapshot clock fallback (staleFallbackTtlMs config) ;;
         Oracle.warnWithCooldown config clock "stable:fallback"
           ("[price-oracle] Using stale cached stable prices: "
              +:+ toErrorMessage e) ;;
         ret fallback
     | None =>
         let hardFallback :=
           Object_fromEntries
             (map (fun symbol => (symbol, 1%Q)) stableSymbols) in
         count bumpStableFallbackHits ;;
         Oracle.writeCacheSnapshot clock hardFallback (staleFallbackTtlMs config) ;;
         Oracle.warnWithCooldown config clock "stable:hard-fallback"
           ("[price-oracle] Falling back to $1.00 stable prices (no cache): "
              +:+ toErrorMessage e) ;;
         ret hardFallback
     end) in
  let failed := with_telemetry (bumpFetchFailures (telemetry m2)) m2 in
  exists fallback served m',
    Oracle.readCachedSnapshot clock stableSymbols true failed
    = (inr fallback, failed)
    /\ served
       = default (Object_fromEntries
                    (map (fun symbol => (symbol, 1%Q)) stableSymbols))
                 fallback
    /\ handler m2 = (inr served, m')
    /\ telemetry m'
       = bumpStableFallbackHits (bumpFetchFailures (telemetry m2))
    /\ sameUpstreamState m2 m'
    /\ (forall key, key ∈ map (fun e => normalizeSymbol e.1) served ->
          exists symbol v k,
            (symbol, v) ∈ served /\ normalizeSymbol symbol = key
            /\ cache m' !! key
               = Some {| value := v;
                         expiresAt := clock k + staleFallbackTtlMs config |}).
Proof.
  cbv zeta.
  set (failed := with_telemetry (bumpFetchFailures (telemetry m2)) m2).
  destruct (readCachedSnapshot_from_stale stableSymbols [] failed) as (fallback & Hread).
  fold (Oracle.readCachedSnapshot clock stableSymbols true) in Hread.
  exists fallback. eexists. 
  assert (Hwrite : forall values key1 msg,
    exists m',
      (count bumpStableFallbackHits ;;
       Oracle.writeCacheSnapshot clock values (staleFallbackTtlMs config) ;;
       Oracle.warnWithCooldown config clock key1 msg ;;
       ret values) failed = (inr values, m')
      /\ telemetry m'
         = bumpStableFallbackHits (bumpFetchFailures (telemetry m2))
      /\ sameUpstreamState m2 m'
      /\ (forall key, key ∈ map (fun e => normalizeSymbol e.1) values ->
            exists symbol v k,
              (symbol, v) ∈ values /\ normalizeSymbol symbol = key
              /\ cache m' !! key
                 = Some {| value := v;
                           expiresAt := clock k + staleFallbackTtlMs config |})).
  { intros values key1 msg. step.
    match goal with
    | |- context [bind (Oracle.writeCacheSnapshot clock ?v ?t) _ ?mm] =>
        destruct (writeCacheSnapshot_run clock v t mm)
          as (m3 & Hw & Hsame3 & Htel3 & _ & Hin3);
        erewrite bind_run by exact Hw; clear Hw
    end.
    step_warn m' Hsame Htel Hcache.
    exists m'. split; [reflexivity|].
    split; [rewrite Htel, Htel3; reflexivity|].
    split.
    - apply (sameUpstreamState_trans _ m3); [|exact Hsame].
      destruct Hsame3 as (A & B & C). subst failed. fields.
      repeat split; assumption.
    - intros key Hkey. destruct (Hin3 key Hkey) as (s & v & k & H1 & H2 & _ & H3).
      exists s, v, k. rewrite Hcache. auto. }
  destruct fallback as [fallback|].
  - destruct (Hwrite fallback "stable:fallback"
                ("[price-oracle] Using stale cached stable prices: "
                   +:+ toErrorMessage e)) as (m' & Hrun & Hrest).
    exists m'. split; [exact Hread|]. split; [reflexivity|].
    split; [|exact Hrest].
    step. fold failed. erewrite bind_run by exact Hread. exact Hrun.
  - destruct (Hwrite (Object_fromEntries
                        (map (fun symbol => (symbol, 1%Q)) stableSymbols))
                "stable:hard-fallback"
                ("[price-oracle] Falling back to $1.00 stable prices (no cache): "
                   +:+ toErrorMessage e)) as (m' & Hrun & Hrest).
    exists m'. split; [exact Hread|]. split; [reflexivity|].
    split; [|exact Hrest].
    step. fold failed. erewrite bind_run by exact Hread. exact Hrun.
Qed.

(** Composing the frames of a lookup: clock readings only, then one fetch,
    then steps that leave the upstream state alone. *)
Lemma lookup_upstream_compose symbols m m1 m2 m' :
  onlyClockRead m m1 ->
  m2 = (fetchPrices symbols m1).2 ->
  sameUpstreamState m2 m' ->
  (dateNowCalls m <= dateNowCalls m')%nat
  /\ ((requests m' = requests m /\ rateLimitedUntilMs m' = rateLimitedUntilMs m)
      \/ exists k, (dateNowCalls m <= k < dateNowCalls m')%nat
                   /\ rateLimitedUntilMs m <= clock k).
Proof.
  intros [Hm1 Hle1] -> (Hrl & Hreq & Hle2).
  destruct (fetchPrices_frame config clock upstream symbols m1)
    as (_ & _ & Hle & Hcase).
  assert (Hr1 : requests m1 = requests m) by (rewrite Hm1; reflexivity).
  assert (Hl1 : rateLimitedUntilMs m1 = rateLimitedUntilMs m)
    by (rewrite Hm1; reflexivity).
  split; [lia|].
  destruct Hcase as [[Hsame1 Hsame2] | [Hel Hlt]].
  - left. split; congruence.
  - right. exists (dateNowCalls m1). split; [lia|]. rewrite <- Hl1. exact Hel.
Qed.

Lemma getPriceUsd_account symbol m r m' :
  getPriceUsd symbol m = (r, m') ->
  (dateNowCalls m <= dateNowCalls m')%nat
  /\ ((requests m' = requests m /\ rateLimitedUntilMs m' = rateLimitedUntilMs m)
      \/ exists k, (dateNowCalls m <= k < dateNowCalls m')%nat
                   /\ rateLimitedUntilMs m <= clock k)
  /\ ((telemetry m' = bumpCacheFreshHits (telemetry m) /\ exists v, r = inr v)
      \/ (telemetry m' = bumpNetworkFetchSuccesses (telemetry m)
          /\ exists v, r = inr v)
      \/ (telemetry m' = bumpStaleFallbackHits (bumpFetchFailures (telemetry m))
          /\ exists v, r = inr v)
      \/ (telemetry m' = bumpFetchFailures (telemetry m) /\ exists e, r = inl e)).
Proof.
  unfold Oracle.getPriceUsd.
  set (normalized := normalizeSymbol symbol).
  destruct (readCachedValue_frame clock normalized false m)
    as (fresh & m1 & Hread & Hclock).
  erewrite bind_run by exact Hread.
  assert (Htel1 : telemetry m1 = telemetry m)
    by (destruct Hclock as [-> _]; reflexivity).
  destruct fresh as [v|].
  { step. intros [= <- <-]. fields.
    destruct Hclock as [Hm1 Hle]. rewrite Hm1. fields.
    split; [exact Hle|]. split; [left; split; reflexivity|].
    left. split; [reflexivity | eauto]. }
  destruct (fetchPrices [normalized] m1) as [rf m2] eqn:Hfetch.
  assert (Hm2 : m2 = (fetchPrices [normalized] m1).2) by (rewrite Hfetch; reflexivity).
  destruct (fetchPrices_frame config clock upstream [normalized] m1)
    as (_ & Htel2 & _). rewrite <- Hm2 in Htel2.
  assert (Hcatch : forall e,
    (count bumpFetchFailures ;;
     let* staleCached := Oracle.readCachedValue clock normalized true in
     match staleCached with
     | Some staleCached =>
         count bumpStaleFallbackHits ;;
         Oracle.writeCache clock normalized staleCached (staleFallbackTtlMs config) ;;
         Oracle.warnWithCooldown config clock ("single:" +:+ normalized)
           ("[price-oracle] Using stale cached price for " +:+ normalized
              +:+ ": " +:+ toErrorMessage e) ;;
         ret staleCached
     | None => throw e
     end) m2 = (r, m') ->
    sameUpstreamState m2 m'
    /\ ((telemetry m' = bumpStaleFallbackHits (bumpFetchFailures (telemetry m))
         /\ exists v, r = inr v)
        \/ (telemetry m' = bumpFetchFailures (telemetry m) /\ exists e, r = inl e))).
  { intros e. pose proof (getPriceUsd_catch_run normalized e m2) as Hh.
    cbv zeta in Hh.
    destruct (cache m2 !! normalizeSymbol normalized).
    - destruct Hh as (mh & -> & Htel & Hsame & _). intros [= <- <-].
      split; [exact Hsame|]. left. rewrite Htel, Htel2, Htel1. eauto.
    - rewrite Hh. intros [= <- <-]. fields.
      split; [repeat split; fields; lia|]. right.
      rewrite Htel2, Htel1. eauto. }
  destruct rf as [e|values].
  - erewrite try_catch_throw by (erewrite bind_throw by exact Hfetch; reflexivity).
    intros Hrun. destruct (Hcatch e Hrun) as (Hsame & Hcases).
    destruct (lookup_upstream_compose [normalized] m m1 m2 m' Hclock Hm2 Hsame)
      as (Hle & Hup).
    split; [exact Hle|]. split; [exact Hup|]. right. right. exact Hcases.
  - destruct (record_get normalized values) as [v|] eqn:Hget.
    + erewrite try_catch_run
        by (erewrite bind_run by exact Hfetch; rewrite Hget; step; step; reflexivity).
      intros [= <- <-].
      assert (Hsame : sameUpstreamState m2
                (with_telemetry (bumpNetworkFetchSuccesses (telemetry m2))
                   (with_cache
                      (<[normalizeSymbol normalized :=
                           {| value := v;
                              expiresAt := clock (dateNowCalls m2) + cacheTtlMs config |}]>
                         (cache m2))
                      (tick m2))))
        by (repeat split; fields; lia).
      match type of Hsame with sameUpstreamState _ ?mf =>
        destruct (lookup_upstream_compose [normalized] m m1 m2 mf Hclock Hm2 Hsame)
          as (Hle & Hup)
      end.
      split; [exact Hle|]. split; [exact Hup|].
      right. left. fields. rewrite Htel2, Htel1. eauto.
    + erewrite try_catch_throw
        by (erewrite bind_run by exact Hfetch; rewrite Hget; reflexivity).
      intros Hrun. destruct (Hcatch _ Hrun) as (Hsame & Hcases).
      destruct (lookup_upstream_compose [normalized] m m1 m2 m' Hclock Hm2 Hsame)
        as (Hle & Hup).
      split; [exact Hle|]. split; [exact Hup|]. right. right. exact Hcases.
Qed.

Lemma getStablePricesUsd_account m r m' :
  getStablePricesUsd m = (r, m') ->
  (dateNowCalls m <= dateNowCalls m')%nat
  /\ ((requests m' = requests m /\ rateLimitedUntilMs m' = rateLimitedUntilMs m)
      \/ exists k, (dateNowCalls m <= k < dateNowCalls m')%nat
                   /\ rateLimitedUntilMs m <= clock k)
  /\ (exists prices, r = inr prices)
  /\ (telemetry m' = bumpCacheFreshHits (telemetry m)
      \/ telemetry m' = bumpNetworkFetchSuccesses (telemetry m)
      \/ telemetry m' = bumpStableFallbackHits (bumpFetchFailures (telemetry m))).
Proof.
  unfold Oracle.getStablePricesUsd.
  set (symbols := normalizeSymbols (stableSymbols config)).
  destruct (readCachedSnapshot_from_frame clock symbols false [] m)
    as (fresh & m1 & Hread & Hclock).
  fold (Oracle.readCachedSnapshot clock symbols false) in Hread.
  erewrite bind_run by exact Hread.
  assert (Htel1 : telemetry m1 = telemetry m)
    by (destruct Hclock as [-> _]; reflexivity).
  destruct fresh as [prices|].
  { step. intros [= <- <-]. fields.
    destruct Hclock as [Hm1 Hle]. rewrite Hm1. fields.
    split; [exact Hle|]. split; [left; split; reflexivity|].
    split; [eauto|]. left. reflexivity. }
  destruct (fetchPrices symbols m1) as [rf m2] eqn:Hfetch.
  assert (Hm2 : m2 = (fetchPrices symbols m1).2) by (rewrite Hfetch; reflexivity).
  destruct (fetchPrices_frame config clock upstream symbols m1)
    as (_ & Htel2 & _). rewrite <- Hm2 in Htel2.
  destruct rf as [e|values].
  - erewrite try_catch_throw by (erewrite bind_throw by exact Hfetch; reflexivity).
    destruct (getStablePricesUsd_catch_run symbols e m2)
      as (fallback & served & mh & _ & _ & Hh & Htel & Hsame & _).
    intros Hrun. pose proof (eq_trans (eq_sym Hh) Hrun) as [= <- <-].
    destruct (lookup_upstream_compose symbols m m1 m2 mh Hclock Hm2 Hsame)
      as (Hle & Hup).
    split; [exact Hle|]. split; [exact Hup|]. split; [eauto|].
    right. right. rewrite Htel, Htel2, Htel1. reflexivity.
  - destruct (writeCacheSnapshot_run clock values (cacheTtlMs config) m2)
      as (m3 & Hw & Hsame3 & Htel3 & _).
    erewrite try_catch_run
      by (erewrite bind_run by exact Hfetch;
          erewrite bind_run by exact Hw; step; reflexivity).
    intros [= <- <-].
    assert (Hsame : sameUpstreamState m2
              (with_telemetry (bumpNetworkFetchSuccesses (telemetry m3)) m3))
      by (destruct Hsame3 as (A & B & C); repeat split; fields; assumption).
    match type of Hsame with sameUpstreamState _ ?mf =>
      destruct (lookup_upstream_compose symbols m m1 m2 mf Hclock Hm2 Hsame)
        as (Hle & Hup)
    end.
    split; [exact Hle|]. split; [exact Hup|]. split; [eauto|].
    right. left. fields. rewrite Htel3, Htel2, Htel1. reflexivity.
Qed.

(** The hard fallback of the stable batch, from the state [m1] in which the
    fetch is attempted. *)
Lemma getStablePricesUsd_hard_fallback m m1 missing e m2 :
  let symbols := normalizeSymbols (stableSymbols config) in
  missing ∈ symbols ->
  cache m !! missing = None ->
  Oracle.readCachedSnapshot clock symbols false m = (inr None, m1) ->
  onlyClockRead m m1 ->
  fetchPrices symbols m1 = (inl e, m2) ->
  exists m',
    getStablePricesUsd m
    = (inr (map (fun symbol => (symbol, 1%Q)) symbols), m')
    /\ telemetry m'
       = bumpStableFallbackHits (bumpFetchFailures (telemetry m))
    /\ (forall (i : nat) symbol,
          symbols !! i = Some symbol ->
          cache m' !! symbol
          = Some {| value := 1;
                    expiresAt :=
                      clock (dateNowCalls m2 + i)%nat
                      + staleFallbackTtlMs config |})
    /\ (dateNowCalls m2 + length symbols <= dateNowCalls m')%nat.
Proof.
  intros symbols Hin Hmiss Hread Hclock Hfetch.
  assert (Hnorm : forall s, s ∈ symbols -> normalizeSymbol s = s).
  { intros s Hs. unfold symbols, normalizeSymbols in Hs.
    apply (proj1 (uniq_elem _ _)) in Hs.
    apply list_elem_of_In, in_map_iff in Hs.
    destruct Hs as (s0 & <- & _). apply normalizeSymbol_idempotent. }
  assert (Hhard : Object_fromEntries (map (fun symbol => (symbol, 1%Q)) symbols)
                  = map (fun symbol => (symbol, 1%Q)) symbols).
  { apply Object_fromEntries_NoDup. rewrite map_map. simpl. rewrite map_id.
    apply uniq_NoDup. }
  destruct (fetchPrices_frame config clock upstream symbols m1)
    as (Hc2 & Htel2 & _). rewrite Hfetch in Hc2, Htel2. simpl in Hc2, Htel2.
  assert (Hcache1 : cache m1 = cache m) by (apply onlyClockRead_cache; exact Hclock).
  assert (Htel1 : telemetry m1 = telemetry m)
    by (destruct Hclock as [-> _]; reflexivity).
  unfold Oracle.getStablePricesUsd. fold symbols.
  erewrite bind_run by exact Hread. cbv beta iota.
  erewrite try_catch_throw by (erewrite bind_throw by exact Hfetch; reflexivity).
  set (failed := with_telemetry (bumpFetchFailures (telemetry m2)) m2).
  destruct (readCachedSnapshot_from_missing clock symbols true missing Hin [] failed)
    as (mx & Hnone & _).
  { rewrite Hnorm by exact Hin. subst failed. fields. rewrite Hc2, Hcache1. exact Hmiss. }
  assert (Hmx : mx = failed).
  { destruct (readCachedSnapshot_from_stale symbols [] failed) as (fb & Hfb).
    rewrite Hfb in Hnone. injection Hnone as _ <-. reflexivity. }
  subst mx.
  step. fold failed.
  erewrite bind_run by exact Hnone. cbv beta iota zeta.
  rewrite Hhard. step.
  match goal with
  | |- context [bind (Oracle.writeCacheSnapshot clock ?v ?t) _ ?mm] =>
      destruct (writeCacheSnapshot_indexed clock v t mm)
        as (m3 & Hw & Hcalls3 & _ & Htel3 & Hin3);
      [|erewrite bind_run by exact Hw; clear Hw]
  end.
  { rewrite map_map. simpl.
    replace (map (fun x => normalizeSymbol x) symbols) with symbols.
    - apply uniq_NoDup.
    - clear -Hnorm. induction symbols as [|s l IH]; [reflexivity|].
      simpl. rewrite Hnorm by left. f_equal. apply IH.
      intros s' Hs'. apply Hnorm. right. exact Hs'. }
  step_warn m' Hsame Htel Hcache.
  exists m'. split; [reflexivity|].
  split; [rewrite Htel, Htel3; subst failed; fields; rewrite Htel2, Htel1; reflexivity|].
  split.
  - intros i s Hs. rewrite Hcache.
    rewrite <- (Hnorm s) at 1 by (apply list_elem_of_lookup; eauto).
    rewrite (Hin3 i s 1%Q).
    + subst failed. fields. reflexivity.
    + rewrite list_lookup_fmap, Hs. reflexivity.
  - destruct Hsame as (_ & _ & Hle). rewrite length_map in Hcalls3.
    subst failed. fields. fields. cbn [dateNowCalls with_telemetry] in *. lia.
Qed.

End OracleAccounts.

Section OracleClaims.
Import Js Oracle.

Variable config : LivePriceOracleConfig.
Variable clock : nat -> Z.
Variable upstream : nat -> list string -> FetchOutcome.

Abbreviation fetchPrices := (Oracle.fetchPrices config clock upstream).
Abbreviation getPriceUsd := (Oracle.getPriceUsd config clock upstream).
Abbreviation getStablePricesUsd := (Oracle.getStablePricesUsd config clock upstream).
Abbreviation runLookup := (Oracle.runLookup config clock upstream).
Abbreviation runLookups := (Oracle.runLookups config clock upstream).

Lemma uniq_cons_head x xs : exists rest, uniq (x :: xs) = x :: rest.
Proof.
  unfold uniq. simpl. destruct (decide (x ∈ [])) as [H|_]; [inversion H|]. eauto.
Qed.

Lemma normalizeSymbols_elem symbols s :
  s ∈ symbols -> normalizeSymbol s ∈ normalizeSymbols symbols.
Proof.
  intros H. unfold normalizeSymbols. apply uniq_elem.
  apply list_elem_of_In, in_map_iff. exists s. split; [reflexivity|].
  apply list_elem_of_In. exact H.
Qed.

(** C2. When the fetch fails and no stable symbol has a cache entry,
    [getStablePricesUsd] does not throw: it returns 1.0 for every configured
    stable symbol (keyed by the normalized symbol). When the fetch fails and
    the symbol has no cache entry, [getPriceUsd] throws the very error of
    the fetch. *)
Theorem stable_batch_defaults_single_lookup_propagates (m : Machine) :
  (forall e m2,
     (forall s, s ∈ stableSymbols config ->
                cache m !! normalizeSymbol s = None) ->
     fetchPrices (normalizeSymbols (stableSymbols config)) m = (inl e, m2) ->
     exists prices m',
       getStablePricesUsd m = (inr prices, m')
       /\ prices = map (fun symbol => (symbol, 1%Q))
                       (normalizeSymbols (stableSymbols config))
       /\ forall s, s ∈ stableSymbols config ->
                    record_get (normalizeSymbol s) prices = Some 1%Q)
  /\ (forall symbol e m2,
        cache m !! normalizeSymbol symbol = None ->
        fetchPrices [normalizeSymbol symbol] m = (inl e, m2) ->
        exists m', getPriceUsd symbol m = (inl e, m')).
Proof.
  split.
  - intros e m2 Hnone Hfetch.
    assert (Hget : forall s, s ∈ stableSymbols config ->
              record_get (normalizeSymbol s)
                (map (fun symbol => (symbol, 1%Q))
                     (normalizeSymbols (stableSymbols config))) = Some 1%Q).
    { intros s Hs. apply record_get_const. apply normalizeSymbols_elem. exact Hs. }
    destruct (stableSymbols config) as [|s0 rest] eqn:Hsyms.
    + eexists. eexists. split; [|split; [reflexivity | exact Hget]].
      unfold Oracle.getStablePricesUsd. rewrite Hsyms. reflexivity.
    + rewrite <- Hsyms in *.
      assert (Hhead : exists others,
                normalizeSymbols (stableSymbols config)
                = normalizeSymbol s0 :: others).
      { rewrite Hsyms. apply uniq_cons_head. }
      destruct Hhead as (others & Hhead).
      assert (Hmiss : cache m !! normalizeSymbol s0 = None)
        by (apply Hnone; rewrite Hsyms; left).
      destruct (getStablePricesUsd_hard_fallback config clock upstream
                  m m (normalizeSymbol s0) e m2) as (m' & Hrun & _).
      * rewrite Hhead. left.
      * exact Hmiss.
      * rewrite Hhead. unfold Oracle.readCachedSnapshot. simpl.
        erewrite bind_run
          by (apply readCachedValue_miss; rewrite normalizeSymbol_idempotent;
              exact Hmiss).
        reflexivity.
      * apply onlyClockRead_refl.
      * exact Hfetch.
      * eexists. exists m'. split; [exact Hrun|]. split; [reflexivity | exact Hget].
  - intros symbol e m2 Hnone Hfetch.
    unfold Oracle.getPriceUsd.
    erewrite bind_run
      by (apply readCachedValue_miss; rewrite normalizeSymbol_idempotent; exact Hnone).
    cbv beta iota.
    erewrite try_catch_throw by (erewrite bind_throw by exact Hfetch; reflexivity).
    pose proof (getPriceUsd_catch_run config clock (normalizeSymbol symbol) e m2) as Hh.
    cbv zeta in Hh.
    destruct (fetchPrices_frame config clock upstream [normalizeSymbol symbol] m)
      as (Hc & _). rewrite Hfetch in Hc. simpl in Hc.
    rewrite normalizeSymbol_idempotent, Hc, Hnone in Hh.
    eexists. exact Hh.
Qed.

(** C10. If some configured stable symbol has no cache entry at all and
    the fetch that [getStablePricesUsd] attempts fails, leaving the machine
    [m2], the batch returns 1.0 for every configured stable symbol, and
    every symbol's cache entry, whatever it held, is overwritten with the
    value 1.0 expiring [max(cacheTtlMs, staleFallbackTtlMs ?? 300000)]
    after the clock reading of its own write: the [i]-th symbol of the
    normalized list is written at the [i]-th reading taken after the
    failed fetch. *)
Theorem stable_hard_fallback_overwrites_every_symbol (m : Machine)
    (missing : string) (e : OracleError) (m2 : Machine) :
  missing ∈ stableSymbols config ->
  cache m !! normalizeSymbol missing = None ->
  fetchPrices (normalizeSymbols (stableSymbols config))
    (Oracle.readCachedSnapshot clock
       (normalizeSymbols (stableSymbols config)) false m).2
  = (inl e, m2) ->
  exists prices m',
    getStablePricesUsd m = (inr prices, m')
    /\ prices = map (fun symbol => (symbol, 1%Q))
                    (normalizeSymbols (stableSymbols config))
    /\ (forall s, s ∈ stableSymbols config ->
          record_get (normalizeSymbol s) prices = Some 1%Q
          /\ exists i : nat,
               normalizeSymbols (stableSymbols config) !! i
               = Some (normalizeSymbol s)
               /\ (dateNowCalls m2 + i < dateNowCalls m')%nat
               /\ cache m' !! normalizeSymbol s
                  = Some {| value := 1;
                            expiresAt :=
                              clock (dateNowCalls m2 + i)%nat
                              + Z.max (cacheTtlMs config)
                                  (default 300000
                                     (cfgStaleFallbackTtlMs config)) |}).
Proof.
  intros Hin Hmiss Hfetch.
  destruct (readCachedSnapshot_from_missing clock
              (normalizeSymbols (stableSymbols config)) false
              (normalizeSymbol missing)
              (normalizeSymbols_elem _ _ Hin) [] m)
    as (m1 & Hread & Hclock).
  { rewrite normalizeSymbol_idempotent. exact Hmiss. }
  fold (Oracle.readCachedSnapshot clock
          (normalizeSymbols (stableSymbols config)) false) in Hread.
  rewrite Hread in Hfetch. simpl in Hfetch.
  destruct (getStablePricesUsd_hard_fallback config clock upstream
              m m1 (normalizeSymbol missing) e m2
              (normalizeSymbols_elem _ _ Hin) Hmiss Hread Hclock Hfetch)
    as (m' & Hrun & _ & Hcache & Hcalls).
  eexists. exists m'. split; [exact Hrun|]. split; [reflexivity|].
  intros s Hs. split.
  - apply record_get_const, normalizeSymbols_elem, Hs.
  - pose proof (normalizeSymbols_elem _ _ Hs) as Hel.
    apply list_elem_of_lookup in Hel. destruct Hel as (i & Hi).
    exists i. split; [exact Hi|]. split.
    + apply lookup_lt_Some in Hi. lia.
    + apply (Hcache i). exact Hi.
Qed.





(** C9 (as amended). Each lookup changes the five counters according to
    how it is served. [getPriceUsd]: one fresh hit when the symbol's entry
    has not expired; otherwise one network success when the fetch returns;
    otherwise, the fetch having failed, one fetch failure and one
    stale-fallback hit when the cache holds an entry for the symbol (which
    is returned), and one fetch failure alone, the error being rethrown,
    when it holds none. [getStablePricesUsd]: one fresh hit when the whole
    snapshot is fresh; otherwise one network success when the fetch
    returns; otherwise one fetch failure and one stable-fallback hit,
    whether the stale snapshot or the hard fallback to 1.0 is returned, and
    never a stale-fallback hit. These cases cover every lookup: the
    symbol's entry is fresh or the fresh read finds nothing, and the fresh
    read of the snapshot always ends. [getTelemetrySnapshot] reads the
    counters and changes nothing. *)
Theorem telemetry_counts_by_outcome (m : Machine) :
  (forall symbol,
     (forall entry,
        cache m !! normalizeSymbol symbol = Some entry ->
        clock (dateNowCalls m) < expiresAt entry ->
        exists m',
          getPriceUsd symbol m = (inr (value entry), m')
          /\ telemetry m' = bumpCacheFreshHits (telemetry m))
     /\ (forall m1 outcome m2,
           Oracle.readCachedValue clock (normalizeSymbol symbol) false m
           = (inr None, m1) ->
           fetchPrices [normalizeSymbol symbol] m1 = (outcome, m2) ->
           match outcome, cache m !! normalizeSymbol symbol with
           | inr values, _ =>
               exists price m',
                 values = [(normalizeSymbol symbol, price)]
                 /\ getPriceUsd symbol m = (inr price, m')
                 /\ telemetry m' = bumpNetworkFetchSuccesses (telemetry m)
           | inl e, Some entry =>
               exists m',
                 getPriceUsd symbol m = (inr (value entry), m')
                 /\ telemetry m'
                    = bumpStaleFallbackHits (bumpFetchFailures (telemetry m))
           | inl e, None =>
               exists m',
                 getPriceUsd symbol m = (inl e, m')
                 /\ telemetry m' = bumpFetchFailures (telemetry m)
           end)
     /\ ((exists entry,
            cache m !! normalizeSymbol symbol = Some entry
            /\ clock (dateNowCalls m) < expiresAt entry)
         \/ exists m1,
              Oracle.readCachedValue clock (normalizeSymbol symbol) false m
              = (inr None, m1)))
  /\ (forall prices m1,
        Oracle.readCachedSnapshot clock
          (normalizeSymbols (stableSymbols config)) false m
        = (inr (Some prices), m1) ->
        exists m',
          getStablePricesUsd m = (inr prices, m')
          /\ telemetry m' = bumpCacheFreshHits (telemetry m))
  /\ (forall m1 outcome m2,
        Oracle.readCachedSnapshot clock
          (normalizeSymbols (stableSymbols config)) false m
        = (inr None, m1) ->
        fetchPrices (normalizeSymbols (stableSymbols config)) m1
        = (outcome, m2) ->
        match outcome with
        | inr values =>
            exists m',
              getStablePricesUsd m = (inr values, m')
              /\ telemetry m' = bumpNetworkFetchSuccesses (telemetry m)
        | inl e =>
            exists staleSnapshot m',
              (Oracle.readCachedSnapshot clock
                 (normalizeSymbols (stableSymbols config)) true m).1
              = inr staleSnapshot
              /\ getStablePricesUsd m
                 = (inr (default
                           (Object_fromEntries
                              (map (fun symbol => (symbol, 1%Q))
                                 (normalizeSymbols (stableSymbols config))))
                           staleSnapshot), m')
              /\ telemetry m'
                 = bumpStableFallbackHits (bumpFetchFailures (telemetry m))
        end)
  /\ (exists freshSnapshot m1,
        Oracle.readCachedSnapshot clock
          (normalizeSymbols (stableSymbols config)) false m
        = (inr freshSnapshot, m1))
  /\ Oracle.getTelemetrySnapshot m = (inr (telemetry m), m).
Proof.
  split; [|split; [|split; [|split; [|reflexivity]]]].
  - intros symbol. split; [|split].
    + intros entry Hentry Hfresh. unfold Oracle.getPriceUsd.
      erewrite bind_run
        by (apply readCachedValue_fresh; rewrite normalizeSymbol_idempotent;
            exact Hentry).
      apply Z.leb_gt in Hfresh. rewrite Hfresh.
      eexists. split; reflexivity.
    + intros m1 outcome m2 Hread Hfetch.
      pose proof (readCachedValue_none_frame clock _ _ _ Hread) as Hclock.
      assert (Htel1 : telemetry m1 = telemetry m)
        by (destruct Hclock as [-> _]; reflexivity).
      assert (Hcache1 : cache m1 = cache m)
        by (apply onlyClockRead_cache; exact Hclock).
      destruct (fetchPrices_frame config clock upstream
                  [normalizeSymbol symbol] m1) as (Hc2 & Htel2 & _).
      rewrite Hfetch in Hc2, Htel2. simpl in Hc2, Htel2.
      unfold Oracle.getPriceUsd. erewrite bind_run by exact Hread.
      cbv beta iota.
      destruct outcome as [e|values].
      * erewrite try_catch_throw
          by (erewrite bind_throw by exact Hfetch; reflexivity).
        pose proof (getPriceUsd_catch_run config clock
                      (normalizeSymbol symbol) e m2) as Hh.
        cbv zeta in Hh.
        rewrite normalizeSymbol_idempotent, Hc2, Hcache1 in Hh.
        destruct (cache m !! normalizeSymbol symbol) as [entry|].
        -- destruct Hh as (m' & Hrun & Htel & _).
           exists m'. split; [exact Hrun|].
           rewrite Htel, Htel2, Htel1. reflexivity.
        -- eexists. split; [exact Hh|]. fields.
           rewrite Htel2, Htel1. reflexivity.
      * destruct (fetchPrices_single config clock upstream (normalizeSymbol symbol) m1 values m2
                    (normalizeSymbol_idempotent symbol) Hfetch)
          as (price & -> & _).
        assert (Hget : record_get (normalizeSymbol symbol)
                         [(normalizeSymbol symbol, price)] = Some price).
        { simpl. destruct (decide (normalizeSymbol symbol = normalizeSymbol symbol));
            [reflexivity | contradiction]. }
        erewrite try_catch_run
          by (erewrite bind_run by exact Hfetch; rewrite Hget; step; step;
              reflexivity).
        destruct (cache m !! normalizeSymbol symbol);
          (exists price; eexists; split; [reflexivity|];
           split; [reflexivity|]; fields; rewrite Htel2, Htel1; reflexivity).
    + destruct (cache m !! normalizeSymbol symbol) as [entry|] eqn:Hentry.
      * destruct (Z_lt_le_dec (clock (dateNowCalls m)) (expiresAt entry))
          as [Hfresh|Hexpired].
        -- left. exists entry. split; [reflexivity | exact Hfresh].
        -- right. eexists.
           rewrite (readCachedValue_fresh clock (normalizeSymbol symbol) m entry)
             by (rewrite normalizeSymbol_idempotent; exact Hentry).
           apply Z.leb_le in Hexpired. rewrite Hexpired. reflexivity.
      * right. eexists. apply readCachedValue_miss.
        rewrite normalizeSymbol_idempotent. exact Hentry.
  - intros prices m1 Hread. unfold Oracle.getStablePricesUsd.
    erewrite bind_run by exact Hread. cbv beta iota.
    destruct (readCachedSnapshot_from_frame clock
                (normalizeSymbols (stableSymbols config)) false [] m)
      as (r & mx & Hr & Hclock).
    fold (Oracle.readCachedSnapshot clock
            (normalizeSymbols (stableSymbols config)) false) in Hr.
    rewrite Hread in Hr. injection Hr as _ <-.
    eexists. split; [reflexivity|]. fields.
    destruct Hclock as [-> _]. reflexivity.
  - intros m1 outcome m2 Hread Hfetch.
    set (symbols := normalizeSymbols (stableSymbols config)) in *.
    destruct (readCachedSnapshot_from_frame clock symbols false [] m)
      as (r & mx & Hr & Hclock).
    fold (Oracle.readCachedSnapshot clock symbols false) in Hr.
    rewrite Hread in Hr. injection Hr as _ <-.
    assert (Htel1 : telemetry m1 = telemetry m)
      by (destruct Hclock as [-> _]; reflexivity).
    assert (Hcache1 : cache m1 = cache m)
      by (apply onlyClockRead_cache; exact Hclock).
    destruct (fetchPrices_frame config clock upstream symbols m1)
      as (Hc2 & Htel2 & _).
    rewrite Hfetch in Hc2, Htel2. simpl in Hc2, Htel2.
    unfold Oracle.getStablePricesUsd. fold symbols.
    erewrite bind_run by exact Hread. cbv beta iota.
    destruct outcome as [e|values].
    + erewrite try_catch_throw
        by (erewrite bind_throw by exact Hfetch; reflexivity).
      destruct (getStablePricesUsd_catch_run config clock symbols e m2)
        as (fallback & served & mh & Hstale & -> & Hh & Htel & _).
      exists fallback, mh. split; [|split; [exact Hh|]].
      * unfold Oracle.readCachedSnapshot.
        rewrite (readCachedSnapshot_from_stale_cache clock symbols [] m
                   (with_telemetry (bumpFetchFailures (telemetry m2)) m2)).
        -- unfold Oracle.readCachedSnapshot in Hstale. rewrite Hstale. reflexivity.
        -- fields. rewrite Hc2, Hcache1. reflexivity.
      * rewrite Htel, Htel2, Htel1. reflexivity.
    + destruct (writeCacheSnapshot_run clock values (cacheTtlMs config) m2)
        as (m3 & Hw & _ & Htel3 & _).
      erewrite try_catch_run
        by (erewrite bind_run by exact Hfetch;
            erewrite bind_run by exact Hw; step; reflexivity).
      eexists. split; [reflexivity|]. fields.
      rewrite Htel3, Htel2, Htel1. reflexivity.
  - destruct (readCachedSnapshot_from_frame clock
                (normalizeSymbols (stableSymbols config)) false [] m)
      as (r & m1 & Hr & _).
    exists r, m1. exact Hr.
Qed.

End OracleClaims.

(** *** The oracle theorems at concrete configurations *)

Section OracleInstances.
Import Examples.

(** C7 at concrete inputs: only an expired USDC entry (0.97) and a price
    feed that cannot be reached, with the default stale-fallback TTL and
    with one configured to ten minutes. *)
Lemma getPriceUsd_stale_fallback_witness :
  (exists m',
     Oracle.getPriceUsd stableConfig tickingClock unreachableUpstream " usdc"
       staleUsdcMachine
     = (inr (97 # 100)%Q, m')
     /\ cache m' !! "USDC"
        = Some {| value := 97 # 100; expiresAt := 102000 + 300000 |})
  /\ (exists m',
        Oracle.getPriceUsd longStaleConfig tickingClock unreachableUpstream
          " usdc" staleUsdcMachine
        = (inr (97 # 100)%Q, m')
        /\ cache m' !! "USDC"
           = Some {| value := 97 # 100; expiresAt := 102000 + 600000 |}
        /\ cacheTtlMs longStaleConfig < staleFallbackTtlMs longStaleConfig).
Proof.
  split.
  - destruct (getPriceUsd_stale_fallback stableConfig tickingClock
                unreachableUpstream " usdc" staleUsdcMachine
                {| value := 97 # 100; expiresAt := 50000 |}
                (TransportFailure "fetch failed")
                (Oracle.fetchPrices stableConfig tickingClock
                   unreachableUpstream ["USDC"] (tick staleUsdcMachine)).2)
      as (m' & Hrun & Hcache & _).
    + reflexivity.
    + vm_compute. discriminate.
    + reflexivity.
    + exists m'. split; [exact Hrun | exact Hcache].
  - destruct (getPriceUsd_stale_fallback longStaleConfig tickingClock
                unreachableUpstream " usdc" staleUsdcMachine
                {| value := 97 # 100; expiresAt := 50000 |}
                (TransportFailure "fetch failed")
                (Oracle.fetchPrices longStaleConfig tickingClock
                   unreachableUpstream ["USDC"] (tick staleUsdcMachine)).2)
      as (m' & Hrun & Hcache & _ & _ & Hlonger & _).
    + reflexivity.
    + vm_compute. discriminate.
    + reflexivity.
    + exists m'. split; [exact Hrun|]. split; [exact Hcache|].
      apply Hlonger. reflexivity.
Defined.

(** C7, counterexample to the claim as stated: with a normal cache TTL of
    300 s and no stale-fallback TTL configured, the stale value is served
    and its entry re-armed for [cacheTtlMs] itself; the stale-fallback TTL
    is the normal TTL, neither extended nor distinct. *)
Lemma stale_rearm_ttl_not_distinct :
  ~ SpecReading.staleTtlDistinct longTtlConfig
  /\ exists m',
       Oracle.getPriceUsd longTtlConfig tickingClock unreachableUpstream
         " usdc" staleUsdcMachine
       = (inr (97 # 100)%Q, m')
       /\ cache m' !! "USDC"
          = Some {| value := 97 # 100;
                    expiresAt := 102000 + cacheTtlMs longTtlConfig |}.
Proof.
  split.
  - intros H. apply H. reflexivity.
  - eexists. split; reflexivity.
Qed.

(** C2 at a concrete input: a fresh oracle and a price feed that cannot be
    reached. *)
Lemma stable_batch_defaults_single_lookup_propagates_witness :
  (exists prices m',
     Oracle.getStablePricesUsd stableConfig tickingClock unreachableUpstream
       newMachine
     = (inr prices, m')
     /\ prices = [("USDC", 1%Q); ("USDT", 1%Q)]
     /\ forall s, s ∈ stableSymbols stableConfig ->
                  record_get (normalizeSymbol s) prices = Some 1%Q)
  /\ (exists m',
        Oracle.getPriceUsd stableConfig tickingClock unreachableUpstream "usdc"
          newMachine
        = (inl (TransportFailure "fetch failed"), m')).
Proof.
  destruct (stable_batch_defaults_single_lookup_propagates stableConfig
              tickingClock unreachableUpstream newMachine) as [Hstable Hsingle].
  split.
  - apply (Hstable (TransportFailure "fetch failed")
             (Oracle.fetchPrices stableConfig tickingClock unreachableUpstream
                ["USDC"; "USDT"] newMachine).2).
    + intros s _. reflexivity.
    + reflexivity.
  - apply (Hsingle "usdc" (TransportFailure "fetch failed")
             (Oracle.fetchPrices stableConfig tickingClock unreachableUpstream
                ["USDC"] newMachine).2).
    + reflexivity.
    + reflexivity.
Defined.

(** C10 at a concrete input: USDC cached at 0.97, USDT never cached, and a
    price feed that cannot be reached: both come back as 1.0 and the USDC
    entry is overwritten. *)
Lemma stable_hard_fallback_overwrites_every_symbol_witness :
  exists prices m',
    Oracle.getStablePricesUsd stableConfig tickingClock unreachableUpstream
      staleUsdcMachine
    = (inr prices, m')
    /\ prices = [("USDC", 1%Q); ("USDT", 1%Q)]
    /\ cache m' !! "USDC"
       = Some {| value := 1; expiresAt := 102000 + 300000 |}
    /\ cache m' !! "USDT"
       = Some {| value := 1; expiresAt := 103000 + 300000 |}.
Proof.
  destruct (stable_hard_fallback_overwrites_every_symbol stableConfig
              tickingClock unreachableUpstream staleUsdcMachine " USDT "
              (TransportFailure "fetch failed")
              (Oracle.fetchPrices stableConfig tickingClock unreachableUpstream
                 ["USDC"; "USDT"] (tick staleUsdcMachine)).2)
    as (prices & m' & Hrun & Hprices & Hall).
  - right. left.
  - reflexivity.
  - reflexivity.
  - exists prices, m'. split; [exact Hrun|]. split; [exact Hprices|].
    assert (Hentry : forall s (i : nat),
              s ∈ stableSymbols stableConfig ->
              normalizeSymbols (stableSymbols stableConfig) !! i
              = Some (normalizeSymbol s) ->
              cache m' !! normalizeSymbol s
              = Some {| value := 1;
                        expiresAt :=
                          tickingClock (2 + i)%nat + 300000 |}).
    { intros s i Hs Hi.
      destruct (Hall s Hs) as (_ & j & Hj & _ & Hc).
      assert (j = i).
      { eapply NoDup_lookup; [apply uniq_NoDup | exact Hj | exact Hi]. }
      subst j. exact Hc. }
    split.
    + apply (Hentry "usdc" 0%nat); [left | reflexivity].
    + apply (Hentry " USDT " 1%nat); [right; left | reflexivity].
Defined.


(** C9 at concrete inputs: a single lookup served the stale value, a
    single lookup that rethrows, and a batch served the stale snapshot. *)
Lemma telemetry_counts_by_outcome_witness :
  (exists m',
     Oracle.getPriceUsd stableConfig tickingClock unreachableUpstream "usdc"
       staleUsdcMachine
     = (inr (97 # 100)%Q, m')
     /\ telemetry m'
        = bumpStaleFallbackHits (bumpFetchFailures initialTelemetry))
  /\ (exists m',
        Oracle.getPriceUsd stableConfig tickingClock unreachableUpstream
          "usdt" staleUsdcMachine
        = (inl (TransportFailure "fetch failed"), m')
        /\ telemetry m' = bumpFetchFailures initialTelemetry)
  /\ (exists staleSnapshot m',
        (Oracle.readCachedSnapshot tickingClock
           (normalizeSymbols (stableSymbols usdcOnlyConfig)) true
           staleUsdcMachine).1
        = inr staleSnapshot
        /\ Oracle.getStablePricesUsd usdcOnlyConfig tickingClock
             unreachableUpstream staleUsdcMachine
           = (inr (default
                     (Object_fromEntries
                        (map (fun symbol => (symbol, 1%Q))
                           (normalizeSymbols (stableSymbols usdcOnlyConfig))))
                     staleSnapshot), m')
        /\ telemetry m'
           = bumpStableFallbackHits (bumpFetchFailures initialTelemetry)).
Proof.
  destruct (telemetry_counts_by_outcome stableConfig tickingClock
              unreachableUpstream staleUsdcMachine) as (Hsingle & _).
  destruct (telemetry_counts_by_outcome usdcOnlyConfig tickingClock
              unreachableUpstream staleUsdcMachine) as (_ & _ & Hbatch & _).
  split; [|split].
  - exact (proj1 (proj2 (Hsingle "usdc")) (tick staleUsdcMachine)
             (inl (TransportFailure "fetch failed"))
             (Oracle.fetchPrices stableConfig tickingClock unreachableUpstream
                ["USDC"] (tick staleUsdcMachine)).2 eq_refl eq_refl).
  - exact (proj1 (proj2 (Hsingle "usdt")) staleUsdcMachine
             (inl (TransportFailure "fetch failed"))
             (Oracle.fetchPrices stableConfig tickingClock unreachableUpstream
                ["USDT"] staleUsdcMachine).2 eq_refl eq_refl).
  - exact (Hbatch (tick staleUsdcMachine)
             (inl (TransportFailure "fetch failed"))
             (Oracle.fetchPrices usdcOnlyConfig tickingClock unreachableUpstream
                ["USDC"] (tick staleUsdcMachine)).2 eq_refl eq_refl).
Defined.

(** C9, counterexample to the claim as stated: with USDC the only stable
    symbol, cached but expired, and a price feed that cannot be reached,
    the batch is served the stale snapshot [{USDC: 0.97}], yet
    [staleFallbackHits] stays 0 and it is [stableFallbackHits] that goes
    to 1, although no hard fallback to 1.0 took place. *)
Lemma stale_served_batch_counts_as_stable_fallback :
  ~ SpecReading.staleServedBatchCounted usdcOnlyConfig tickingClock
      unreachableUpstream staleUsdcMachine.
Proof.
  intros Hclaim.
  destruct (Hclaim [("USDC", (97 # 100)%Q)]
              (Oracle.getStablePricesUsd usdcOnlyConfig tickingClock
                 unreachableUpstream staleUsdcMachine).2) as [Hstale _].
  - reflexivity.
  - reflexivity.
  - reflexivity.
  - vm_compute in Hstale. discriminate Hstale.
Qed.

End OracleInstances.

End OracleProofs.

(** ** The disabled adapter *)

Lemma dex1_state_and_estimates_fail_disabled
    (pool toPool : Dex1Adapter.PoolConfig) (amountIn : Z) :
  Dex1Adapter.failsDisabled (Dex1Adapter.fetchPoolState pool) = true
  /\ Dex1Adapter.failsDisabled (Dex1Adapter.estimatePriceImpactBps pool amountIn)
     = true
  /\ Dex1Adapter.failsDisabled
       (Dex1Adapter.estimateRotationCostBps pool toPool amountIn) = true.
Proof. repeat split. Qed.

Lemma dex1_build_requests_never_fail
    (enter : Dex1Adapter.BuildEnterRequestInput)
    (exit : Dex1Adapter.BuildExitRequestInput) :
  (exists request,
     Dex1Adapter.buildEnterRequest enter = Dex1Adapter.Fulfilled request
     /\ Dex1Adapter.en_data request = "0x")
  /\ (exists request,
        Dex1Adapter.buildExitRequest exit = Dex1Adapter.Fulfilled request
        /\ Dex1Adapter.ex_data request = "0x").
Proof. split; eexists; split; reflexivity. Qed.

(** C1, the code at a concrete input: [Dex1Adapter] rejects
    [fetchPoolState], [estimatePriceImpactBps] and [estimateRotationCostBps]
    with "Dex1Adapter is disabled in live runtime.", but [buildEnterRequest]
    and [buildExitRequest] fulfil with a built request whose call data is
    ["0x"]; so it is not the case that every method fails as disabled. *)
Theorem dex1_builds_requests_while_disabled :
  Dex1Adapter.fetchPoolState Examples.samplePool
  = Dex1Adapter.Rejected "Dex1Adapter is disabled in live runtime."
  /\ Dex1Adapter.estimatePriceImpactBps Examples.samplePool 1000000
     = Dex1Adapter.Rejected "Dex1Adapter is disabled in live runtime."
  /\ Dex1Adapter.estimateRotationCostBps Examples.samplePool
       Examples.samplePool 1000000
     = Dex1Adapter.Rejected "Dex1Adapter is disabled in live runtime."
  /\ Dex1Adapter.buildEnterRequest Examples.sampleEnterInput
     = Dex1Adapter.Fulfilled
         {| Dex1Adapter.en_target := "0x00000000000000000000000000000000000000a1";
            Dex1Adapter.en_pool := "0x00000000000000000000000000000000000000a2";
            Dex1Adapter.en_tokenIn := "0x00000000000000000000000000000000000000a3";
            Dex1Adapter.en_lpToken := "0x00000000000000000000000000000000000000a4";
            Dex1Adapter.en_amountIn := 1000000;
            Dex1Adapter.en_minOut := 990000;
            Dex1Adapter.en_deadline := 1800000000;
            Dex1Adapter.en_data := "0x";
            Dex1Adapter.en_pair := "USDC/MON";
            Dex1Adapter.en_protocol := "Dex1";
            Dex1Adapter.en_netApyBps := 450;
            Dex1Adapter.en_intendedHoldSeconds := 86400 |}
  /\ Dex1Adapter.buildExitRequest Examples.sampleExitInput
     = Dex1Adapter.Fulfilled
         {| Dex1Adapter.ex_target := "0x00000000000000000000000000000000000000a1";
            Dex1Adapter.ex_pool := "0x00000000000000000000000000000000000000a2";
            Dex1Adapter.ex_lpToken := "0x00000000000000000000000000000000000000a4";
            Dex1Adapter.ex_tokenOut := "0x00000000000000000000000000000000000000a3";
            Dex1Adapter.ex_amountIn := 1000000;
            Dex1Adapter.ex_minOut := 990000;
            Dex1Adapter.ex_deadline := 1800000000;
            Dex1Adapter.ex_data := "0x";
            Dex1Adapter.ex_pair := "USDC/MON";
            Dex1Adapter.ex_protocol := "Dex1" |}
  /\ ~ SpecReading.dex1EveryMethodFailsDisabled Examples.samplePool 1000000
         Examples.sampleEnterInput Examples.sampleExitInput.
Proof.
  repeat (split; [reflexivity|]).
  intros (_ & _ & _ & Henter & _). discriminate Henter.
Qed.

(** ** The migration report *)

Section MigrationProperties.
Import Migration.

Variable isAddress : string -> bool.
Variable formatUnits : Z -> Z -> string.
Variable Number_ : string -> option Q.
Variable JSON_stringify : MigrationReport -> string.
Variable POOLS : list Pool.
Variable TOKENS_USDC : string.
Variable RUNTIME_chainId : Z.
Variable RUNTIME_rpcUrl : string.

Abbreviation main_ w :=
  (Migration.main isAddress formatUnits Number_ JSON_stringify POOLS
     TOKENS_USDC RUNTIME_chainId RUNTIME_rpcUrl w).

(** The check of the old service is the last row and is never FAIL. *)
Lemma buildChecks_old_service (oldSnapshot newSnapshot : VaultSnapshot)
    (oldEndpoint newEndpoint : option EndpointSnapshot) :
  exists row,
    List.find (fun row => bool_decide (id row = "railway.old_service_reachable"))
      (buildChecks TOKENS_USDC oldSnapshot newSnapshot oldEndpoint newEndpoint)
    = Some row
    /\ status row
       = match oldEndpoint with
         | Some endpoint =>
             if (200 <=? httpStatus endpoint) && (httpStatus endpoint <? 500)
             then PASS else WARN
         | None => WARN
         end.
Proof.
  unfold buildChecks, pushCheck.
  destruct newEndpoint as [newE|]; destruct oldEndpoint as [oldE|];
    eexists; (split; [vm_compute; reflexivity | reflexivity]).
Qed.

(** When the old status URL is configured and its [fetch] rejects, [main]
    rejects: no check is built and nothing is printed. *)
Lemma main_rejects_when_old_fetch_fails (w : World) (url message : string) :
  envTrimmed w "MIGRATION_OLD_BOT_STATE_URL" = Some url ->
  httpGet w url (getAuthToken w) = FetchFailed message ->
  exists error, main_ w = MainRejected error.
Proof.
  intros Hurl Hfetch. unfold Migration.main.
  repeat match goal with
  | |- context [match ?x with inl _ => MainRejected _ | inr _ => _ end] =>
      lazymatch x with
      | readOptionalEndpoint _ (getOptionalUrl _ "MIGRATION_OLD_BOT_STATE_URL") _ =>
          fail
      | _ => destruct x; [eexists; reflexivity|]
      end
  end.
  unfold getOptionalUrl, readOptionalEndpoint, readStateEndpoint.
  rewrite Hurl, Hfetch. eexists. reflexivity.
Qed.

(** Whenever [main] completes, the old-service check is present and is PASS
    or WARN, and the JSON block of the report is printed. *)
Lemma main_completed_old_service_never_fails (w : World) (f : Finished) :
  main_ w = MainCompleted f ->
  (exists row,
     checkOf "railway.old_service_reachable" f = Some row
     /\ status row <> FAIL)
  /\ printsJsonReport JSON_stringify f.
Proof.
  unfold Migration.main. intros H.
  repeat match type of H with
  | context [match ?x with inl _ => MainRejected _ | inr _ => _ end] =>
      destruct x; [discriminate H|]
  end.
  injection H as <-. split.
  - unfold checkOf. cbn [report checks].
    match goal with
    | |- context [buildChecks _ ?a ?b ?c ?d] =>
        destruct (buildChecks_old_service a b c d) as (row & Hfind & Hstatus)
    end.
    exists row. split; [exact Hfind|]. rewrite Hstatus.
    repeat case_match; discriminate.
  - unfold printsJsonReport, printReport. cbn [consoleLog report].
    eexists. rewrite !app_assoc. reflexivity.
Qed.

End MigrationProperties.

(** C3, the code at a concrete input: with the old status URL configured
    and its endpoint refusing the connection, [main] rejects, so no check
    row exists and no report is printed; when the same endpoint answers
    HTTP 503 instead, the run completes with exit code 0, prints the JSON
    block, and [railway.old_service_reachable] is WARN. *)
Theorem migration_report_rejects_when_old_endpoint_unreachable :
  Examples.runMigration (Migration.FetchFailed "connect ECONNREFUSED")
  = Migration.MainRejected "connect ECONNREFUSED"
  /\ exists f,
       Examples.runMigration (Migration.Responded 503 None)
       = Migration.MainCompleted f
       /\ Migration.status
            <$> Migration.checkOf "railway.old_service_reachable" f
          = Some Migration.WARN
       /\ Migration.exitCode f = 0
       /\ Migration.printsJsonReport Examples.sampleStringify f.
Proof.
  split; [vm_compute; reflexivity|].
  assert (Hrun : exists f,
            Examples.runMigration (Migration.Responded 503 None)
            = Migration.MainCompleted f
            /\ Migration.status
                 <$> Migration.checkOf "railway.old_service_reachable" f
               = Some Migration.WARN
            /\ Migration.exitCode f = 0).
  { eexists. split; [vm_compute; reflexivity|].
    split; [vm_compute; reflexivity | reflexivity]. }
  destruct Hrun as (f & Hrun & Hwarn & Hexit).
  exists f. split; [exact Hrun|]. split; [exact Hwarn|]. split; [exact Hexit|].
  unfold Examples.runMigration in Hrun.
  exact (proj2 (main_completed_old_service_never_fails _ _ _ _ _ _ _ _ _ f Hrun)).
Qed.

(** ** More of the price oracle *)

Module OracleExtras.
Import Js Oracle OracleLogic OracleProofs.

(** *** Rules for triples *)

Lemma triple_consequence {A} (P P' : Machine -> Prop) (c : M A)
    (Q Q' : Result A -> Machine -> Prop) :
  (forall m, P' m -> P m) -> (forall r m, Q r m -> Q' r m) ->
  triple P c Q -> triple P' c Q'.
Proof. unfold triple. auto. Qed.

Lemma triple_ret {A} (P : Machine -> Prop) (a : A)
    (Q : Result A -> Machine -> Prop) :
  (forall m, P m -> Q (inr a) m) -> triple P (ret a) Q.
Proof. unfold triple, ret. auto. Qed.

Lemma triple_throw {A} (P : Machine -> Prop) (e : OracleError)
    (Q : Result A -> Machine -> Prop) :
  (forall m, P m -> Q (inl e) m) -> triple P (throw e) Q.
Proof. unfold triple, throw. auto. Qed.

Lemma triple_bind {A B} (P : Machine -> Prop) (c : M A) (k : A -> M B)
    (R : A -> Machine -> Prop) (Q : Result B -> Machine -> Prop) :
  triple P c (fun r m => match r with inl e => Q (inl e) m | inr a => R a m end) ->
  (forall a, triple (R a) (k a) Q) ->
  triple P (bind c k) Q.
Proof.
  unfold triple, bind. intros Hc Hk m HP. specialize (Hc m HP).
  destruct (c m) as [[e|a] m1]; simpl in *; [exact Hc | apply Hk; exact Hc].
Qed.

Lemma triple_try_catch {A} (P : Machine -> Prop) (c : M A)
    (h : OracleError -> M A) (R : OracleError -> Machine -> Prop)
    (Q : Result A -> Machine -> Prop) :
  triple P c (fun r m => match r with inl e => R e m | inr a => Q (inr a) m end) ->
  (forall e, triple (R e) (h e) Q) ->
  triple P (try_catch c h) Q.
Proof.
  unfold triple, try_catch. intros Hc Hh m HP. specialize (Hc m HP).
  destruct (c m) as [[e|a] m1]; simpl in *; [apply Hh; exact Hc | exact Hc].
Qed.

Lemma triple_modify (P : Machine -> Prop) (f : Machine -> Machine)
    (Q : Result unit -> Machine -> Prop) :
  (forall m, P m -> Q (inr tt) (f m)) -> triple P (modify f) Q.
Proof. unfold triple, modify. auto. Qed.

Section KeepsRules.

Variable Inv : Machine -> Prop.

Lemma keeps_ret {A} (a : A) (post : A -> Prop) : post a -> keeps Inv (ret a) post.
Proof. intros H m Hm. simpl. auto. Qed.

Lemma keeps_throw {A} (e : OracleError) (post : A -> Prop) :
  keeps Inv (throw e) post.
Proof. intros m Hm. simpl. auto. Qed.

Lemma keeps_bind {A B} (c : M A) (k : A -> M B) (postA : A -> Prop)
    (postB : B -> Prop) :
  keeps Inv c postA -> (forall a, postA a -> keeps Inv (k a) postB) ->
  keeps Inv (bind c k) postB.
Proof.
  unfold keeps, triple, bind. intros Hc Hk m Hm. specialize (Hc m Hm).
  destruct (c m) as [[e|a] m1]; simpl in *; [tauto|].
  destruct Hc as [Hm1 Ha]. apply (Hk a Ha m1 Hm1).
Qed.

Lemma keeps_try_catch {A} (c : M A) (h : OracleError -> M A) (post : A -> Prop) :
  keeps Inv c post -> (forall e, keeps Inv (h e) post) ->
  keeps Inv (try_catch c h) post.
Proof.
  unfold keeps, triple, try_catch. intros Hc Hh m Hm. specialize (Hc m Hm).
  destruct (c m) as [[e|a] m1]; simpl in *; [|exact Hc].
  destruct Hc as [Hm1 _]. apply (Hh e m1 Hm1).
Qed.

Lemma keeps_weaken {A} (c : M A) (post post' : A -> Prop) :
  (forall a, post a -> post' a) -> keeps Inv c post -> keeps Inv c post'.
Proof.
  unfold keeps, triple. intros Hw Hc m Hm. specialize (Hc m Hm).
  destruct (c m) as [[e|a] m1]; simpl in *; intuition.
Qed.

Lemma keeps_modify (f : Machine -> Machine) :
  (forall m, Inv m -> Inv (f m)) -> keeps Inv (modify f) (fun _ => True).
Proof. intros H m Hm. simpl. auto. Qed.

End KeepsRules.

(** *** What a successful fetch returns *)

Section FetchSuccess.

Variable config : LivePriceOracleConfig.
Variable clock : nat -> Z.
Variable upstream : nat -> list string -> FetchOutcome.

(** X1. When [fetchPrices] returns, it returns a record whose keys are
    exactly the requested symbols, normalized and without duplicates, in
    order; the price under each symbol is the positive [usd] number the
    payload holds for that symbol's CoinGecko id; exactly one request, for
    those ids, was added to the log; and the oracle was not cooling
    down. *)
Theorem fetchPrices_returns_payload_prices symbols m values m' :
  Oracle.fetchPrices config clock upstream symbols m = (inr values, m') ->
  exists ids usd payload status,
    values = zip (normalizeSymbols symbols) usd
    /\ map fst values = normalizeSymbols symbols
    /\ Forall2 (fun symbol id =>
                  coingeckoIdBySymbol config !! symbol = Some id /\ id <> "")
         (normalizeSymbols symbols) ids
    /\ upstream (length (requests m)) ids
       = FetchResponded status (BodyObject payload)
    /\ Forall2 (fun id v => payload !! id = Some (Some v) /\ (0 < v)%Q) ids usd
    /\ requests m' = requests m ++ [ids]
    /\ rateLimitedUntilMs m' = rateLimitedUntilMs m
    /\ rateLimitedUntilMs m <= clock (dateNowCalls m).
Proof.
  apply fetchPrices_payload.
Qed.

End FetchSuccess.

(** *** The cache stays well formed and prices stay positive *)

Section CacheInvariant.

Variable config : LivePriceOracleConfig.
Variable clock : nat -> Z.
Variable upstream : nat -> list string -> FetchOutcome.

Lemma positiveRecord_set key v (r : Record_ Q) :
  (0 < v)%Q -> positiveRecord r -> positiveRecord (record_set key v r).
Proof.
  intros Hv. unfold positiveRecord.
  induction r as [|[k' v'] r IH]; simpl; intros Hr.
  - constructor; [exact Hv | constructor].
  - inversion Hr as [|? ? Hhd Htl]; subst.
    destruct (decide (key = k')); constructor; auto.
Qed.

Lemma positiveRecord_get key v (r : Record_ Q) :
  positiveRecord r -> record_get key r = Some v -> (0 < v)%Q.
Proof.
  unfold positiveRecord. induction r as [|[k' v'] r IH]; simpl; intros Hr; [discriminate|].
  inversion Hr as [|? ? Hhd Htl]; subst.
  destruct (decide (key = k')); [intros [= <-]; exact Hhd | apply IH; exact Htl].
Qed.

Lemma positiveRecord_fromEntries (entries : list (string * Q)) :
  Forall (fun kv => (0 < kv.2)%Q) entries ->
  positiveRecord (Object_fromEntries entries).
Proof.
  unfold Object_fromEntries. intros H.
  assert (Hacc : positiveRecord []) by constructor.
  revert Hacc. generalize (@nil (string * Q)).
  induction H as [|[k v] entries Hv _ IH]; intros acc Hacc; simpl; [exact Hacc|].
  apply IH. apply positiveRecord_set; assumption.
Qed.

Lemma wellFormedCache_insert m symbol v t :
  wellFormedCache m -> (0 < v)%Q ->
  wellFormedCache
    (with_cache (<[normalizeSymbol symbol := {| value := v; expiresAt := t |}]> (cache m))
       (tick m)).
Proof.
  intros Hm Hv key entry. fields. rewrite lookup_insert.
  destruct (decide (normalizeSymbol symbol = key)) as [<-|Hne].
  - intros [= <-]. split; [apply normalizeSymbol_idempotent | exact Hv].
  - apply Hm.
Qed.

Lemma wellFormedCache_same m m' :
  cache m' = cache m -> wellFormedCache m -> wellFormedCache m'.
Proof. unfold wellFormedCache. intros ->. auto. Qed.

Lemma readCachedValue_keeps symbol allowStale :
  keeps wellFormedCache (Oracle.readCachedValue clock symbol allowStale)
    (fun v => match v with Some v => (0 < v)%Q | None => True end).
Proof.
  intros m Hm.
  destruct (cache m !! normalizeSymbol symbol) as [entry|] eqn:E.
  - destruct (Hm _ _ E) as [_ Hpos]. destruct allowStale.
    + rewrite readCachedValue_stale, E. simpl. auto.
    + rewrite (readCachedValue_fresh clock _ _ _ E). simpl.
      split; [eapply wellFormedCache_same; [|exact Hm]; reflexivity|].
      destruct (_ <=? _); auto.
  - rewrite (readCachedValue_miss clock _ _ _ E). simpl. auto.
Qed.

Lemma readCachedSnapshot_from_keeps symbols allowStale : forall result,
  positiveRecord result ->
  keeps wellFormedCache
    (Oracle.readCachedSnapshot_from clock result symbols allowStale)
    (fun r => match r with Some r => positiveRecord r | None => True end).
Proof.
  induction symbols as [|s rest IH]; intros result Hres; simpl.
  - apply keeps_ret. exact Hres.
  - eapply keeps_bind; [apply readCachedValue_keeps|].
    intros [v|] Hv; simpl.
    + apply IH. apply positiveRecord_set; assumption.
    + apply keeps_ret. exact I.
Qed.

Lemma writeCache_keeps symbol v ttlMs :
  (0 < v)%Q ->
  keeps wellFormedCache (Oracle.writeCache clock symbol v ttlMs) (fun _ => True).
Proof.
  intros Hv m Hm. rewrite writeCache_run. simpl.
  split; [apply wellFormedCache_insert; assumption | exact I].
Qed.

Lemma writeCacheSnapshot_keeps values ttlMs :
  positiveRecord values ->
  keeps wellFormedCache (Oracle.writeCacheSnapshot clock values ttlMs)
    (fun _ => True).
Proof.
  unfold positiveRecord. induction 1 as [|[s v] rest Hv _ IH]; simpl.
  - apply keeps_ret. exact I.
  - eapply keeps_bind; [apply writeCache_keeps; exact Hv|].
    intros _ _. exact IH.
Qed.

Lemma warnWithCooldown_keeps key message :
  keeps wellFormedCache (Oracle.warnWithCooldown config clock key message)
    (fun _ => True).
Proof.
  intros m Hm.
  destruct (warnWithCooldown_run config clock key message m)
    as (m' & -> & _ & _ & Hc).
  simpl. split; [eapply wellFormedCache_same; eassumption | exact I].
Qed.

Lemma count_keeps f : keeps wellFormedCache (count f) (fun _ => True).
Proof. apply keeps_modify. intros m Hm. exact Hm. Qed.

Lemma readPayload_positive payload pairs : forall result values,
  positiveRecord result ->
  readPayload payload pairs result = inr values ->
  positiveRecord values.
Proof.
  induction pairs as [|[s i] rest IH]; intros result values Hres; simpl.
  - intros [= <-]. exact Hres.
  - destruct (payload !! i) as [[v|]|]; try discriminate.
    destruct (le v 0) eqn:Hle; [discriminate|].
    apply IH. apply positiveRecord_set; [|exact Hres].
    apply le_false_spec. exact Hle.
Qed.

Lemma fetchPrices_keeps symbols :
  keeps wellFormedCache (Oracle.fetchPrices config clock upstream symbols)
    positiveRecord.
Proof.
  intros m Hm.
  destruct (fetchPrices_frame config clock upstream symbols m) as (Hc & _).
  split; [eapply wellFormedCache_same; eassumption|].
  destruct (Oracle.fetchPrices config clock upstream symbols m) as [[e|values] m'] eqn:Hf;
    simpl; [exact I|].
  destruct (fetchPrices_success config clock upstream symbols m values m' Hf)
    as (ids & status & payload & _ & _ & _ & Hp & _).
  eapply readPayload_positive; [|exact Hp]. constructor.
Qed.

Lemma getPriceUsd_keeps symbol :
  keeps wellFormedCache (Oracle.getPriceUsd config clock upstream symbol)
    (fun price => (0 < price)%Q).
Proof.
  unfold Oracle.getPriceUsd.
  eapply keeps_bind; [apply readCachedValue_keeps|].
  intros [v|] Hv; simpl.
  - eapply keeps_bind; [apply count_keeps|]. intros _ _. apply keeps_ret. exact Hv.
  - apply keeps_try_catch.
    + eapply keeps_bind; [apply fetchPrices_keeps|].
      intros values Hvalues.
      destruct (record_get (normalizeSymbol symbol) values) as [v|] eqn:Hget;
        [|apply keeps_throw].
      assert (Hpos : (0 < v)%Q) by (eapply positiveRecord_get; eassumption).
      eapply keeps_bind; [apply writeCache_keeps; exact Hpos|]. intros _ _.
      eapply keeps_bind; [apply count_keeps|]. intros _ _.
      apply keeps_ret. exact Hpos.
    + intros e.
      eapply keeps_bind; [apply count_keeps|]. intros _ _.
      eapply keeps_bind; [apply readCachedValue_keeps|].
      intros [v|] Hpos; [|apply keeps_throw].
      eapply keeps_bind; [apply count_keeps|]. intros _ _.
      eapply keeps_bind; [apply writeCache_keeps; exact Hpos|]. intros _ _.
      eapply keeps_bind; [apply warnWithCooldown_keeps|]. intros _ _.
      apply keeps_ret. exact Hpos.
Qed.

Lemma getStablePricesUsd_keeps :
  keeps wellFormedCache (Oracle.getStablePricesUsd config clock upstream)
    positiveRecord.
Proof.
  unfold Oracle.getStablePricesUsd.
  eapply keeps_bind;
    [apply readCachedSnapshot_from_keeps; constructor|].
  intros [fresh|] Hfresh; simpl.
  - eapply keeps_bind; [apply count_keeps|]. intros _ _. apply keeps_ret. exact Hfresh.
  - apply keeps_try_catch.
    + eapply keeps_bind; [apply fetchPrices_keeps|].
      intros values Hvalues.
      eapply keeps_bind; [apply writeCacheSnapshot_keeps; exact Hvalues|]. intros _ _.
      eapply keeps_bind; [apply count_keeps|]. intros _ _.
      apply keeps_ret. exact Hvalues.
    + intros e.
      eapply keeps_bind; [apply count_keeps|]. intros _ _.
      eapply keeps_bind; [apply readCachedSnapshot_from_keeps; constructor|].
      intros [fallback|] Hfallback.
      * eapply keeps_bind; [apply count_keeps|]. intros _ _.
        eapply keeps_bind; [apply writeCacheSnapshot_keeps; exact Hfallback|].
        intros _ _.
        eapply keeps_bind; [apply warnWithCooldown_keeps|]. intros _ _.
        apply keeps_ret. exact Hfallback.
      * assert (Hhard : positiveRecord
                  (Object_fromEntries
                     (map (fun symbol => (symbol, 1%Q))
                          (normalizeSymbols (stableSymbols config))))).
        { apply positiveRecord_fromEntries. apply Forall_forall.
          intros [k v] Hin. apply list_elem_of_In, in_map_iff in Hin.
          destruct Hin as (s & [= <- <-] & _). reflexivity. }
        cbv zeta.
        eapply keeps_bind; [apply count_keeps|]. intros _ _.
        eapply keeps_bind; [apply writeCacheSnapshot_keeps; exact Hhard|].
        intros _ _.
        eapply keeps_bind; [apply warnWithCooldown_keeps|]. intros _ _.
        apply keeps_ret. exact Hhard.
Qed.

Lemma runLookup_keeps m op :
  wellFormedCache m -> wellFormedCache (Oracle.runLookup config clock upstream m op).
Proof.
  intros Hm. destruct op as [symbol|]; simpl.
  - apply (getPriceUsd_keeps symbol m Hm).
  - apply (getStablePricesUsd_keeps m Hm).
Qed.

(** X2. Starting from a cache whose keys are normalized symbols and whose
    prices are positive (the empty cache of a new oracle is one), every
    sequence of [getPriceUsd] / [getStablePricesUsd] lookups leaves such a
    cache: no lookup ever stores a zero or negative price, or stores a
    price under a key that is not trimmed and upper-cased. *)
Theorem lookups_keep_cache_well_formed (ops : list Lookup) (m : Machine) :
  wellFormedCache m ->
  wellFormedCache (Oracle.runLookups config clock upstream ops m).
Proof.
  revert m. induction ops as [|op ops IH]; intros m Hm; [exact Hm|].
  apply IH. apply runLookup_keeps. exact Hm.
Qed.

(** X3. With such a cache, a price returned by [getPriceUsd] is positive,
    and so is every price in the record returned by
    [getStablePricesUsd]: neither returns zero or a negative number,
    whichever of the cache, the network, the stale fallback or the hard
    fallback served it. *)
Theorem lookups_return_positive_prices (m : Machine) :
  wellFormedCache m ->
  (forall symbol price m',
     Oracle.getPriceUsd config clock upstream symbol m = (inr price, m') ->
     (0 < price)%Q)
  /\ (forall prices m' symbol price,
        Oracle.getStablePricesUsd config clock upstream m = (inr prices, m') ->
        record_get symbol prices = Some price ->
        (0 < price)%Q).
Proof.
  intros Hm. split.
  - intros symbol price m' Hrun.
    pose proof (getPriceUsd_keeps symbol m Hm) as H. rewrite Hrun in H. apply H.
  - intros prices m' symbol price Hrun Hget.
    pose proof (getStablePricesUsd_keeps m Hm) as H. rewrite Hrun in H.
    eapply positiveRecord_get; [apply H | exact Hget].
Qed.

End CacheInvariant.

(** *** Cache hits *)

Section CacheHits.

Variable config : LivePriceOracleConfig.
Variable clock : nat -> Z.
Variable upstream : nat -> list string -> FetchOutcome.

Lemma getPriceUsd_fresh_run (symbol : string) (m : Machine)
    (entry : CacheEntry) :
  cache m !! normalizeSymbol symbol = Some entry ->
  clock (dateNowCalls m) < expiresAt entry ->
  Oracle.getPriceUsd config clock upstream symbol m
  = (inr (value entry),
     with_telemetry (bumpCacheFreshHits (telemetry m)) (tick m)).
Proof.
  intros Hentry Hfresh. unfold Oracle.getPriceUsd.
  erewrite bind_run
    by (apply readCachedValue_fresh; rewrite normalizeSymbol_idempotent; exact Hentry).
  apply Z.leb_gt in Hfresh. rewrite Hfresh. reflexivity.
Qed.

(** X4. A lookup of a symbol whose cache entry has not expired at the clock
    reading of the lookup returns the cached value; it issues no request
    and changes nothing but the fresh-hit counter and the clock. *)
Theorem getPriceUsd_fresh_hit (symbol : string) (m : Machine)
    (entry : CacheEntry) :
  cache m !! normalizeSymbol symbol = Some entry ->
  clock (dateNowCalls m) < expiresAt entry ->
  Oracle.getPriceUsd config clock upstream symbol m
  = (inr (value entry),
     with_telemetry (bumpCacheFreshHits (telemetry m)) (tick m)).
Proof. apply getPriceUsd_fresh_run. Qed.

Lemma readCachedSnapshot_from_fresh symbols : forall result m,
  NoDup (map fst result ++ symbols) ->
  (forall s, s ∈ symbols ->
     exists entry,
       cache m !! normalizeSymbol s = Some entry
       /\ forall k, (dateNowCalls m <= k < dateNowCalls m + length symbols)%nat ->
                    clock k < expiresAt entry) ->
  Oracle.readCachedSnapshot_from clock result symbols false m
  = (inr (Some (result
                ++ map (fun s => (s, default 0%Q
                                       (value <$> cache m !! normalizeSymbol s)))
                       symbols)),
     with_dateNowCalls (dateNowCalls m + length symbols) m).
Proof.
  induction symbols as [|s rest IH]; intros result m Hnd Hall; simpl.
  - rewrite app_nil_r, Nat.add_0_r, with_dateNowCalls_same. reflexivity.
  - destruct (Hall s) as (entry & Hentry & Hfresh); [left|].
    erewrite bind_run by (apply readCachedValue_fresh; exact Hentry).
    assert (Hnow : clock (dateNowCalls m) < expiresAt entry)
      by (apply Hfresh; simpl; lia).
    apply Z.leb_gt in Hnow. rewrite Hnow.
    rewrite record_set_fresh.
    2:{ apply NoDup_app in Hnd. destruct Hnd as (_ & Hdis & _).
        intros Hin. apply (Hdis s Hin). left. }
    rewrite IH.
    + fields. rewrite Hentry. simpl. rewrite <- app_assoc. simpl.
      f_equal. unfold with_dateNowCalls. simpl. f_equal. lia.
    + rewrite map_app. simpl. rewrite <- app_assoc. exact Hnd.
    + intros s' Hs'. destruct (Hall s') as (entry' & He' & Hf'); [right; exact Hs'|].
      exists entry'. fields. split; [exact He'|].
      intros k Hk. apply Hf'. simpl. lia.
Qed.

(** X5. When every configured stable symbol has a cache entry that has not
    expired at any of the clock readings the batch takes (one per symbol),
    [getStablePricesUsd] returns the cached value of each symbol, in the
    order of the normalized configuration; it issues no request, leaves the
    cache alone and counts one fresh hit. *)
Theorem getStablePricesUsd_fresh_hit (m : Machine) :
  (forall s, s ∈ normalizeSymbols (stableSymbols config) ->
     exists entry,
       cache m !! s = Some entry
       /\ forall k,
            (dateNowCalls m <= k
             < dateNowCalls m
               + length (normalizeSymbols (stableSymbols config)))%nat ->
            clock k < expiresAt entry) ->
  Oracle.getStablePricesUsd config clock upstream m
  = (inr (map (fun s => (s, default 0%Q (value <$> cache m !! s)))
              (normalizeSymbols (stableSymbols config))),
     with_telemetry (bumpCacheFreshHits (telemetry m))
       (with_dateNowCalls
          (dateNowCalls m + length (normalizeSymbols (stableSymbols config)))
          m)).
Proof.
  set (symbols := normalizeSymbols (stableSymbols config)). intros Hall.
  assert (Hnorm : forall s, s ∈ symbols -> normalizeSymbol s = s).
  { intros s Hs. unfold symbols, normalizeSymbols in Hs.
    apply (proj1 (uniq_elem _ _)) in Hs.
    apply list_elem_of_In, in_map_iff in Hs.
    destruct Hs as (s0 & <- & _). apply normalizeSymbol_idempotent. }
  unfold Oracle.getStablePricesUsd. fold symbols.
  unfold Oracle.readCachedSnapshot.
  erewrite bind_run.
  2:{ apply readCachedSnapshot_from_fresh.
      - simpl. apply uniq_NoDup.
      - intros s Hs. rewrite (Hnorm s Hs). apply Hall. exact Hs. }
  simpl app.
  replace (map (fun s => (s, default 0%Q (value <$> cache m !! normalizeSymbol s))) symbols)
    with (map (fun s => (s, default 0%Q (value <$> cache m !! s))) symbols).
  - reflexivity.
  - apply map_ext_in. intros s Hs. rewrite Hnorm; [reflexivity|].
    apply list_elem_of_In. exact Hs.
Qed.

(** X6. A price fetched from the network is cached under the normalized
    symbol for [cacheTtlMs], and the next lookup of the symbol whose clock
    reading is before that expiry returns the same price from the cache,
    without a request. *)
Theorem getPriceUsd_fetch_then_fresh_hit (symbol : string)
    (m m1 m2 : Machine) (values : Record_ Q) :
  Oracle.readCachedValue clock (normalizeSymbol symbol) false m
  = (inr None, m1) ->
  Oracle.fetchPrices config clock upstream [normalizeSymbol symbol] m1
  = (inr values, m2) ->
  exists price m',
    Oracle.getPriceUsd config clock upstream symbol m = (inr price, m')
    /\ values = [(normalizeSymbol symbol, price)]
    /\ cache m' !! normalizeSymbol symbol
       = Some {| value := price;
                 expiresAt := clock (dateNowCalls m2) + cacheTtlMs config |}
    /\ requests m' = requests m2
    /\ (clock (dateNowCalls m') < clock (dateNowCalls m2) + cacheTtlMs config ->
        Oracle.getPriceUsd config clock upstream symbol m'
        = (inr price,
           with_telemetry (bumpCacheFreshHits (telemetry m')) (tick m'))).
Proof.
  set (normalized := normalizeSymbol symbol). intros Hread Hfetch.
  destruct (fetchPrices_payload config clock upstream
              [normalized] m1 values m2 Hfetch)
    as (ids & usd & payload & status & Hvalues & Hkeys & _).
  assert (Hsyms : normalizeSymbols [normalized] = [normalized]).
  { unfold normalizeSymbols, normalized. simpl.
    rewrite normalizeSymbol_idempotent.
    destruct (uniq_cons_head (normalizeSymbol symbol) []) as (rest & Hrest).
    unfold uniq in *. simpl in *.
    destruct (decide (normalizeSymbol symbol ∈ [])) as [H|_]; [inversion H|].
    reflexivity. }
  rewrite Hsyms in Hvalues, Hkeys.
  destruct usd as [|price usd].
  { rewrite Hvalues in Hkeys. discriminate Hkeys. }
  simpl in Hvalues. subst values.
  set (m' := with_telemetry (bumpNetworkFetchSuccesses (telemetry m2))
               (with_cache
                  (<[normalizeSymbol normalized :=
                       {| value := price;
                          expiresAt := clock (dateNowCalls m2) + cacheTtlMs config |}]>
                     (cache m2))
                  (tick m2))).
  assert (Hrun : Oracle.getPriceUsd config clock upstream symbol m = (inr price, m')).
  { unfold Oracle.getPriceUsd. fold normalized.
    erewrite bind_run by exact Hread. cbv beta iota.
    erewrite try_catch_run; [reflexivity|].
    assert (Hget : record_get normalized [(normalized, price)] = Some price).
    { simpl. destruct (decide (normalized = normalized)); [reflexivity | contradiction]. }
    erewrite bind_run by exact Hfetch. rewrite Hget.
    step. step. reflexivity. }
  assert (Hcache : cache m' !! normalized
                   = Some {| value := price;
                             expiresAt := clock (dateNowCalls m2) + cacheTtlMs config |}).
  { subst m'. fields. unfold normalized. rewrite normalizeSymbol_idempotent.
    apply lookup_insert_eq. }
  exists price, m'. split; [exact Hrun|]. split; [reflexivity|].
  split; [exact Hcache|]. split; [reflexivity|].
  intros Hfresh.
  apply (getPriceUsd_fresh_run symbol m'
           {| value := price;
              expiresAt := clock (dateNowCalls m2) + cacheTtlMs config |});
    assumption.
Qed.

End CacheHits.

(** *** Counters, requests and warnings *)

Section Accounting.

Variable config : LivePriceOracleConfig.
Variable clock : nat -> Z.
Variable upstream : nat -> list string -> FetchOutcome.

Lemma runLookup_telemetry m op :
  let t := telemetry m in
  let t' := telemetry (Oracle.runLookup config clock upstream m op) in
  lookupsServed t' = S (lookupsServed t)
  /\ (fallbacksServed t' + fetchFailures t <= fallbacksServed t + fetchFailures t')%nat
  /\ (cacheFreshHits t <= cacheFreshHits t')%nat
  /\ (staleFallbackHits t <= staleFallbackHits t')%nat
  /\ (stableFallbackHits t <= stableFallbackHits t')%nat
  /\ (networkFetchSuccesses t <= networkFetchSuccesses t')%nat
  /\ (fetchFailures t <= fetchFailures t')%nat.
Proof.
  cbv zeta. unfold lookupsServed, fallbacksServed.
  destruct op as [symbol|]; simpl.
  - destruct (Oracle.getPriceUsd config clock upstream symbol m) as [r m'] eqn:H.
    destruct (getPriceUsd_account config clock upstream symbol m r m' H)
      as (_ & _ & Hcases). simpl.
    destruct Hcases as [[-> _] | [[-> _] | [[-> _] | [-> _]]]]; simpl; lia.
  - destruct (Oracle.getStablePricesUsd config clock upstream m) as [r m'] eqn:H.
    destruct (getStablePricesUsd_account config clock upstream m r m' H)
      as (_ & _ & _ & Hcases). simpl.
    destruct Hcases as [-> | [-> | ->]]; simpl; lia.
Qed.

(** X7. Over any sequence of lookups, every lookup is counted exactly once
    as a fresh hit, a network success or a fetch failure (their sum grows by
    the number of lookups); the two fallback counters together grow by no
    more than the fetch-failure counter; and no counter ever decreases. *)
Theorem lookups_telemetry_balance (ops : list Lookup) (m : Machine) :
  lookupsServed (telemetry (Oracle.runLookups config clock upstream ops m))
  = (lookupsServed (telemetry m) + length ops)%nat
  /\ (fallbacksServed (telemetry (Oracle.runLookups config clock upstream ops m))
      + fetchFailures (telemetry m)
      <= fallbacksServed (telemetry m)
         + fetchFailures (telemetry (Oracle.runLookups config clock upstream ops m)))%nat
  /\ (cacheFreshHits (telemetry m)
      <= cacheFreshHits (telemetry (Oracle.runLookups config clock upstream ops m)))%nat
  /\ (staleFallbackHits (telemetry m)
      <= staleFallbackHits (telemetry (Oracle.runLookups config clock upstream ops m)))%nat
  /\ (stableFallbackHits (telemetry m)
      <= stableFallbackHits (telemetry (Oracle.runLookups config clock upstream ops m)))%nat
  /\ (networkFetchSuccesses (telemetry m)
      <= networkFetchSuccesses (telemetry (Oracle.runLookups config clock upstream ops m)))%nat
  /\ (fetchFailures (telemetry m)
      <= fetchFailures (telemetry (Oracle.runLookups config clock upstream ops m)))%nat.
Proof.
  revert m. induction ops as [|op ops IH]; intros m.
  - simpl. repeat split; lia.
  - change (Oracle.runLookups config clock upstream (op :: ops) m)
      with (Oracle.runLookups config clock upstream ops
              (Oracle.runLookup config clock upstream m op)).
    pose proof (runLookup_telemetry m op) as H1. cbv zeta in H1.
    specialize (IH (Oracle.runLookup config clock upstream m op)).
    simpl length. lia.
Qed.

(** *** The request log *)

Lemma fetchPrices_requests symbols m :
  requests (Oracle.fetchPrices config clock upstream symbols m).2 = requests m
  \/ exists ids,
       requests (Oracle.fetchPrices config clock upstream symbols m).2
       = requests m ++ [ids].
Proof.
  destruct (Oracle.fetchPrices config clock upstream symbols m) as [[e|values] m'] eqn:Hf.
  - revert Hf. unfold Oracle.fetchPrices, bind, ret, throw, get, modify,
      liftResult, Date_now, fetch.
    destruct (uniq (map normalizeSymbol symbols)) as [|s0 rest];
      [intros [= _ <-]; left; reflexivity|].
    cbv beta iota. cbn [fst snd].
    destruct (_ <? _); [intros [= _ <-]; left; reflexivity|].
    destruct (lookupIds config (s0 :: rest)) as [e'|ids];
      [intros [= _ <-]; left; reflexivity|].
    destruct (upstream _ ids) as [msg|status body];
      [intros [= _ <-]; right; eexists; reflexivity|].
    destruct (negb (response_ok status)).
    + destruct (status =? 429); intros [= _ <-]; right; eexists; reflexivity.
    + destruct body as [msg|payload]; [intros [= _ <-]; right; eexists; reflexivity|].
      destruct (readPayload _ _ _); intros [= _ <-]; right; eexists; reflexivity.
  - destruct (fetchPrices_payload config clock upstream
                symbols m values m' Hf)
      as (ids & usd & payload & status & _ & _ & _ & _ & _ & Hreq & _).
    right. exists ids. exact Hreq.
Qed.

Lemma runLookup_requests m op :
  requests (Oracle.runLookup config clock upstream m op) = requests m
  \/ exists ids,
       requests (Oracle.runLookup config clock upstream m op) = requests m ++ [ids].
Proof.
  assert (Hcompose : forall symbols m1 m',
            onlyClockRead m m1 ->
            sameUpstreamState
              (Oracle.fetchPrices config clock upstream symbols m1).2 m' ->
            requests m' = requests m
            \/ exists ids, requests m' = requests m ++ [ids]).
  { intros symbols m1 m' [Hm1 _] (_ & Hreq & _).
    assert (Hr1 : requests m1 = requests m) by (rewrite Hm1; reflexivity).
    rewrite Hreq, <- Hr1. apply fetchPrices_requests. }
  destruct op as [symbol|]; simpl.
  - unfold Oracle.getPriceUsd.
    set (normalized := normalizeSymbol symbol).
    destruct (readCachedValue_frame clock normalized false m)
      as (fresh & m1 & Hread & Hclock).
    erewrite bind_run by exact Hread.
    destruct fresh as [v|].
    { step. simpl. destruct Hclock as [-> _]. left. reflexivity. }
    destruct (Oracle.fetchPrices config clock upstream [normalized] m1)
      as [rf m2] eqn:Hfetch.
    assert (Hm2 : m2 = (Oracle.fetchPrices config clock upstream [normalized] m1).2)
      by (rewrite Hfetch; reflexivity).
    assert (Hcatch : forall e r m',
      (count bumpFetchFailures ;;
       let* staleCached := Oracle.readCachedValue clock normalized true in
       match staleCached with
       | Some staleCached =>
           count bumpStaleFallbackHits ;;
           Oracle.writeCache clock normalized staleCached (staleFallbackTtlMs config) ;;
           Oracle.warnWithCooldown config clock ("single:" +:+ normalized)
             ("[price-oracle] Using stale cached price for " +:+ normalized
                +:+ ": " +:+ toErrorMessage e) ;;
           ret staleCached
       | None => throw e
       end) m2 = (r, m') -> sameUpstreamState m2 m').
    { intros e r m'. pose proof (getPriceUsd_catch_run config clock normalized e m2) as Hh.
      cbv zeta in Hh.
      destruct (cache m2 !! normalizeSymbol normalized).
      - destruct Hh as (mh & -> & _ & Hsame & _). intros [= _ <-]. exact Hsame.
      - rewrite Hh. intros [= _ <-]. repeat split; fields; lia. }
    destruct rf as [e|values].
    + erewrite try_catch_throw by (erewrite bind_throw by exact Hfetch; reflexivity).
      match goal with |- context [requests (?c m2).2] =>
        destruct (c m2) as [r m'] eqn:Hrun end.
      simpl. apply (Hcompose [normalized] m1 m' Hclock).
      rewrite <- Hm2. eapply Hcatch. exact Hrun.
    + destruct (record_get normalized values) as [v|] eqn:Hget.
      * erewrite try_catch_run
          by (erewrite bind_run by exact Hfetch; rewrite Hget; step; step; reflexivity).
        simpl. apply (Hcompose [normalized] m1 _ Hclock).
        rewrite <- Hm2. repeat split; fields; lia.
      * erewrite try_catch_throw
          by (erewrite bind_run by exact Hfetch; rewrite Hget; reflexivity).
        match goal with |- context [requests (?c m2).2] =>
          destruct (c m2) as [r m'] eqn:Hrun end.
        simpl. apply (Hcompose [normalized] m1 m' Hclock).
        rewrite <- Hm2. eapply Hcatch. exact Hrun.
  - unfold Oracle.getStablePricesUsd.
    set (symbols := normalizeSymbols (stableSymbols config)).
    destruct (readCachedSnapshot_from_frame clock symbols false [] m)
      as (fresh & m1 & Hread & Hclock).
    fold (Oracle.readCachedSnapshot clock symbols false) in Hread.
    erewrite bind_run by exact Hread.
    destruct fresh as [prices|].
    { step. simpl. destruct Hclock as [-> _]. left. reflexivity. }
    destruct (Oracle.fetchPrices config clock upstream symbols m1)
      as [rf m2] eqn:Hfetch.
    assert (Hm2 : m2 = (Oracle.fetchPrices config clock upstream symbols m1).2)
      by (rewrite Hfetch; reflexivity).
    destruct rf as [e|values].
    + erewrite try_catch_throw by (erewrite bind_throw by exact Hfetch; reflexivity).
      destruct (getStablePricesUsd_catch_run config clock symbols e m2)
        as (fallback & served & mh & _ & _ & Hh & _ & Hsame & _).
      match goal with |- context [requests (?c m2).2] =>
        replace (c m2) with (@inr OracleError _ served, mh) by (symmetry; exact Hh) end.
      simpl. apply (Hcompose symbols m1 mh Hclock). rewrite <- Hm2. exact Hsame.
    + destruct (writeCacheSnapshot_run clock values (cacheTtlMs config) m2)
        as (m3 & Hw & Hsame3 & _).
      erewrite try_catch_run
        by (erewrite bind_run by exact Hfetch;
            erewrite bind_run by exact Hw; step; reflexivity).
      simpl. apply (Hcompose symbols m1 _ Hclock). rewrite <- Hm2.
      destruct Hsame3 as (A & B & C). repeat split; fields; assumption.
Qed.

(** X8. A lookup issues at most one upstream request (the batch is a single
    request however many stable symbols there are), and the request log
    only grows: after any sequence of lookups it is the old log followed by
    no more new requests than there were lookups. *)
Theorem lookups_issue_at_most_one_request_each (ops : list Lookup) (m : Machine) :
  exists added,
    requests (Oracle.runLookups config clock upstream ops m) = requests m ++ added
    /\ (length added <= length ops)%nat.
Proof.
  revert m. induction ops as [|op ops IH]; intros m.
  - exists []. simpl. rewrite app_nil_r. split; [reflexivity | lia].
  - change (Oracle.runLookups config clock upstream (op :: ops) m)
      with (Oracle.runLookups config clock upstream ops
              (Oracle.runLookup config clock upstream m op)).
    destruct (IH (Oracle.runLookup config clock upstream m op)) as (added & -> & Hlen).
    destruct (runLookup_requests m op) as [-> | (ids & ->)].
    + exists added. split; [reflexivity | simpl; lia].
    + exists (ids :: added). rewrite <- app_assoc. split; [reflexivity | simpl; lia].
Qed.



End Accounting.

(** *** The oracle properties at concrete inputs *)

Section OracleExtraInstances.
Import Examples.

(** The cache of a new oracle is empty, hence well formed. *)
Lemma wellFormedCache_newMachine : wellFormedCache newMachine.
Proof.
  intros key entry H. unfold newMachine in H. cbn [cache] in H.
  rewrite lookup_empty in H. discriminate H.
Qed.

(** At a concrete input: a fresh oracle asks for USDC and USDT (given
    twice, in mixed spelling) and the feed answers with both prices. *)
Lemma fetchPrices_returns_payload_prices_witness :
  exists ids usd payload status,
    [("USDC", (9995 # 10000)%Q); ("USDT", (10002 # 10000)%Q)]
    = zip (normalizeSymbols ["usdc"; " usdt"; "USDC"]) usd
    /\ map fst [("USDC", (9995 # 10000)%Q); ("USDT", (10002 # 10000)%Q)]
       = normalizeSymbols ["usdc"; " usdt"; "USDC"]
    /\ Forall2 (fun symbol id =>
                  coingeckoIdBySymbol stableConfig !! symbol = Some id
                  /\ id <> "")
         (normalizeSymbols ["usdc"; " usdt"; "USDC"]) ids
    /\ pricedUpstream (length (requests newMachine)) ids
       = FetchResponded status (BodyObject payload)
    /\ Forall2 (fun id v => payload !! id = Some (Some v) /\ (0 < v)%Q) ids usd
    /\ requests
         (with_requests [["usd-coin"; "tether"]] (tick newMachine))
       = requests newMachine ++ [ids]
    /\ rateLimitedUntilMs
         (with_requests [["usd-coin"; "tether"]] (tick newMachine))
       = rateLimitedUntilMs newMachine
    /\ rateLimitedUntilMs newMachine <= tickingClock (dateNowCalls newMachine).
Proof.
  apply (fetchPrices_returns_payload_prices stableConfig tickingClock
           pricedUpstream ["usdc"; " usdt"; "USDC"] newMachine).
  reflexivity.
Defined.

(** At a concrete input: a fresh oracle, three lookups against a feed that
    cannot be reached. *)
Lemma lookups_keep_cache_well_formed_witness :
  wellFormedCache
    (Oracle.runLookups stableConfig tickingClock unreachableUpstream
       [LookupStablePrices; LookupPrice "usdc"; LookupPrice "mon"] newMachine).
Proof.
  apply lookups_keep_cache_well_formed.
  apply wellFormedCache_newMachine.
Defined.

(** At a concrete input: the price of USDC served by the network and the
    hard-fallback prices of the batch are positive. *)
Lemma lookups_return_positive_prices_witness :
  (0 < 9995 # 10000)%Q /\ (0 < 1)%Q.
Proof.
  destruct (lookups_return_positive_prices stableConfig tickingClock
              pricedUpstream newMachine) as [Hsingle _].
  { apply wellFormedCache_newMachine. }
  destruct (lookups_return_positive_prices stableConfig tickingClock
              unreachableUpstream newMachine) as [_ Hbatch].
  { apply wellFormedCache_newMachine. }
  split.
  - apply (Hsingle "usdc" (9995 # 10000)%Q
             (Oracle.getPriceUsd stableConfig tickingClock pricedUpstream
                "usdc" newMachine).2).
    reflexivity.
  - apply (Hbatch [("USDC", 1%Q); ("USDT", 1%Q)]
             (Oracle.getStablePricesUsd stableConfig tickingClock
                unreachableUpstream newMachine).2 "USDT" 1%Q);
      reflexivity.
Defined.

(** At a concrete input: USDC cached until 200 s, looked up at 100 s. *)
Lemma getPriceUsd_fresh_hit_witness :
  Oracle.getPriceUsd stableConfig tickingClock unreachableUpstream " usdc "
    freshUsdcMachine
  = (inr (9991 # 10000)%Q,
     with_telemetry (bumpCacheFreshHits (telemetry freshUsdcMachine))
       (tick freshUsdcMachine)).
Proof.
  apply (getPriceUsd_fresh_hit stableConfig tickingClock unreachableUpstream
           " usdc " freshUsdcMachine
           {| value := 9991 # 10000; expiresAt := 200000 |}).
  - reflexivity.
  - reflexivity.
Defined.

(** At a concrete input: USDC, the only stable symbol, cached until
    200 s. *)
Lemma getStablePricesUsd_fresh_hit_witness :
  Oracle.getStablePricesUsd usdcOnlyConfig tickingClock unreachableUpstream
    freshUsdcMachine
  = (inr [("USDC", (9991 # 10000)%Q)],
     with_telemetry (bumpCacheFreshHits (telemetry freshUsdcMachine))
       (tick freshUsdcMachine)).
Proof.
  refine (eq_trans
            (getStablePricesUsd_fresh_hit usdcOnlyConfig tickingClock
               unreachableUpstream freshUsdcMachine _) _).
  - intros s Hs.
    exists {| value := 9991 # 10000; expiresAt := 200000 |}.
    assert (s = "USDC") as ->.
    { change (normalizeSymbols (stableSymbols usdcOnlyConfig)) with ["USDC"] in Hs.
      apply list_elem_of_singleton in Hs. exact Hs. }
    split; [reflexivity|].
    intros k Hk.
    change (dateNowCalls freshUsdcMachine) with 0%nat in Hk.
    change (length (normalizeSymbols (stableSymbols usdcOnlyConfig)))
      with 1%nat in Hk.
    assert (k = 0%nat) as -> by lia. reflexivity.
  - reflexivity.
Defined.

(** At a concrete input: a fresh oracle fetches USDC at 0.9995 and the next
    lookup, two seconds later, is served from the cache. *)
Lemma getPriceUsd_fetch_then_fresh_hit_witness :
  exists price m',
    Oracle.getPriceUsd stableConfig tickingClock pricedUpstream "usdc"
      newMachine = (inr price, m')
    /\ [("USDC", (9995 # 10000)%Q)] = [(normalizeSymbol "usdc", price)]
    /\ cache m' !! normalizeSymbol "usdc"
       = Some {| value := price;
                 expiresAt :=
                   tickingClock
                     (dateNowCalls
                        (with_requests [["usd-coin"]] (tick newMachine)))
                   + cacheTtlMs stableConfig |}
    /\ requests m' = requests (with_requests [["usd-coin"]] (tick newMachine))
    /\ (tickingClock (dateNowCalls m')
        < tickingClock
            (dateNowCalls (with_requests [["usd-coin"]] (tick newMachine)))
          + cacheTtlMs stableConfig ->
        Oracle.getPriceUsd stableConfig tickingClock pricedUpstream "usdc" m'
        = (inr price,
           with_telemetry (bumpCacheFreshHits (telemetry m')) (tick m'))).
Proof.
  apply (getPriceUsd_fetch_then_fresh_hit stableConfig tickingClock
           pricedUpstream "usdc" newMachine newMachine).
  - reflexivity.
  - reflexivity.
Defined.



End OracleExtraInstances.

End OracleExtras.

(** ** More of the guards and of the yield math *)

Section DoubleOrder.

Lemma Double_lt_NaN_r (x : Double.number) : Double.lt x Double.NaN = false.
Proof. destruct x; reflexivity. Qed.

Lemma Double_lt_NaN_l (x : Double.number) : Double.lt Double.NaN x = false.
Proof. reflexivity. Qed.

Lemma Double_sub_NaN_l (x : Double.number) : Double.sub Double.NaN x = Double.NaN.
Proof. destruct x; reflexivity. Qed.

Lemma Double_sub_NaN_r (x : Double.number) : Double.sub x Double.NaN = Double.NaN.
Proof. destruct x; reflexivity. Qed.

Lemma Double_div_NaN_l (x : Double.number) : Double.div Double.NaN x = Double.NaN.
Proof. destruct x; reflexivity. Qed.

Lemma Double_div_NaN_r (x : Double.number) : Double.div x Double.NaN = Double.NaN.
Proof. destruct x; reflexivity. Qed.

Lemma Double_mul_NaN_l (x : Double.number) : Double.mul Double.NaN x = Double.NaN.
Proof. destruct x; reflexivity. Qed.

(** [a <= b] and [b < c] give [a < c], NaN included (no hypothesis holds
    of it). *)
Lemma Double_le_lt_trans (a b c : Double.number) :
  Double.le a b = true -> Double.lt b c = true -> Double.lt a c = true.
Proof.
  unfold Double.le, Double.lt, SFleb, SFltb.
  destruct a as [sa|sa| |sa ma ea], b as [sb|sb| |sb mb eb],
    c as [sc|sc| |sc mc ec]; simpl; try discriminate; try reflexivity;
    try (destruct sa; simpl; try discriminate; try reflexivity);
    try (destruct sb; simpl; try discriminate; try reflexivity);
    try (destruct sc; simpl; try discriminate; try reflexivity).
  all: destruct (Z.compare_spec ea eb) as [Hab|Hab|Hab];
    destruct (Z.compare_spec eb ec) as [Hbc|Hbc|Hbc];
    destruct (Z.compare_spec ea ec) as [Hac|Hac|Hac];
    try discriminate; try reflexivity; try lia; subst;
    rewrite ?Pos.compare_cont_spec; unfold Pos.switch_Eq;
    destruct (Pos.compare_spec ma mb) as [H1|H1|H1];
    destruct (Pos.compare_spec mb mc) as [H2|H2|H2];
    destruct (Pos.compare_spec ma mc) as [H3|H3|H3];
    simpl; try discriminate; try reflexivity; try lia.
Qed.

Lemma Double_gt_antitone (lower higher d : Double.number) :
  Double.le lower higher = true ->
  Double.gt d higher = true -> Double.gt d lower = true.
Proof. unfold Double.gt. apply Double_le_lt_trans. Qed.

Lemma Double_gt_NaN_l (x : Double.number) : Double.gt Double.NaN x = false.
Proof. destruct x; reflexivity. Qed.

Lemma Double_gt_NaN_r (x : Double.number) : Double.gt x Double.NaN = false.
Proof. reflexivity. Qed.

Lemma Double_zero_le_not_gt (x : Double.number) :
  Double.le (Double.ofZ 0) x = true -> Double.gt (Double.ofZ 0) x = false.
Proof.
  destruct x as [s|s| |s m e]; try destruct s; intros H; vm_compute in *;
    congruence.
Qed.

Lemma Double_zero_le_not_lt (x : Double.number) :
  Double.le (Double.ofZ 0) x = true -> Double.lt x (Double.ofZ 0) = false.
Proof.
  destruct x as [s|s| |s m e]; try destruct s; intros H; vm_compute in *;
    congruence.
Qed.

Lemma Math_max_zero_not_negative (y : Double.number) :
  Double.lt (Double.Math_max (Double.ofZ 0) y) (Double.ofZ 0) = false.
Proof. destruct y as [s|s| |s m e]; try destruct s; reflexivity. Qed.

End DoubleOrder.

Section GuardExtras.
Import Js Guards GuardsLogic.

Variable Number_toString : Double.number -> string.

Lemma exceeds_antitone (lower higher : Double.number) (item : Deviation) :
  Double.le lower higher = true ->
  exceeds higher item = true -> exceeds lower item = true.
Proof. unfold exceeds. apply Double_gt_antitone. Qed.

Lemma existsb_exceeds_NaN (ds : list Deviation) :
  existsb (exceeds Double.NaN) ds = false.
Proof.
  induction ds as [|d ds IH]; [reflexivity|].
  cbn [existsb]. rewrite IH. unfold exceeds. rewrite Double_gt_NaN_r.
  reflexivity.
Qed.

Lemma deviations_of_NaN (symbols : list string) (maxDeviationBps : Double.number) :
  existsb (exceeds maxDeviationBps)
    (map (fun e => {| symbol := e.1; bps := deviationBpsFromDollar e.2 |})
       (map (fun s => (s, Double.NaN)) symbols)) = false.
Proof.
  induction symbols as [|s rest IH]; [reflexivity|].
  cbn [map existsb fst snd]. rewrite IH.
  unfold exceeds. cbn [bps].
  change (deviationBpsFromDollar Double.NaN) with Double.NaN.
  rewrite Double_gt_NaN_l. reflexivity.
Qed.

(** X11. Every result of the three guards is well formed: [triggered] is
    true exactly for the [..._TRIGGERED] reason codes, and [details] is
    present exactly when the guard triggered. *)
Theorem guard_results_well_formed :
  (forall prices maxDeviationBps,
     wellFormed (depegGuard Number_toString prices maxDeviationBps))
  /\ (forall snapshot maxPriceImpactBps,
        wellFormed (slippageGuard Number_toString snapshot maxPriceImpactBps))
  /\ (forall current previous minDropBps,
        wellFormed (aprCliffGuard Number_toString current previous minDropBps)).
Proof.
  assert (Hyes : forall r d,
            isTriggeredReason r = true ->
            wellFormed {| triggered := true; reason := r; details := Some d |}).
  { intros r d Hr. split; [exact Hr|]. cbn. split; eauto. }
  assert (Hno : forall r,
            isTriggeredReason r = false ->
            wellFormed {| triggered := false; reason := r; details := None |}).
  { intros r Hr. split; [exact Hr|]. cbn.
    split; [discriminate | intros [x Hx]; discriminate]. }
  split; [|split].
  - intros prices maxDeviationBps. unfold depegGuard.
    destruct prices as [|e rest]; [apply Hyes; reflexivity|].
    destruct (existsb _ _); [apply Hyes | apply Hno]; reflexivity.
  - intros snapshot maxPriceImpactBps. unfold slippageGuard.
    destruct (Double.gt _ _); [apply Hyes | apply Hno]; reflexivity.
  - intros current previous minDropBps. unfold aprCliffGuard.
    destruct current as [current|], previous as [previous|];
      try (apply Hno; reflexivity).
    cbv zeta. destruct (Double.le _ _); [apply Hno; reflexivity|].
    destruct (Double.gt _ _); [apply Hyes | apply Hno]; reflexivity.
Qed.

(** X12. Lowering a threshold never silences a guard: whatever triggers a
    guard at a threshold triggers it at every threshold that is [<=] it. *)
Theorem guards_antitone_in_threshold (lower higher : Double.number) :
  Double.le lower higher = true ->
  (forall prices,
     triggered (depegGuard Number_toString prices higher) = true ->
     triggered (depegGuard Number_toString prices lower) = true)
  /\ (forall snapshot,
        triggered (slippageGuard Number_toString snapshot higher) = true ->
        triggered (slippageGuard Number_toString snapshot lower) = true)
  /\ (forall current previous,
        triggered (aprCliffGuard Number_toString current previous higher) = true ->
        triggered (aprCliffGuard Number_toString current previous lower) = true).
Proof.
  intros Hle. split; [|split].
  - intros prices. rewrite !depegGuard_triggered_exists.
    intros [H | H]; [left; exact H | right].
    apply existsb_exists in H. destruct H as (d & Hin & Hd).
    apply existsb_exists. exists d. split; [exact Hin|].
    apply (exceeds_antitone lower higher d Hle Hd).
  - intros snapshot. unfold slippageGuard.
    destruct (Double.gt (slippageBps snapshot) higher) eqn:Hh;
      [|cbn [triggered]; intros H; discriminate H].
    intros _. rewrite (Double_gt_antitone _ _ _ Hle Hh). reflexivity.
  - intros current previous. unfold aprCliffGuard.
    destruct current as [current|], previous as [previous|];
      try (cbn [triggered]; intros H; discriminate H).
    cbv zeta.
    destruct (Double.le (incentiveAprBps previous) (Double.ofZ 0));
      [cbn [triggered]; intros H; discriminate H|].
    match goal with
    | |- context [Double.gt ?d higher] =>
        destruct (Double.gt d higher) eqn:Hh; [|cbn [triggered]; intros H; discriminate H]
    end.
    intros _. rewrite (Double_gt_antitone _ _ _ Hle Hh). reflexivity.
Qed.

(** X13. A NaN never trips a guard. With a NaN threshold no guard triggers
    (the depeg guard still does on an empty price map); stable prices that
    are all NaN do not trigger the depeg guard at any threshold; a NaN
    price impact does not trigger the slippage guard; a NaN incentive APR,
    current or previous, does not trigger the APR-cliff guard. *)
Theorem guards_never_trigger_on_NaN :
  (forall prices,
     prices <> [] ->
     triggered (depegGuard Number_toString prices Double.NaN) = false)
  /\ (forall symbols maxDeviationBps,
        symbols <> [] ->
        triggered
          (depegGuard Number_toString
             (map (fun s => (s, Double.NaN)) symbols) maxDeviationBps) = false)
  /\ (forall snapshot,
        triggered (slippageGuard Number_toString snapshot Double.NaN) = false)
  /\ (forall snapshot maxPriceImpactBps,
        slippageBps snapshot = Double.NaN ->
        triggered (slippageGuard Number_toString snapshot maxPriceImpactBps)
        = false)
  /\ (forall current previous,
        triggered (aprCliffGuard Number_toString current previous Double.NaN)
        = false)
  /\ (forall current previous minDropBps,
        incentiveAprBps current = Double.NaN
        \/ incentiveAprBps previous = Double.NaN ->
        triggered
          (aprCliffGuard Number_toString (Some current) (Some previous)
             minDropBps) = false).
Proof.
  split; [|split; [|split; [|split; [|split]]]].
  - intros prices Hne.
    destruct (triggered (depegGuard Number_toString prices Double.NaN)) eqn:E;
      [|reflexivity].
    apply depegGuard_triggered_exists in E. destruct E as [E | E];
      [contradiction|].
    rewrite existsb_exceeds_NaN in E. discriminate E.
  - intros symbols maxDeviationBps Hne.
    destruct (triggered (depegGuard Number_toString _ maxDeviationBps)) eqn:E;
      [|reflexivity].
    apply depegGuard_triggered_exists in E. destruct E as [E | E].
    + destruct symbols; [contradiction | discriminate E].
    + rewrite deviations_of_NaN in E. discriminate E.
  - intros snapshot. unfold slippageGuard.
    rewrite Double_gt_NaN_r. reflexivity.
  - intros snapshot maxPriceImpactBps Hnan. unfold slippageGuard.
    rewrite Hnan, Double_gt_NaN_l. reflexivity.
  - intros current previous. unfold aprCliffGuard.
    destruct current as [current|], previous as [previous|]; try reflexivity.
    cbv zeta. destruct (Double.le _ _); [reflexivity|].
    rewrite Double_gt_NaN_r. reflexivity.
  - intros current previous minDropBps Hnan. unfold aprCliffGuard.
    cbv zeta. destruct (Double.le _ _); [reflexivity|].
    assert (Hdrop : cliffDropBps (incentiveAprBps previous)
                      (incentiveAprBps current) = Double.NaN).
    { unfold cliffDropBps. cbv zeta.
      destruct Hnan as [-> | ->].
      - rewrite Double_sub_NaN_r, Double_div_NaN_l, Double_mul_NaN_l.
        reflexivity.
      - rewrite Double_div_NaN_r, Double_mul_NaN_l. reflexivity. }
    rewrite Hdrop, Double_gt_NaN_l. reflexivity.
Qed.

(** X14. Prices that are all exactly 1 pass the depeg guard at every
    threshold that is zero or more: the deviation of each is [+0]. *)
Theorem depegGuard_pegged_not_triggered (symbols : list string)
    (maxDeviationBps : Double.number) :
  symbols <> [] ->
  Double.le (Double.ofZ 0) maxDeviationBps = true ->
  depegGuard Number_toString
    (map (fun symbol => (symbol, Double.ofZ 1)) symbols) maxDeviationBps
  = {| triggered := false; reason := DEPEG_GUARD_OK; details := None |}.
Proof.
  intros Hne Hmax.
  assert (Hnone : existsb (exceeds maxDeviationBps)
            (map (fun e => {| symbol := e.1; bps := deviationBpsFromDollar e.2 |})
               (map (fun symbol => (symbol, Double.ofZ 1)) symbols)) = false).
  { clear Hne. induction symbols as [|s rest IH]; [reflexivity|].
    cbn [map existsb fst snd]. rewrite IH. unfold exceeds. cbn [bps].
    change (deviationBpsFromDollar (Double.ofZ 1)) with (Double.ofZ 0).
    rewrite (Double_zero_le_not_gt _ Hmax). reflexivity. }
  unfold depegGuard. destruct symbols as [|s rest]; [contradiction|].
  cbv zeta.
  change (map (fun symbol => (symbol, Double.ofZ 1)) (s :: rest))
    with ((s, Double.ofZ 1) :: map (fun symbol => (symbol, Double.ofZ 1)) rest)
    in *.
  cbv iota. rewrite Hnone. reflexivity.
Qed.

End GuardExtras.

(** At concrete inputs: what triggers at 100 bps triggers at 50 bps. *)
Lemma guards_antitone_in_threshold_witness :
  Guards.triggered
    (Guards.depegGuard Examples.sampleNumberToString
       [("USDC", Double.decimal 102 100)] (Double.ofZ 50)) = true.
Proof.
  apply (proj1 (guards_antitone_in_threshold Examples.sampleNumberToString
                  (Double.ofZ 50) (Double.ofZ 100) eq_refl)).
  vm_compute. reflexivity.
Defined.

(** At a concrete input: two stable symbols at exactly 1 and a threshold
    of 50 bps. *)
Lemma depegGuard_pegged_not_triggered_witness :
  Guards.depegGuard Examples.sampleNumberToString
    (map (fun symbol => (symbol, Double.ofZ 1)) ["USDC"; "USDT"])
    (Double.ofZ 50)
  = {| Guards.triggered := false;
       Guards.reason := Guards.DEPEG_GUARD_OK;
       Guards.details := None |}.
Proof.
  apply (depegGuard_pegged_not_triggered Examples.sampleNumberToString
           ["USDC"; "USDT"] (Double.ofZ 50)).
  - discriminate.
  - reflexivity.
Defined.

Section YieldExtras.

(** X15. Neither rate is ever negative: [computeIncentiveAprBps] and
    [computeNetApyBps] return zero, a positive number, or NaN, whatever
    their arguments. *)
Theorem yield_rates_never_negative :
  (forall rewardRatePerSecond rewardTokenPriceUsd tvlUsd,
     Double.lt
       (YieldMath.computeIncentiveAprBps rewardRatePerSecond
          rewardTokenPriceUsd tvlUsd) (Double.ofZ 0) = false)
  /\ (forall baseApyBps incentiveAprBps protocolFeeBps,
        Double.lt
          (YieldMath.computeNetApyBps baseApyBps incentiveAprBps protocolFeeBps)
          (Double.ofZ 0) = false).
Proof.
  split.
  - intros r p tvl. unfold YieldMath.computeIncentiveAprBps.
    destruct (Double.le tvl (Double.ofZ 0)); [reflexivity|].
    cbv zeta. apply Math_max_zero_not_negative.
  - intros b i f. unfold YieldMath.computeNetApyBps.
    apply Math_max_zero_not_negative.
Qed.

(** X16. [estimatePaybackHours] does not treat NaN as "never": a NaN delta
    is not [<= 0], so the result is NaN rather than +infinity, and so is
    the result for a NaN cost with a delta that is not [<= 0]; a delta of
    negative zero gives +infinity. *)
Theorem estimatePaybackHours_not_a_number :
  (forall costBps,
     YieldMath.estimatePaybackHours costBps Double.NaN = Double.NaN)
  /\ (forall deltaApyBps,
        Double.le deltaApyBps (Double.ofZ 0) = false ->
        YieldMath.estimatePaybackHours Double.NaN deltaApyBps = Double.NaN)
  /\ (forall costBps,
        YieldMath.estimatePaybackHours costBps (S754_zero true)
        = Double.PositiveInfinity).
Proof.
  unfold YieldMath.estimatePaybackHours. split; [|split].
  - intros costBps.
    change (Double.le Double.NaN (Double.ofZ 0)) with false. cbv iota.
    rewrite Double_div_NaN_r, !Double_mul_NaN_l. reflexivity.
  - intros deltaApyBps H. rewrite H.
    rewrite Double_div_NaN_l, !Double_mul_NaN_l. reflexivity.
  - intros costBps. reflexivity.
Qed.

End YieldExtras.

(** ** The oracle in front of the depeg guard *)

Section OracleAndGuards.
Import Js Oracle OracleProofs.

Variable config : LivePriceOracleConfig.
Variable clock : nat -> Z.
Variable upstream : nat -> list string -> FetchOutcome.
Variable Number_toString : Double.number -> string.

(** X17. An oracle configured with no stable symbol never asks the network
    for the batch: in every state [getStablePricesUsd] returns the empty
    record, counted as a fresh cache hit, without a request; and the depeg
    guard, given the prices of that batch, triggers at every threshold
    with "No stable prices available." *)
Theorem empty_stable_list_trips_depegGuard (m : Machine) :
  stableSymbols config = [] ->
  Oracle.getStablePricesUsd config clock upstream m
  = (inr [], with_telemetry (bumpCacheFreshHits (telemetry m)) m)
  /\ forall prices m' (toNumber : Q -> Double.number) maxDeviationBps,
       Oracle.getStablePricesUsd config clock upstream m = (inr prices, m') ->
       requests m' = requests m
       /\ Guards.depegGuard Number_toString
            (map (fun e => (e.1, toNumber e.2)) prices) maxDeviationBps
          = {| Guards.triggered := true;
               Guards.reason := Guards.DEPEG_GUARD_TRIGGERED;
               Guards.details := Some "No stable prices available." |}.
Proof.
  intros Hempty.
  assert (Hrun : Oracle.getStablePricesUsd config clock upstream m
                 = (inr [], with_telemetry (bumpCacheFreshHits (telemetry m)) m)).
  { unfold Oracle.getStablePricesUsd. rewrite Hempty. reflexivity. }
  split; [exact Hrun|].
  intros prices m' toNumber maxDeviationBps H.
  rewrite Hrun in H. injection H as <- <-. split; reflexivity.
Qed.

End OracleAndGuards.

(** At a concrete input: an oracle with no stable symbol, asked once. *)
Lemma empty_stable_list_trips_depegGuard_witness :
  Oracle.getStablePricesUsd Examples.noStableConfig Examples.tickingClock
    Examples.unreachableUpstream Oracle.newMachine
  = (inr [],
     Oracle.with_telemetry
       (Oracle.bumpCacheFreshHits (Oracle.telemetry Oracle.newMachine))
       Oracle.newMachine).
Proof.
  apply (proj1 (empty_stable_list_trips_depegGuard Examples.noStableConfig
                  Examples.tickingClock Examples.unreachableUpstream
                  Examples.sampleNumberToString Oracle.newMachine eq_refl)).
Defined.

(** ** More of the migration report *)

Section MigrationExtras.
Import Migration MigrationLogic.

Variable isAddress : string -> bool.
Variable formatUnits : Z -> Z -> string.
Variable Number_ : string -> option Q.
Variable JSON_stringify : MigrationReport -> string.
Variable POOLS : list Pool.
Variable TOKENS_USDC : string.
Variable RUNTIME_chainId : Z.
Variable RUNTIME_rpcUrl : string.

Abbreviation run w :=
  (Migration.main isAddress formatUnits Number_ JSON_stringify POOLS
     TOKENS_USDC RUNTIME_chainId RUNTIME_rpcUrl w).

(** What a completed run is made of. *)
Lemma main_completed_inv (w : World) (f : Finished) :
  run w = MainCompleted f ->
  exists oldAddress newAddress oldSnapshot newSnapshot oldEndpoint newEndpoint,
    getRequiredAddress isAddress w "MIGRATION_OLD_VAULT_ADDRESS" = inr oldAddress
    /\ getRequiredAddress isAddress w "MIGRATION_NEW_VAULT_ADDRESS" = inr newAddress
    /\ readVaultSnapshot formatUnits POOLS TOKENS_USDC w oldAddress
         (getUsdcDecimals Number_ w) = inr oldSnapshot
    /\ readVaultSnapshot formatUnits POOLS TOKENS_USDC w newAddress
         (getUsdcDecimals Number_ w) = inr newSnapshot
    /\ readOptionalEndpoint w (getOptionalUrl w "MIGRATION_OLD_BOT_STATE_URL")
         (getAuthToken w) = inr oldEndpoint
    /\ readOptionalEndpoint w (getOptionalUrl w "MIGRATION_NEW_BOT_STATE_URL")
         (getAuthToken w) = inr newEndpoint
    /\ report f
       = {| generatedAt := nowIso w;
            chainId := RUNTIME_chainId;
            rpcUrl := RUNTIME_rpcUrl;
            oldVault := oldSnapshot;
            newVault := newSnapshot;
            oldService := oldEndpoint;
            newService := newEndpoint;
            checks := buildChecks TOKENS_USDC oldSnapshot newSnapshot
                        oldEndpoint newEndpoint |}
    /\ exitCode f
       = if existsb isFail
              (buildChecks TOKENS_USDC oldSnapshot newSnapshot oldEndpoint
                 newEndpoint)
         then 1 else 0.
Proof.
  unfold Migration.main. intros H.
  destruct (getRequiredAddress isAddress w "MIGRATION_OLD_VAULT_ADDRESS")
    as [e|oldAddress]; [discriminate|].
  destruct (getRequiredAddress isAddress w "MIGRATION_NEW_VAULT_ADDRESS")
    as [e|newAddress]; [discriminate|].
  destruct (readVaultSnapshot formatUnits POOLS TOKENS_USDC w oldAddress _)
    as [e|oldSnapshot] eqn:Hold; [discriminate|].
  destruct (readVaultSnapshot formatUnits POOLS TOKENS_USDC w newAddress _)
    as [e|newSnapshot] eqn:Hnew; [discriminate|].
  destruct (readOptionalEndpoint w (getOptionalUrl w "MIGRATION_OLD_BOT_STATE_URL") _)
    as [e|oldEndpoint] eqn:HoldE; [discriminate|].
  destruct (readOptionalEndpoint w (getOptionalUrl w "MIGRATION_NEW_BOT_STATE_URL") _)
    as [e|newEndpoint] eqn:HnewE; [discriminate|].
  match type of H with
  | context [match ?x with inl _ => MainRejected _ | inr _ => _ end] =>
      destruct x; [discriminate H|]
  end.
  injection H as <-.
  exists oldAddress, newAddress, oldSnapshot, newSnapshot, oldEndpoint, newEndpoint.
  repeat split; first [assumption | reflexivity].
Qed.

Lemma buildChecks_ids (oldSnapshot newSnapshot : VaultSnapshot)
    (oldEndpoint newEndpoint : option EndpointSnapshot) :
  map id (buildChecks TOKENS_USDC oldSnapshot newSnapshot oldEndpoint newEndpoint)
  = ["old_vault.lp_drained"; "new_vault.user_flow"; "new_vault.deposit_token";
     "railway.new_service_ready"; "railway.old_service_reachable"].
Proof.
  unfold buildChecks, pushCheck.
  destruct newEndpoint, oldEndpoint; reflexivity.
Qed.

Lemma buildChecks_statuses (oldSnapshot newSnapshot : VaultSnapshot)
    (oldEndpoint newEndpoint : option EndpointSnapshot) :
  map status
    (buildChecks TOKENS_USDC oldSnapshot newSnapshot oldEndpoint newEndpoint)
  = [ (if hasLpExposure oldSnapshot then FAIL else PASS);
      (if supportsUserFlow newSnapshot then PASS else FAIL);
      (if bool_decide (toLowerCase <$> depositToken newSnapshot
                       = Some (toLowerCase TOKENS_USDC))
       then PASS else WARN);
      match newEndpoint with
      | Some e =>
          if (httpStatus e =? 200) && bool_decide (healthy e = Some true)
             && bool_decide (ready e = Some true)
          then PASS else FAIL
      | None => WARN
      end;
      match oldEndpoint with
      | Some e =>
          if (200 <=? httpStatus e) && (httpStatus e <? 500) then PASS else WARN
      | None => WARN
      end ].
Proof.
  unfold buildChecks, pushCheck.
  destruct newEndpoint, oldEndpoint; reflexivity.
Qed.

(** X18. A completed report always lists the same five checks, in the same
    order, whatever was read. *)
Theorem completed_report_lists_five_checks (w : World) (f : Finished) :
  run w = MainCompleted f ->
  map id (checks (report f))
  = ["old_vault.lp_drained"; "new_vault.user_flow"; "new_vault.deposit_token";
     "railway.new_service_ready"; "railway.old_service_reachable"].
Proof.
  intros H.
  destruct (main_completed_inv w f H)
    as (oa & na & os & ns & oe & ne & _ & _ & _ & _ & _ & _ & -> & _).
  apply buildChecks_ids.
Qed.

Lemma buildChecks_fails (oldSnapshot newSnapshot : VaultSnapshot)
    (oldEndpoint newEndpoint : option EndpointSnapshot) :
  existsb isFail
    (buildChecks TOKENS_USDC oldSnapshot newSnapshot oldEndpoint newEndpoint)
  = hasLpExposure oldSnapshot
    || negb (supportsUserFlow newSnapshot)
    || match newEndpoint with
       | Some e => negb (isReady e)
       | None => false
       end.
Proof.
  assert (Hfail : forall rows,
            existsb isFail rows
            = existsb (fun s => match s with FAIL => true | _ => false end)
                (map status rows)).
  { induction rows as [|row rows IH]; [reflexivity|].
    simpl. rewrite IH. reflexivity. }
  rewrite Hfail, buildChecks_statuses. cbn [existsb]. unfold isReady.
  destruct (hasLpExposure oldSnapshot), (supportsUserFlow newSnapshot),
    (bool_decide (toLowerCase <$> depositToken newSnapshot
                  = Some (toLowerCase TOKENS_USDC)));
    destruct newEndpoint as [e|];
    try destruct ((httpStatus e =? 200) && bool_decide (healthy e = Some true)
                  && bool_decide (ready e = Some true));
    destruct oldEndpoint as [o|];
    try destruct ((200 <=? httpStatus o) && (httpStatus o <? 500));
    reflexivity.
Qed.

Lemma isReady_spec (e : EndpointSnapshot) :
  isReady e = true
  <-> httpStatus e = 200 /\ healthy e = Some true /\ ready e = Some true.
Proof.
  unfold isReady.
  rewrite !andb_true_iff, Z.eqb_eq, !bool_decide_eq_true. tauto.
Qed.

(** X19. The exit code of a completed run is 1 exactly when the old vault
    still has LP exposure, or the new vault lacks the user flow, or the new
    service is configured and is not (HTTP 200 and healthy and ready);
    otherwise it is 0. A deposit-token mismatch, an unconfigured new
    service and anything about the old service never change it. *)
Theorem exit_code_one_iff_cutover_blocked (w : World) (f : Finished) :
  run w = MainCompleted f ->
  (exitCode f = 1 \/ exitCode f = 0)
  /\ (exitCode f = 1 <->
      hasLpExposure (oldVault (report f)) = true
      \/ supportsUserFlow (newVault (report f)) = false
      \/ exists endpoint,
           newService (report f) = Some endpoint
           /\ ~ (httpStatus endpoint = 200
                 /\ healthy endpoint = Some true
                 /\ ready endpoint = Some true)).
Proof.
  intros H.
  destruct (main_completed_inv w f H)
    as (oa & na & os & ns & oe & ne & _ & _ & _ & _ & _ & _ & -> & ->).
  cbn [oldVault newVault newService].
  rewrite buildChecks_fails.
  split.
  { destruct (_ || _ || _); auto. }
  destruct (hasLpExposure os); [cbn; split; auto|].
  destruct (supportsUserFlow ns); [|cbn; split; auto].
  cbn [orb negb].
  destruct ne as [e|].
  - destruct (isReady e) eqn:Hr; cbn [negb].
    + split; [discriminate|].
      intros [Hx | [Hx | (e' & [= <-] & Hn)]]; try discriminate.
      exfalso. apply Hn. apply isReady_spec. exact Hr.
    + split; [intros _|reflexivity].
      right. right. exists e. split; [reflexivity|].
      intros Hn. apply isReady_spec in Hn. congruence.
  - split; [discriminate|].
    intros [Hx | [Hx | (e' & Hx & _)]]; discriminate.
Qed.

Lemma readPoolBalances_ok (w : World) (vault : string) (decimals : Z)
    (pools : list Pool) (rows : list PoolBalanceRow) :
  readPoolBalances formatUnits w pools vault decimals = inr rows ->
  Forall2 (fun pool row =>
             poolId row = pool_id pool
             /\ lpToken row = pool_lpToken pool
             /\ balanceOf w (pool_lpToken pool) vault = inr (balanceRaw row)
             /\ balanceFormatted row = formatUnits (balanceRaw row) decimals)
    pools rows.
Proof.
  revert rows. induction pools as [|pool rest IH]; intros rows H; simpl in H.
  - injection H as <-. constructor.
  - destruct (balanceOf w (pool_lpToken pool) vault) as [e|balance] eqn:Hb;
      [discriminate|].
    destruct (readPoolBalances formatUnits w rest vault decimals) as [e|rows'];
      [discriminate|].
    injection H as <-. constructor; [|apply IH; reflexivity].
    cbn. rewrite Hb. auto.
Qed.

Lemma readPoolBalances_rejects (w : World) (vault : string) (decimals : Z)
    (pools : list Pool) :
  (exists e, readPoolBalances formatUnits w pools vault decimals = inl e)
  <-> exists pool e,
        In pool pools /\ balanceOf w (pool_lpToken pool) vault = inl e.
Proof.
  induction pools as [|pool rest IH]; simpl.
  - split; [intros (e & H); discriminate | intros (pool & e & [] & _)].
  - destruct (balanceOf w (pool_lpToken pool) vault) as [e|balance] eqn:Hb.
    + split; [intros _ | intros _; eauto].
      exists pool, e. auto.
    + destruct (readPoolBalances formatUnits w rest vault decimals)
        as [e|rows] eqn:Hrest.
      * split; [intros _ | intros _; eauto].
        destruct (proj1 IH (ex_intro _ e eq_refl)) as (p & e' & Hin & Hp).
        exists p, e'. auto.
      * split; [intros (e & H); discriminate|].
        intros (p & e & [<- | Hin] & Hp); [congruence|].
        destruct (proj2 IH) as (e' & He'); [eauto | discriminate].
Qed.

(** X20. In the snapshot of a vault, [hasLpExposure] holds exactly when the
    vault holds a positive balance of the LP token of some configured pool,
    [supportsUserFlow] exactly when the [depositToken()] read succeeds (and
    then [depositToken] is what it returned), and there is one balance row
    per configured pool, in the order of [POOLS]. *)
Theorem readVaultSnapshot_flags (w : World) (vault : string) (decimals : Z)
    (snapshot : VaultSnapshot) :
  readVaultSnapshot formatUnits POOLS TOKENS_USDC w vault decimals
  = inr snapshot ->
  (hasLpExposure snapshot = true
   <-> exists pool balance,
         In pool POOLS
         /\ balanceOf w (pool_lpToken pool) vault = inr balance
         /\ 0 < balance)
  /\ (supportsUserFlow snapshot = true
      <-> exists token, readDepositToken w vault = inr token)
  /\ depositToken snapshot = caught (readDepositToken w vault)
  /\ map poolId (poolLpBalances snapshot) = map pool_id POOLS
  /\ balanceOf w TOKENS_USDC vault = inr (usdcBalanceRaw snapshot).
Proof.
  unfold readVaultSnapshot. intros H.
  destruct (balanceOf w TOKENS_USDC vault) as [e|usdc] eqn:Husdc; [discriminate|].
  destruct (readPoolBalances formatUnits w POOLS vault decimals)
    as [e|rows] eqn:Hrows; [discriminate|].
  injection H as <-. cbn.
  apply readPoolBalances_ok in Hrows.
  split; [|split; [|split; [reflexivity|split; [|reflexivity]]]].
  - rewrite existsb_exists. split.
    + intros (row & Hin & Hpos). apply Z.ltb_lt in Hpos.
      induction Hrows as [|pool row' pools rows' Hhead Htail IH];
        [destruct Hin|].
      destruct Hin as [-> | Hin].
      * destruct Hhead as (_ & _ & Hb & _). exists pool, (balanceRaw row).
        split; [left; reflexivity | auto].
      * destruct (IH Hin) as (p & b & Hp & Hb). exists p, b.
        split; [right; exact Hp | exact Hb].
    + intros (pool & balance & Hin & Hb & Hpos).
      induction Hrows as [|pool' row pools rows' Hhead Htail IH];
        [destruct Hin|].
      destruct Hin as [-> | Hin].
      * exists row. split; [left; reflexivity|].
        destruct Hhead as (_ & _ & Hb' & _).
        rewrite Hb in Hb'. injection Hb' as <-. apply Z.ltb_lt. exact Hpos.
      * destruct (IH Hin) as (r & Hr & Hp). exists r.
        split; [right; exact Hr | exact Hp].
  - destruct (readDepositToken w vault) as [e|token]; cbn.
    + split; [discriminate | intros (t & Hx); discriminate].
    + split; [eauto|]. intros _.
      first [reflexivity | apply bool_decide_eq_true; eauto].
  - induction Hrows as [|pool row pools rows' Hhead Htail IH]; [reflexivity|].
    simpl. rewrite IH. destruct Hhead as (-> & _). reflexivity.
Qed.

Lemma readVaultSnapshot_rejects_only_on_balance_reads_aux (w : World)
    (vault : string) (decimals : Z) :
  (exists e,
     readVaultSnapshot formatUnits POOLS TOKENS_USDC w vault decimals = inl e)
  <-> (exists e, balanceOf w TOKENS_USDC vault = inl e)
      \/ exists pool e,
           In pool POOLS /\ balanceOf w (pool_lpToken pool) vault = inl e.
Proof.
  unfold readVaultSnapshot.
  destruct (balanceOf w TOKENS_USDC vault) as [e|usdc] eqn:Husdc.
  - split; [intros _; left; eauto | intros _; eauto].
  - rewrite <- (readPoolBalances_rejects w vault decimals POOLS).
    destruct (readPoolBalances formatUnits w POOLS vault decimals) as [e|rows].
    + split; [intros _; right; eauto | intros _; eauto].
    + split; [intros (e & H); discriminate|].
      intros [(e & H) | (e & H)]; discriminate.
Qed.

(** X21. Reading a vault rejects exactly when the USDC balance read or the
    LP-token balance read of some configured pool rejects; the three
    user-flow reads ([depositToken], [totalUserShares], [hasOpenLpPosition])
    never make it reject. *)
Theorem readVaultSnapshot_rejects_only_on_balance_reads (w : World)
    (vault : string) (decimals : Z) :
  (exists e,
     readVaultSnapshot formatUnits POOLS TOKENS_USDC w vault decimals = inl e)
  <-> (exists e, balanceOf w TOKENS_USDC vault = inl e)
      \/ exists pool e,
           In pool POOLS /\ balanceOf w (pool_lpToken pool) vault = inl e.
Proof.
  apply readVaultSnapshot_rejects_only_on_balance_reads_aux.
Qed.

(** X22. An endpoint that answers is never an error: whatever the status and
    whatever the body (unparsable, or any JSON value), [readStateEndpoint]
    yields a snapshot with that status; when the body is not a JSON object,
    every field read from it is [null]. *)
Theorem readStateEndpoint_tolerates_any_body (w : World)
    (url authToken : string) (httpCode : Z) (body : option Json) :
  httpGet w url authToken = Responded httpCode body ->
  exists snapshot,
    readStateEndpoint w url authToken = inr snapshot
    /\ httpStatus snapshot = httpCode
    /\ Migration.url snapshot = url
    /\ ((forall fields, body <> Some (JObject fields)) ->
        healthy snapshot = None /\ ready snapshot = None
        /\ reason snapshot = None /\ runtime snapshot = None
        /\ stateCounts snapshot
           = {| snapshots := None; decisions := None; tweets := None |}).
Proof.
  intros H. unfold readStateEndpoint. rewrite H.
  eexists. split; [reflexivity|]. split; [reflexivity|]. split; [reflexivity|].
  intros Hobj. cbn.
  destruct body as [[| | | |items|fields]|]; try (repeat split; reflexivity).
  exfalso. exact (Hobj fields eq_refl).
Qed.

(** X23. [main] completes, with the JSON block printed and all five checks
    present, whenever both vault addresses are valid, every balance read
    answers, every configured endpoint answers (with any status and body)
    and the report file, if asked for, can be written. *)
Theorem main_completes_when_reads_answer (w : World)
    (oldAddress newAddress : string) :
  getRequiredAddress isAddress w "MIGRATION_OLD_VAULT_ADDRESS" = inr oldAddress ->
  getRequiredAddress isAddress w "MIGRATION_NEW_VAULT_ADDRESS" = inr newAddress ->
  (forall token account, exists balance,
      balanceOf w token account = inr balance) ->
  (forall url authToken, exists httpCode body,
      httpGet w url authToken = Responded httpCode body) ->
  (forall path contents, writeFile w path contents = inr tt) ->
  exists f,
    run w = MainCompleted f
    /\ printsJsonReport JSON_stringify f
    /\ length (checks (report f)) = 5%nat
    /\ address (oldVault (report f)) = oldAddress
    /\ address (newVault (report f)) = newAddress.
Proof.
  intros Hold Hnew Hbal Hhttp Hwrite.
  assert (Hsnap : forall vault decimals, exists snapshot,
            readVaultSnapshot formatUnits POOLS TOKENS_USDC w vault decimals
            = inr snapshot /\ address snapshot = vault).
  { intros vault decimals.
    destruct (readVaultSnapshot formatUnits POOLS TOKENS_USDC w vault decimals)
      as [e|snapshot] eqn:Hs.
    - exfalso.
      destruct (proj1 (readVaultSnapshot_rejects_only_on_balance_reads_aux w vault decimals)
                  (ex_intro _ e Hs)) as [(e' & He) | (p & e' & _ & He)].
      + destruct (Hbal TOKENS_USDC vault) as (b & Hb). congruence.
      + destruct (Hbal (pool_lpToken p) vault) as (b & Hb). congruence.
    - exists snapshot. split; [reflexivity|].
      unfold readVaultSnapshot in Hs.
      destruct (balanceOf w TOKENS_USDC vault); [discriminate|].
      destruct (readPoolBalances formatUnits w POOLS vault decimals);
        [discriminate|].
      injection Hs as <-. reflexivity. }
  assert (Hend : forall stateUrl authToken, exists endpoint,
            readOptionalEndpoint w stateUrl authToken = inr endpoint).
  { intros [url|] authToken; [|eexists; reflexivity].
    unfold readOptionalEndpoint, readStateEndpoint.
    destruct (Hhttp url authToken) as (c & b & ->). eexists. reflexivity. }
  unfold Migration.main. rewrite Hold, Hnew.
  destruct (Hsnap oldAddress (getUsdcDecimals Number_ w)) as (os & -> & Hoa).
  destruct (Hsnap newAddress (getUsdcDecimals Number_ w)) as (ns & -> & Hna).
  destruct (Hend (getOptionalUrl w "MIGRATION_OLD_BOT_STATE_URL") (getAuthToken w))
    as (oe & ->).
  destruct (Hend (getOptionalUrl w "MIGRATION_NEW_BOT_STATE_URL") (getAuthToken w))
    as (ne & ->).
  assert (Hw : forall r : MigrationReport,
            match envTrimmed w "MIGRATION_REPORT_PATH" with
            | Some path => writeFile w path (JSON_stringify r)
            | None => inr tt
            end = inr tt).
  { intros r. destruct (envTrimmed w "MIGRATION_REPORT_PATH"); [apply Hwrite|reflexivity]. }
  rewrite Hw. eexists. split; [reflexivity|]. cbn [report checks oldVault newVault].
  split.
  { unfold printsJsonReport, printReport. cbn [consoleLog report].
    eexists. rewrite !app_assoc. reflexivity. }
  split; [|auto].
  rewrite <- (length_map id), buildChecks_ids. reflexivity.
Qed.

(** X24. Without an old vault address (unset, empty or only white space),
    [main] rejects with the missing-variable message whatever else the
    environment holds; nothing is read and nothing is printed. *)
Theorem main_rejects_on_blank_old_vault_address (w : World) :
  default "" (Js.trim <$> processEnv w !! "MIGRATION_OLD_VAULT_ADDRESS") = "" ->
  run w
  = MainRejected "Missing required env var: MIGRATION_OLD_VAULT_ADDRESS".
Proof.
  intros H. unfold Migration.main, getRequiredAddress, envTrimmed.
  destruct (processEnv w !! "MIGRATION_OLD_VAULT_ADDRESS") as [raw|];
    [|reflexivity].
  cbn in H. cbn zeta. destruct (decide (Js.trim raw = "")); [reflexivity|contradiction].
Qed.

(** X25. In a completed run the old-service check is PASS exactly when the
    old status URL is configured and its endpoint answered with a status in
    200..499; in every other completed run it is WARN. *)
Theorem old_service_check_passes_iff_status_below_500 (w : World)
    (f : Finished) :
  run w = MainCompleted f ->
  exists row,
    checkOf "railway.old_service_reachable" f = Some row
    /\ (status row = PASS \/ status row = WARN)
    /\ (status row = PASS
        <-> exists endpoint,
              oldService (report f) = Some endpoint
              /\ 200 <= httpStatus endpoint < 500).
Proof.
  intros H.
  destruct (main_completed_inv w f H)
    as (oa & na & os & ns & oe & ne & _ & _ & _ & _ & _ & _ & Hr & _).
  unfold checkOf. rewrite Hr. cbn [report checks oldService].
  destruct (buildChecks_old_service TOKENS_USDC os ns oe ne)
    as (row & Hfind & Hstatus).
  exists row. split; [exact Hfind|]. rewrite Hstatus.
  destruct oe as [e|].
  - destruct ((200 <=? httpStatus e) && (httpStatus e <? 500)) eqn:Hb.
    + apply andb_true_iff in Hb. destruct Hb as (H1 & H2).
      apply Z.leb_le in H1. apply Z.ltb_lt in H2.
      split; [auto|]. split; [intros _; exists e; auto | reflexivity].
    + split; [auto|]. split; [discriminate|].
      intros (e' & [= <-] & H1 & H2).
      apply Z.leb_le in H1. apply Z.ltb_lt in H2.
      rewrite H1, H2 in Hb. discriminate.
  - split; [auto|]. split; [discriminate|]. intros (e' & Hx & _). discriminate.
Qed.

End MigrationExtras.

Section MigrationInstances.
Import Migration Examples.

(** At a concrete input: the old endpoint answers 503. *)
Lemma completed_report_lists_five_checks_witness :
  exists f,
    runMigration (Responded 503 None) = MainCompleted f
    /\ map id (checks (report f))
       = ["old_vault.lp_drained"; "new_vault.user_flow";
          "new_vault.deposit_token"; "railway.new_service_ready";
          "railway.old_service_reachable"].
Proof.
  eexists. split; [vm_compute; reflexivity|].
  apply (completed_report_lists_five_checks sampleIsAddress sampleFormatUnits
           sampleNumber sampleStringify samplePools sampleUsdc 143
           "https://rpc.monad.xyz" (migrationWorld (Responded 503 None))).
  vm_compute. reflexivity.
Defined.

(** At a concrete input: the old vault still holds LP tokens and the new
    vault has no user flow, so the run exits with 1. *)
Lemma exit_code_one_iff_cutover_blocked_witness :
  exists f,
    Migration.main sampleIsAddress sampleFormatUnits sampleNumber
      sampleStringify samplePools sampleUsdc 143 "https://rpc.monad.xyz"
      exposedWorld = MainCompleted f
    /\ exitCode f = 1.
Proof.
  eexists. split; [vm_compute; reflexivity|].
  apply (proj2 (exit_code_one_iff_cutover_blocked sampleIsAddress
                  sampleFormatUnits sampleNumber sampleStringify samplePools
                  sampleUsdc 143 "https://rpc.monad.xyz" exposedWorld _
                  eq_refl)).
  left. reflexivity.
Defined.

(** At a concrete input: the old vault of [exposedWorld]. *)
Lemma readVaultSnapshot_flags_witness :
  exists snapshot,
    readVaultSnapshot sampleFormatUnits samplePools sampleUsdc exposedWorld
      "0x00000000000000000000000000000000000000d1" 6 = inr snapshot
    /\ hasLpExposure snapshot = true
    /\ supportsUserFlow snapshot = false.
Proof.
  eexists. split; [vm_compute; reflexivity|].
  destruct (readVaultSnapshot_flags sampleFormatUnits samplePools sampleUsdc
              exposedWorld "0x00000000000000000000000000000000000000d1" 6 _
              eq_refl) as (Hlp & Hflow & _).
  split.
  - apply Hlp.
    exists {| pool_id := "curvance-usdc";
              pool_lpToken := "0x00000000000000000000000000000000000000b1" |}, 5.
    split; [left; reflexivity|]. split; [reflexivity | lia].
  - apply not_true_is_false. intros E.
    apply Hflow in E. destruct E as (t & Ht). discriminate Ht.
Defined.

(** At a concrete input: an endpoint that answers 503 with an unparsable
    body. *)
Lemma readStateEndpoint_tolerates_any_body_witness :
  exists snapshot,
    readStateEndpoint (migrationWorld (Responded 503 None))
      "https://old-bot.example/state" "" = inr snapshot
    /\ httpStatus snapshot = 503
    /\ Migration.url snapshot = "https://old-bot.example/state"
    /\ ((forall fields, None <> Some (JObject fields)) ->
        healthy snapshot = None /\ ready snapshot = None
        /\ reason snapshot = None /\ runtime snapshot = None
        /\ stateCounts snapshot
           = {| snapshots := None; decisions := None; tweets := None |}).
Proof.
  apply (readStateEndpoint_tolerates_any_body
           (migrationWorld (Responded 503 None))).
  reflexivity.
Defined.

(** At a concrete input: every read answers, the old endpoint with 503. *)
Lemma main_completes_when_reads_answer_witness :
  exists f,
    runMigration (Responded 503 None) = MainCompleted f
    /\ printsJsonReport sampleStringify f
    /\ length (checks (report f)) = 5%nat
    /\ address (oldVault (report f))
       = "0x00000000000000000000000000000000000000d1"
    /\ address (newVault (report f))
       = "0x00000000000000000000000000000000000000d2".
Proof.
  apply (main_completes_when_reads_answer sampleIsAddress sampleFormatUnits
           sampleNumber sampleStringify samplePools sampleUsdc 143
           "https://rpc.monad.xyz" (migrationWorld (Responded 503 None))).
  - reflexivity.
  - reflexivity.
  - intros token account. exists 0. reflexivity.
  - intros url authToken. exists 503, None. reflexivity.
  - intros path contents. reflexivity.
Defined.

(** At a concrete input: the old vault address is three spaces. *)
Lemma main_rejects_on_blank_old_vault_address_witness :
  Migration.main sampleIsAddress sampleFormatUnits sampleNumber
    sampleStringify samplePools sampleUsdc 143 "https://rpc.monad.xyz"
    blankAddressWorld
  = MainRejected "Missing required env var: MIGRATION_OLD_VAULT_ADDRESS".
Proof.
  apply (main_rejects_on_blank_old_vault_address sampleIsAddress
           sampleFormatUnits sampleNumber sampleStringify samplePools
           sampleUsdc 143 "https://rpc.monad.xyz" blankAddressWorld).
  reflexivity.
Defined.

(** At concrete inputs: the old endpoint answers 404, which passes, and
    503, which warns. *)
Lemma old_service_check_passes_iff_status_below_500_witness :
  (exists f row,
     runMigration (Responded 404 None) = MainCompleted f
     /\ checkOf "railway.old_service_reachable" f = Some row
     /\ status row = PASS)
  /\ (exists f row,
        runMigration (Responded 503 None) = MainCompleted f
        /\ checkOf "railway.old_service_reachable" f = Some row
        /\ status row = WARN).
Proof.
  split.
  - destruct (old_service_check_passes_iff_status_below_500 sampleIsAddress
                sampleFormatUnits sampleNumber sampleStringify samplePools
                sampleUsdc 143 "https://rpc.monad.xyz"
                (migrationWorld (Responded 404 None)) _ eq_refl)
      as (row & Hrow & _ & Hpass).
    eexists. exists row. split; [reflexivity|]. split; [exact Hrow|].
    apply Hpass. eexists. split; [reflexivity|]. cbn. lia.
  - destruct (old_service_check_passes_iff_status_below_500 sampleIsAddress
                sampleFormatUnits sampleNumber sampleStringify samplePools
                sampleUsdc 143 "https://rpc.monad.xyz"
                (migrationWorld (Responded 503 None)) _ eq_refl)
      as (row & Hrow & [Hp | Hw] & Hpass).
    + exfalso. apply Hpass in Hp. destruct Hp as (e & He & Hs).
      injection He as <-. cbn in Hs. lia.
    + eexists. exists row. split; [reflexivity|]. split; [exact Hrow | exact Hw].
Defined.

End MigrationInstances.

(** ** The bot control route *)

Module ControlRouteProofs.
Import Js ControlRoute.

Section Route.

Variable env : gmap string string.
Variable fetch_ : Outgoing -> Upstream.
Variable JSON_stringify : Migration.Json -> string.
Variable relayable : Z -> bool.


Lemma actionOf_known (requestBody : Migration.Json) (action : string) :
  actionOf requestBody = Some action ->
  In action ["pause"; "resume"; "exit"; "rotate"]
  /\ Migration.prop "action" requestBody = Some (Migration.JString action).
Proof.
  unfold actionOf.
  destruct (Migration.prop "action" requestBody) as [[| | |s| |]|];
    try discriminate.
  destruct (decide (s ∈ knownActions)) as [Hin|]; [|discriminate].
  intros [= <-]. split; [|reflexivity].
  apply list_elem_of_In. exact Hin.
Qed.

(** X26. [POST] sends at most one request, and only for one of the four
    actions: the request goes to [<base>/controls/<action>] where [action]
    is the string under [action] of the request body, and carries a body
    exactly when the action is [rotate], holding the [poolId] of the
    request body or the empty string when that is absent or [null]. *)
Theorem POST_forwards_only_known_actions (parsed : option Migration.Json)
    (out : Outgoing) :
  In out (POST env fetch_ JSON_stringify relayable parsed).2 ->
  (POST env fetch_ JSON_stringify relayable parsed).2 = [out]
  /\ exists baseUrl action,
       resolveControlBaseUrl env = Some baseUrl
       /\ baseUrl <> ""
       /\ In action ["pause"; "resume"; "exit"; "rotate"]
       /\ Migration.prop "action" (default (Migration.JObject []) parsed)
          = Some (Migration.JString action)
       /\ method out = "POST"
       /\ target out = baseUrl +:+ "/controls/" +:+ action
       /\ body out
          = if decide (action = "rotate")
            then Some (JSON_stringify
                         (Migration.JObject
                            [("poolId",
                              match Migration.prop "poolId"
                                      (default (Migration.JObject []) parsed)
                              with
                              | None | Some Migration.JNull =>
                                  Migration.JString ""
                              | Some v => v
                              end)]))
            else None.
Proof.
  unfold POST, notConfigured.
  destruct (resolveControlBaseUrl env) as [baseUrl|]; [|intros []].
  destruct (decide (baseUrl = "")) as [|Hbase]; [intros []|].
  generalize (actionOf_known (default (Migration.JObject []) parsed)).
  destruct (default (Migration.JObject []) parsed) as [| | | | |fields];
    intros Hsent; try (intros []);
    (destruct (actionOf _) as [action|] eqn:Hact; [|intros []]);
    (intros [<- | []]; split; [reflexivity|]);
    exists baseUrl, action;
    destruct (Hsent action eq_refl) as (Hin & Hprop);
    (split; [reflexivity|]); (split; [exact Hbase|]);
    (split; [exact Hin|]); (split; [exact Hprop|]);
    (split; [reflexivity|]); (split; [reflexivity|]);
    cbn [body]; unfold poolIdOf;
    destruct (decide (action = "rotate")); reflexivity.
Qed.


End Route.

Section RouteInstances.
Import Examples.

(** At a concrete input: a rotate command for one pool. *)
Lemma POST_forwards_only_known_actions_witness :
  (POST controlEnv queueingBot sampleJsonText sampleRelayable rotateRequest).2
  = [{| method := "POST";
        target := "https://bot.example/controls/rotate";
        headers := [("Content-Type", "application/json");
                    ("x-bot-status-token", "s3cret")];
        body := Some "{...}" |}]
  /\ exists baseUrl action,
       resolveControlBaseUrl controlEnv = Some baseUrl
       /\ baseUrl <> ""
       /\ In action ["pause"; "resume"; "exit"; "rotate"]
       /\ Migration.prop "action" (default (Migration.JObject []) rotateRequest)
          = Some (Migration.JString action)
       /\ method
            {| method := "POST";
               target := "https://bot.example/controls/rotate";
               headers := [("Content-Type", "application/json");
                           ("x-bot-status-token", "s3cret")];
               body := Some "{...}" |} = "POST"
       /\ target
            {| method := "POST";
               target := "https://bot.example/controls/rotate";
               headers := [("Content-Type", "application/json");
                           ("x-bot-status-token", "s3cret")];
               body := Some "{...}" |}
          = baseUrl +:+ "/controls/" +:+ action
       /\ body
            {| method := "POST";
               target := "https://bot.example/controls/rotate";
               headers := [("Content-Type", "application/json");
                           ("x-bot-status-token", "s3cret")];
               body := Some "{...}" |}
          = if decide (action = "rotate")
            then Some (sampleJsonText
                         (Migration.JObject
                            [("poolId",
                              match Migration.prop "poolId"
                                      (default (Migration.JObject [])
                                         rotateRequest)
                              with
                              | None | Some Migration.JNull =>
                                  Migration.JString ""
                              | Some v => v
                              end)]))
            else None.
Proof.
  apply (POST_forwards_only_known_actions controlEnv queueingBot
           sampleJsonText sampleRelayable rotateRequest).
  left. reflexivity.
Defined.

End RouteInstances.

End ControlRouteProofs.
